(** * pauleynuts_backend: notification scheduling and invitation flow

    A shallow embedding of
    - [src/app/modules/content/content.service.ts] (schedule reconciliation
      and the cron expression derived from the progress-alert schedule),
    - [src/app/modules/content/notificationWorker.ts] (the job handlers),
    - [src/app/modules/campaign/campaign.service.ts]
      ([invitePeopleToCampaign]),
    and the properties of the specification stated over it.

    Asynchronous functions are embedded in a state-and-exception monad:
    an [await]ed call runs to completion before the next statement, a
    rejected promise is a [Throw], and the state reached when an
    exception is raised is kept (what was sent stays sent). *)

From Stdlib Require Import ZArith String Ascii Bool Lia DecimalString SpecFloat.
From stdpp Require Import base option list gmap strings.

#[local] Open Scope Z_scope.
#[local] Open Scope string_scope.

(** ** JavaScript values and built-ins used by the source *)

Module Js.

(** What a [throw] (or a rejected promise) carries. [AppError] is the
    repository's error class (status code, message); [TypeError] is the
    engine's error on a property access through [undefined];
    [Rejected] is the rejection of an external collaborator (queue
    backend, SMS gateway, database), named by the collaborator. *)
Inductive exn : Type :=
| AppError (statusCode : Z) (message : string)
| TypeError (message : string)
| Rejected (collaborator : string).

Definition BAD_REQUEST : Z := 400.
Definition NOT_FOUND : Z := 404.
Definition INTERNAL_SERVER_ERROR : Z := 500.

(** The completion of a statement: a value, or a thrown exception. *)
Inductive completion (A : Type) : Type :=
| Normal (a : A)
| Throw (e : exn).
#[global] Arguments Normal {A} a.
#[global] Arguments Throw {A} e.

(** A computation over a store [S]. *)
Definition M (S A : Type) : Type := S -> completion A * S.

Definition ret {S A} (a : A) : M S A := fun s => (Normal a, s).

Definition bind {S A B} (c : M S A) (k : A -> M S B) : M S B :=
  fun s =>
    match c s with
    | (Normal a, s') => k a s'
    | (Throw e, s') => (Throw e, s')
    end.

Definition throw {S A} (e : exn) : M S A := fun s => (Throw e, s).

(** [try { c } catch (error) { h error }] *)
Definition tryCatch {S A} (c : M S A) (h : exn -> M S A) : M S A :=
  fun s =>
    match c s with
    | (Normal a, s') => (Normal a, s')
    | (Throw e, s') => h e s'
    end.

(** A statement that only changes the store. *)
Definition modify {S} (f : S -> S) : M S unit := fun s => (Normal tt, f s).

(** [for (const x of xs) { body x }] *)
Fixpoint forOf {S A} (xs : list A) (body : A -> M S unit) : M S unit :=
  match xs with
  | [] => ret tt
  | x :: rest => bind (body x) (fun _ => forOf rest body)
  end.

(** A string is truthy when it is not empty. *)
Definition truthy (s : string) : bool :=
  match s with
  | EmptyString => false
  | String _ _ => true
  end.

(** An optional string ([string | undefined]) in a condition. *)
Definition truthyOpt (o : option string) : bool :=
  match o with
  | Some s => truthy s
  | None => false
  end.

(** [s.split(sep)] for a one-character separator. *)
Fixpoint split (sep : ascii) (s : string) : list string :=
  match s with
  | EmptyString => [EmptyString]
  | String c rest =>
      if Ascii.eqb c sep then EmptyString :: split sep rest
      else match split sep rest with
           | piece :: pieces => String c piece :: pieces
           | [] => [String c EmptyString]
           end
  end.

(** [s.startsWith(p)] *)
Fixpoint startsWith (p s : string) : bool :=
  match p, s with
  | EmptyString, _ => true
  | String a p', String b s' => Ascii.eqb a b && startsWith p' s'
  | String _ _, EmptyString => false
  end.

(** [s.includes(p)] *)
Fixpoint includes (p s : string) : bool :=
  startsWith p s ||
  match s with
  | EmptyString => false
  | String _ s' => includes p s'
  end.

(** The characters of [s] after the first [n]. *)
Fixpoint drop (n : nat) (s : string) : string :=
  match n, s with
  | O, _ => s
  | S n', String _ s' => drop n' s'
  | S _, EmptyString => EmptyString
  end.

(** [s.replace(pattern, replacement)] for a non-empty string pattern and a
    replacement without [$]: the first occurrence only is replaced. *)
Fixpoint replace (pattern replacement s : string) : string :=
  if startsWith pattern s then replacement +:+ drop (String.length pattern) s
  else match s with
       | EmptyString => EmptyString
       | String c s' => String c (replace pattern replacement s')
       end.

(** A value interpolated in a template literal: [undefined] prints as
    the word. *)
Definition interpolate (o : option string) : string :=
  match o with
  | Some s => s
  | None => "undefined"
  end.

(** [n.toString()] of an integer-valued number. *)
Definition toString (n : Z) : string := NilZero.string_of_int (Z.to_int n).

(** The double-quote character. *)
Definition dquote : string := String (ascii_of_nat 34) EmptyString.

(** The values that [a && a > 0] can have for an optional number [a]. *)
Inductive JsValue : Type :=
| JsUndefined
| JsNumber (n : Z)
| JsBoolean (b : bool).

Coercion JsBoolean : bool >-> JsValue.

(** [a && a > 0]: [&&] gives its left operand when that is falsy
    ([undefined], or the number 0) and its right operand otherwise. *)
Definition andPositive (a : option Z) : JsValue :=
  match a with
  | None => JsUndefined
  | Some n => if (n =? 0)%Z then JsNumber n else JsBoolean (0 <? n)%Z
  end.

End Js.

Import Js.

#[global] Instance M_ret {S} : MRet (M S) := @ret S.
#[global] Instance M_bind {S} : MBind (M S) := fun A B k c => bind c k.


(** ** The schedule store

    [utils/scheduleQueue.ts] (a BullMQ queue on a shared Redis connection)
    is not among the sources; the store is modelled from the spec's
    ScheduleStore: recurring registrations and one-shot entries, each
    operation of which the backend may reject. *)

Module ScheduleQueue.

(** The payload of a job. *)
Inductive JobData : Type :=
| ProgressAlertData (message : string) (frequency : string)
    (campingId : option string) (organizationId : option (list string))
| NoData
| MilestoneData (campaignId : string) (milestone : Z).

(** A recurring registration, as [getRepeatableJobs] lists it. *)
Record RepeatableJob : Type := {
  name : string;
  data : JobData;
  id : string;
  pattern : string
}.

(** Modelled from the spec: the key under which the store (not among the
    sources) lists a recurring registration. The spec says that the store
    may put data of its own before and after the identity; here the key
    is the job name, the identity and the cron pattern, the form BullMQ
    gives a repeat key. *)
Definition key (j : RepeatableJob) : string :=
  name j +:+ ":" +:+ id j +:+ ":::" +:+ pattern j.

(** A one-shot entry. *)
Record Job : Type := {
  job_name : string;
  job_data : JobData
}.

Record Queue : Type := {
  repeatable : list RepeatableJob;
  waiting : list Job
}.

(** The options of [add] that the source passes: [{ repeat: { pattern },
    jobId }]. *)
Record JobsOptions : Type := {
  repeat_pattern : string;
  jobId : string
}.

(** The calls the backend may reject. *)
Inductive QueueOp : Type :=
| OpAdd (jobName : string)
| OpGetRepeatableJobs
| OpRemoveRepeatableByKey (k : string).

(** Which calls the backend rejects, and with what. *)
Definition Faults : Type := QueueOp -> option exn.

Definition noFaults : Faults := fun _ => None.

(** Whether the store holds a registration under the identity [i]. *)
Definition registered (i : string) (rs : list RepeatableJob) : bool :=
  existsb (fun r => String.eqb (id r) i) rs.

(** Modelled from the spec: the identity is what a registration is held
    under; registering under an identity that already has a registration
    replaces that registration, it does not add a second one. *)
Definition register (j : RepeatableJob) (rs : list RepeatableJob)
  : list RepeatableJob :=
  if registered (id j) rs
  then map (fun r => if String.eqb (id r) (id j) then j else r) rs
  else rs ++ [j].

(** Modelled from the spec: removing a key that is not listed does
    nothing. *)
Definition unregister (k : string) (rs : list RepeatableJob)
  : list RepeatableJob :=
  List.filter (fun r => negb (String.eqb (key r) k)) rs.

(** Modelled from the spec: [scheduleQueue.add(name, data, opts)] of the
    store, which is not among the sources. With [repeat] options the job
    is registered as recurring, without them it is queued once. *)
Definition add (f : Faults) (jobName : string) (d : JobData)
    (opts : option JobsOptions) : M Queue unit :=
  match f (OpAdd jobName) with
  | Some e => throw e
  | None =>
      modify (fun q =>
        match opts with
        | Some o =>
            {| repeatable :=
                 register {| name := jobName; data := d; id := jobId o;
                             pattern := repeat_pattern o |} (repeatable q);
               waiting := waiting q |}
        | None =>
            {| repeatable := repeatable q;
               waiting := waiting q ++ [{| job_name := jobName; job_data := d |}] |}
        end)
  end.

(** Modelled from the spec: [scheduleQueue.getRepeatableJobs()] *)
Definition getRepeatableJobs (f : Faults) : M Queue (list RepeatableJob) :=
  match f OpGetRepeatableJobs with
  | Some e => throw e
  | None => fun q => (Normal (repeatable q), q)
  end.

(** Modelled from the spec: [scheduleQueue.removeRepeatableByKey(key)] *)
Definition removeRepeatableByKey (f : Faults) (k : string) : M Queue unit :=
  match f (OpRemoveRepeatableByKey k) with
  | Some e => throw e
  | None =>
      modify (fun q =>
        {| repeatable := unregister k (repeatable q); waiting := waiting q |})
  end.

End ScheduleQueue.


(** ** content.service.ts *)

Module ContentService.
Import ScheduleQueue.

(** The members of [progressAlertDayEnum], as [getDayNumber] names them. *)
Inductive progressAlertDayEnum : Type :=
| monday | tuesday | wednesday | thursday | friday | saturday | sunday.

(** Modelled from the spec: [content.enum.ts] is not among the sources.
    The spec gives [progressAlertFrequeincyEnum] two members, weekly and
    biweekly; at run time a frequency is the string stored in the
    document. *)
Definition progressAlertFrequeincyEnum_weekly : string := "weekly".

(** Modelled from the spec: the other member of the enum, which
    [content.service.ts] does not name. *)
Definition progressAlertFrequeincyEnum_biweekly : string := "biweekly".

(** [notificationStrategy.progressAlertSchedule]: [day] and [time] may be
    absent ([day!], [time ? ... : ...] in the source). *)
Record ProgressAlertSchedule : Type := {
  frequency : string;
  day : option progressAlertDayEnum;
  time : option string
}.

(** [IContent['notificationStrategy']], the fields the sources read. A
    stored document may lack the milestone template. *)
Record NotificationStrategy : Type := {
  campaignExpiredAlert : bool;
  lowProgressWarning : bool;
  mileStoneAlert : bool;
  mileStoneAlertMessage : option string;
  progressAlert : bool;
  progressAlertMessage : string;
  progressAlertSchedule : ProgressAlertSchedule;
  campingId : option string;
  organizationId : option (list string)
}.

(** The singleton Content document; only the notification strategy is read
    by the scheduler and the worker, and [upsertContent] itself tests
    whether a document has one. *)
Record Content : Type := {
  notificationStrategy : option NotificationStrategy
}.

(** [function getDayNumber(day)]: the lookup in [dayMap]; an absent day
    finds nothing. *)
Definition getDayNumber (d : option progressAlertDayEnum) : option Z :=
  match d with
  | Some monday => Some 1
  | Some tuesday => Some 2
  | Some wednesday => Some 3
  | Some thursday => Some 4
  | Some friday => Some 5
  | Some saturday => Some 6
  | Some sunday => Some 0
  | None => None
  end.

(** [const [hour, minute] = time ? time.split(':') : ['09', '00']] *)
Definition hourMinute (t : option string) : option string * option string :=
  let pieces :=
    match t with
    | Some s => if truthy s then split ":" s else ["09"; "00"]
    | None => ["09"; "00"]
    end in
  (pieces !! 0%nat, pieces !! 1%nat).

(** The [cronExpression] that [addProgressAlertJob] derives. *)
Definition cronExpression (s : ProgressAlertSchedule) : string :=
  let '(hour, minute) := hourMinute (time s) in
  if String.eqb (frequency s) progressAlertFrequeincyEnum_weekly then
    let dayNumber := getDayNumber (day s) in
    interpolate minute +:+ " " +:+ interpolate hour +:+ " * * "
      +:+ interpolate (toString <$> dayNumber)
  else
    interpolate minute +:+ " " +:+ interpolate hour +:+ " 1,15 * *".

(** [async function addProgressAlertJob(notificationStrategy)] *)
Definition addProgressAlertJob (f : Faults) (ns : NotificationStrategy)
  : M Queue unit :=
  add f "sendProgressAlert"
    (ProgressAlertData (progressAlertMessage ns)
       (frequency (progressAlertSchedule ns)) (campingId ns)
       (organizationId ns))
    (Some {| repeat_pattern := cronExpression (progressAlertSchedule ns);
             jobId := "progress-alert-job" |}).

(** [async function addLowProgressWarningJob()] *)
Definition addLowProgressWarningJob (f : Faults) : M Queue unit :=
  add f "checkLowProgress" NoData
    (Some {| repeat_pattern := "0 10 * * *";
             jobId := "low-progress-warning-job" |}).

(** [async function addCampaignExpiredAlertJob()] *)
Definition addCampaignExpiredAlertJob (f : Faults) : M Queue unit :=
  add f "checkExpiredCampaigns" NoData
    (Some {| repeat_pattern := "0 8 * * *";
             jobId := "campaign-expired-alert-job" |}).

(** [async function setupNotificationJobs(notificationStrategy)]: the
    [catch] logs and rethrows. *)
Definition setupNotificationJobs (f : Faults) (ns : NotificationStrategy)
  : M Queue unit :=
  tryCatch
    ((if progressAlert ns then addProgressAlertJob f ns else ret tt);;
     (if lowProgressWarning ns then addLowProgressWarningJob f else ret tt);;
     (if campaignExpiredAlert ns then addCampaignExpiredAlertJob f else ret tt))
    (fun error => throw error).

Definition jobIds : list string :=
  ["progress-alert-job"; "low-progress-warning-job";
   "campaign-expired-alert-job"].

(** [jobIds.some(id => job.key.includes(id))] *)
Definition shouldRemove (job : RepeatableJob) : bool :=
  existsb (fun i => includes i (key job)) jobIds.

(** [async function removeExistingNotificationJobs()]: the [catch] logs
    and returns. *)
Definition removeExistingNotificationJobs (f : Faults) : M Queue unit :=
  tryCatch
    (repeatableJobs ← getRepeatableJobs f;
     forOf repeatableJobs (fun job =>
       if shouldRemove job then removeRepeatableByKey f (key job)
       else ret tt))
    (fun _ => ret tt).

(** The store [upsertContent] works on: the singleton Content document
    (absent before the first upsert) and the schedule store. Database
    calls are taken to resolve. *)
Record Store : Type := {
  content : option Content;
  queue : Queue
}.

(** A computation on the schedule store, run inside [Store]. *)
Definition onQueue {A} (c : M Queue A) : M Store A :=
  fun s =>
    let '(r, q) := c (queue s) in
    (r, {| content := content s; queue := q |}).

(** [Partial<IContent>]: the field of the payload that scheduling reads.
    The other fields (and the merge of [founders]) do not reach the
    schedule store. *)
Record ContentPayload : Type := {
  payload_notificationStrategy : option NotificationStrategy
}.

(** [Content.findOne()] *)
Definition Content_findOne : M Store (option Content) :=
  fun s => (Normal (content s), s).

(** [Content.create(payload)] *)
Definition Content_create (payload : ContentPayload) : M Store Content :=
  fun s =>
    let newContent :=
      {| notificationStrategy := payload_notificationStrategy payload |} in
    (Normal newContent, {| content := Some newContent; queue := queue s |}).

(** [Content.findByIdAndUpdate(existingContent._id, payload, { new: true })]:
    the fields the payload has are set, the others are kept. *)
Definition Content_findByIdAndUpdate (payload : ContentPayload)
  : M Store (option Content) :=
  fun s =>
    match content s with
    | Some existing =>
        let updated :=
          {| notificationStrategy :=
               match payload_notificationStrategy payload with
               | Some ns => Some ns
               | None => notificationStrategy existing
               end |} in
        (Normal (Some updated), {| content := Some updated; queue := queue s |})
    | None => (Normal None, s)
    end.

(** [const upsertContent = async (payload) => ...]: the result is the
    document and [isNew]. On the update path the old recurring jobs are
    removed and the jobs of the new strategy are set up. *)
Definition upsertContent (f : Faults) (payload : ContentPayload)
  : M Store (option Content * bool) :=
  tryCatch
    (existingContent ← Content_findOne;
     match existingContent with
     | None =>
         newContent ← Content_create payload;
         (match notificationStrategy newContent with
          | Some ns => onQueue (setupNotificationJobs f ns)
          | None => ret tt
          end);;
         ret (Some newContent, true)
     | Some _ =>
         updatedContent ← Content_findByIdAndUpdate payload;
         (match payload_notificationStrategy payload, updatedContent with
          | Some _, Some updated =>
              onQueue (removeExistingNotificationJobs f);;
              match notificationStrategy updated with
              | Some ns => onQueue (setupNotificationJobs f ns)
              | None =>
                  throw (TypeError
                    "Cannot read properties of undefined (reading 'progressAlert')")
              end
          | _, _ => ret tt
          end);;
         ret (updatedContent, false)
     end)
    (fun error => throw error).

End ContentService.


(** ** JavaScript numbers

    A number is an IEEE 754 binary64 value; [spec_float] is the kernel's
    specification of them, with its division, multiplication and
    comparison. *)

Module Number.

Definition prec : Z := 53.
Definition emax : Z := 1024.

(** The number an integer literal denotes. *)
Definition ofZ (z : Z) : spec_float := binary_normalize prec emax z 0 false.

Definition div (x y : spec_float) : spec_float := SFdiv prec emax x y.
Definition mul (x y : spec_float) : spec_float := SFmul prec emax x y.
Definition add (x y : spec_float) : spec_float := SFadd prec emax x y.
Definition ltb (x y : spec_float) : bool := SFltb x y.

Definition isNaN (x : spec_float) : bool :=
  match x with
  | S754_nan => true
  | _ => false
  end.

Definition isInfinite (x : spec_float) : bool :=
  match x with
  | S754_infinity _ => true
  | _ => false
  end.

(** Whether the decimal [v] reads back as the number [m * 2^e], for a
    mantissa [m] of 53 bits and [1 < e]: [v] lies no further from it than
    half the way to the next number on either side, the half-way points
    counting for an even mantissa only. *)
Definition readsBack (m e v : Z) : bool :=
  let x := m * 2 ^ e in
  let above := 2 ^ (e - 1) in
  let below := if (m =? 2 ^ 52)%Z then 2 ^ (e - 2) else 2 ^ (e - 1) in
  if Z.even m
  then ((x - below <=? v) && (v <=? x + above))%Z
  else ((x - below <? v) && (v <? x + above))%Z.

(** The first of the digit counts [ks] for which a decimal of that many
    digits (followed by zeros) reads back as [m * 2^e], and of the two
    such decimals around the number the nearer one (on a tie the one with
    the even last digit). [digits] is the number of digits of [m * 2^e]. *)
Fixpoint shortestFrom (m e : Z) (digits : nat) (ks : list Z) : Z :=
  let x := m * 2 ^ e in
  match ks with
  | [] => x
  | k :: ks' =>
      let p := 10 ^ (Z.of_nat digits - k) in
      let s := x / p in
      let a := s * p in
      let b := (s + 1) * p in
      match readsBack m e a, readsBack m e b with
      | true, true =>
          if (x - a <? b - x)%Z then a
          else if (b - x <? x - a)%Z then b
          else if Z.even s then a else b
      | true, false => a
      | false, true => b
      | false, false => shortestFrom m e digits ks'
      end
  end.

(** The shortest decimal that reads back as [m * 2^e]; 17 digits always
    do. *)
Definition shortest (m e : Z) : Z :=
  shortestFrom m e (String.length (toString (m * 2 ^ e)))
    [1; 2; 3; 4; 5; 6; 7; 8; 9; 10; 11; 12; 13; 14; 15; 16; 17].

(** The digits of a decimal without its trailing zeros. *)
Fixpoint significant (digits : string) : string :=
  match digits with
  | EmptyString => EmptyString
  | String c rest =>
      match significant rest with
      | EmptyString =>
          if Ascii.eqb c "0" then EmptyString else String c EmptyString
      | kept => String c kept
      end
  end.

(** [Number::toString(x)] of ECMA-262 for [x = m * 2^e] from 1e21 on: the
    digits of the shortest decimal that reads back as [x], with a point
    after the first one when there are more, and the exponent. *)
Definition toExponent (m e : Z) : string :=
  let digits := toString (shortest m e) in
  let n := Z.of_nat (String.length digits) in
  match significant digits with
  | EmptyString => "0"
  | String c EmptyString => String c EmptyString +:+ "e+" +:+ toString (n - 1)
  | String c rest =>
      String c EmptyString +:+ "." +:+ rest +:+ "e+" +:+ toString (n - 1)
  end.

(** [x.toFixed(1)], after ECMA-262 (Number.prototype.toFixed): NaN and the
    infinities print as words. A finite magnitude below 1e21 prints as
    the integer [n] nearest to [10 * |x|] (the larger one on a tie) with
    a point before its last digit; a magnitude from 1e21 on prints as
    [Number::toString] prints it, in exponent notation. A minus sign
    comes first when [x < 0]. *)
Definition toFixed1 (x : spec_float) : string :=
  match x with
  | S754_nan => "NaN"
  | S754_infinity false => "Infinity"
  | S754_infinity true => "-Infinity"
  | S754_zero _ => "0.0"
  | S754_finite s m e =>
      (if s then "-" else "") +:+
      (if ((0 <=? e) && (10 ^ 21 <=? Zpos m * 2 ^ e))%Z
       then toExponent (Zpos m) e
       else
         let n :=
           match e with
           | Zneg p => (20 * Zpos m + 2 ^ Zpos p) / (2 * 2 ^ Zpos p)
           | _ => 10 * Zpos m * 2 ^ e
           end in
         toString (n / 10) +:+ "." +:+ toString (n mod 10))
  end.

End Number.


(** ** notificationWorker.ts *)

Module NotificationWorker.
Import ScheduleQueue ContentService.

(** A campaign document, the fields the handlers read. [createdBy] is the
    reference to the owning user. *)
Record Campaign : Type := {
  _id : string;
  title : string;
  status : string;
  endDate : Z;
  currentAmount : spec_float;
  goalAmount : spec_float;
  createdBy : string
}.

(** The [data] of a notification. *)
Inductive NotificationData : Type :=
| ForCampaign (campaignId : string)
| ForProgress (campaignId : string) (progress : spec_float)
| ForMilestone (campaignId : option string) (milestone : option Z).

(** The argument of [sendNotifications]. *)
Record Notification : Type := {
  userId : string;
  type : string;
  notification_title : string;
  message : string;
  notification_data : NotificationData
}.

(** What the worker works on: the campaigns, the ids of the users that
    exist (what [populate('createdBy')] resolves against), the singleton
    Content document, and the notifications sent so far. Database reads
    and writes are taken to resolve. *)
Record World : Type := {
  campaigns : list Campaign;
  users : gset string;
  content : option Content;
  sent : list Notification
}.

(** The clock readings of one handler run: [new Date()], and the same
    date moved seven days on by [setDate(getDate() + 7)]. *)
Record Clock : Type := {
  now : Z;
  oneWeekFromNow : Z
}.

(** Modelled from the spec: [helpers/notificationsHelper.ts] is not among
    the sources. The spec's NotificationSender delivers one notification
    to a user; the delivery is recorded in [sent]. *)
Definition sendNotifications (n : Notification) : M World unit :=
  modify (fun w =>
    {| campaigns := campaigns w; users := users w; content := content w;
       sent := sent w ++ [n] |}).

(** [Campaign.find(query)]: the campaigns the filter keeps, in the
    collection's order. *)
Definition Campaign_find (query : Campaign -> bool) : M World (list Campaign) :=
  fun w => (Normal (List.filter query (campaigns w)), w).

(** [Campaign.findById(id)]; an absent id finds nothing. *)
Definition Campaign_findById (i : option string) : M World (option Campaign) :=
  fun w =>
    (Normal
       (match i with
        | Some i' => List.find (fun c => String.eqb (_id c) i') (campaigns w)
        | None => None
        end), w).

(** [Campaign.findByIdAndUpdate(id, { status })] *)
Definition Campaign_setStatus (i : string) (st : string) : M World unit :=
  modify (fun w =>
    {| campaigns :=
         map (fun c =>
                if String.eqb (_id c) i
                then {| _id := _id c; title := title c; status := st;
                        endDate := endDate c;
                        currentAmount := currentAmount c;
                        goalAmount := goalAmount c;
                        createdBy := createdBy c |}
                else c) (campaigns w);
       users := users w; content := content w; sent := sent w |}).

(** [Content.findOne()] *)
Definition Content_findOne : M World (option Content) :=
  fun w => (Normal (content w), w).

(** [campaign.createdBy._id] after [populate('createdBy')]: the reference
    is replaced by the user document, or by [null] when there is none. *)
Definition ownerId (c : Campaign) : M World string :=
  fun w =>
    if decide (createdBy c ∈ users w) then (Normal (createdBy c), w)
    else (Throw (TypeError "Cannot read properties of null (reading '_id')"), w).

(** [(campaign.currentAmount / campaign.goalAmount) * 100] *)
Definition progressOf (c : Campaign) : spec_float :=
  Number.mul (Number.div (currentAmount c) (goalAmount c)) (Number.ofZ 100).

(** The fields a handler destructures from [job.data]. *)
Definition data_message (d : JobData) : option string :=
  match d with
  | ProgressAlertData m _ _ _ => Some m
  | _ => None
  end.

Definition data_campingId (d : JobData) : option string :=
  match d with
  | ProgressAlertData _ _ c _ => c
  | _ => None
  end.

Definition data_organizationId (d : JobData) : option (list string) :=
  match d with
  | ProgressAlertData _ _ _ o => o
  | _ => None
  end.

Definition data_campaignId (d : JobData) : option string :=
  match d with
  | MilestoneData c _ => Some c
  | _ => None
  end.

Definition data_milestone (d : JobData) : option Z :=
  match d with
  | MilestoneData _ m => Some m
  | _ => None
  end.

(** The query of [handleProgressAlert]. *)
Definition progressAlertQuery (clk : Clock) (d : JobData) (c : Campaign) : bool :=
  String.eqb (status c) "active"
  && (now clk <? endDate c)%Z
  && (if truthyOpt (data_campingId d)
      then bool_decide (Some (_id c) = data_campingId d) else true)
  && (match data_organizationId d with
      | Some (o :: os) => bool_decide (createdBy c ∈ o :: os)
      | _ => true
      end).

(** [async function handleProgressAlert(data)] *)
Definition handleProgressAlert (clk : Clock) (d : JobData) : M World unit :=
  found ← Campaign_find (progressAlertQuery clk d);
  forOf found (fun campaign =>
    let progress := progressOf campaign in
    owner ← ownerId campaign;
    match data_message d with
    | None =>
        throw (TypeError "Cannot read properties of undefined (reading 'replace')")
    | Some m =>
        sendNotifications
          {| userId := owner;
             type := "PROGRESS_ALERT";
             notification_title := "Campaign Progress Update";
             message := replace "{progress}" (Number.toFixed1 progress) m;
             notification_data := ForCampaign (_id campaign) |}
    end).

(** The query of [handleLowProgressWarning]. *)
Definition lowProgressQuery (clk : Clock) (c : Campaign) : bool :=
  String.eqb (status c) "active"
  && (now clk <=? endDate c)%Z && (endDate c <=? oneWeekFromNow clk)%Z.

(** The body of the loop of [handleLowProgressWarning]. *)
Definition warnIfLow (campaign : Campaign) : M World unit :=
  let progress := progressOf campaign in
  if Number.ltb progress (Number.ofZ 25) then
    owner ← ownerId campaign;
    sendNotifications
      {| userId := owner;
         type := "LOW_PROGRESS_WARNING";
         notification_title := "⚠️ Low Campaign Progress";
         message := dquote +:+ title campaign +:+ dquote
                      +:+ " is below 25% with 1 week left";
         notification_data := ForProgress (_id campaign) progress |}
  else ret tt.

(** [async function handleLowProgressWarning()] *)
Definition handleLowProgressWarning (clk : Clock) : M World unit :=
  found ← Campaign_find (lowProgressQuery clk);
  forOf found warnIfLow.

(** The query of [handleExpiredCampaigns]. *)
Definition expiredQuery (clk : Clock) (c : Campaign) : bool :=
  String.eqb (status c) "active" && (endDate c <? now clk)%Z.

(** [async function handleExpiredCampaigns()] *)
Definition handleExpiredCampaigns (clk : Clock) : M World unit :=
  found ← Campaign_find (expiredQuery clk);
  forOf found (fun campaign =>
    Campaign_setStatus (_id campaign) "expired";;
    owner ← ownerId campaign;
    sendNotifications
      {| userId := owner;
         type := "CAMPAIGN_EXPIRED";
         notification_title := "⏰ Campaign Expired";
         message := dquote +:+ title campaign +:+ dquote +:+ " has ended";
         notification_data := ForCampaign (_id campaign) |}).


(** The [message] of the milestone notification:
    [content?.notificationStrategy.mileStoneAlertMessage
       .replace('{milestone}', milestone.toString())
     || `Congratulations! ${milestone}% achieved!`].
    The optional chain stops at an absent document only; the property
    reads after it throw on [undefined]. *)
Definition milestoneMessage (c : option Content) (milestone : option Z)
  : completion string :=
  let generic :=
    "Congratulations! " +:+ interpolate (toString <$> milestone)
      +:+ "% achieved!" in
  match c with
  | None => Normal generic
  | Some doc =>
      match notificationStrategy doc with
      | None =>
          Throw (TypeError
            "Cannot read properties of undefined (reading 'mileStoneAlertMessage')")
      | Some ns =>
          match mileStoneAlertMessage ns with
          | None =>
              Throw (TypeError
                "Cannot read properties of undefined (reading 'replace')")
          | Some template =>
              match milestone with
              | None =>
                  Throw (TypeError
                    "Cannot read properties of undefined (reading 'toString')")
              | Some m =>
                  let text := replace "{milestone}" (toString m) template in
                  Normal (if truthy text then text else generic)
              end
          end
      end
  end.

(** [async function handleMilestoneAlert(data)] *)
Definition handleMilestoneAlert (d : JobData) : M World unit :=
  let campaignId := data_campaignId d in
  let milestone := data_milestone d in
  doc ← Content_findOne;
  found ← Campaign_findById campaignId;
  match found with
  | None => ret tt
  | Some campaign =>
      owner ← ownerId campaign;
      match milestoneMessage doc milestone with
      | Throw e => throw e
      | Normal text =>
          sendNotifications
            {| userId := owner;
               type := "MILESTONE_ALERT";
               notification_title := "🎉 Milestone Reached!";
               message := text;
               notification_data := ForMilestone campaignId milestone |}
      end
  end.

(** The processor of the worker: the [switch] on [job.name]; an unknown
    name is logged, and a handler's exception is logged and rethrown. *)
Definition processJob (clk : Clock) (job : Job) : M World unit :=
  tryCatch
    (if String.eqb (job_name job) "sendProgressAlert" then
       handleProgressAlert clk (job_data job)
     else if String.eqb (job_name job) "checkLowProgress" then
       handleLowProgressWarning clk
     else if String.eqb (job_name job) "checkExpiredCampaigns" then
       handleExpiredCampaigns clk
     else if String.eqb (job_name job) "sendMilestoneAlert" then
       handleMilestoneAlert (job_data job)
     else ret tt)
    (fun error => throw error).

End NotificationWorker.


(** ** campaign.service.ts: [invitePeopleToCampaign] *)

Module CampaignService.

(** An element of [payload.myInvitees]. *)
Record Invitee : Type := {
  invitationForPhone : string;
  invitationForName : option string
}.

(** The payload of an invitation request. Amounts are whole numbers of
    the currency's unit. *)
Record InvitePayload : Type := {
  myInvitees : list Invitee;
  donationAmount : option Z;
  paymentMethod : option string;
  invitationIrecievedFrom : string
}.

(** A user document, the fields the flow reads and increments. *)
Record User : Type := {
  contact : option string;
  totalRaised : Z;
  totalDonated : Z;
  totalInvited : Z
}.

(** A campaign document, the field the flow reads. *)
Record CampaignDoc : Type := {
  campaign_title : string
}.

(** Modelled from the spec: [InvitationHistory.enum.ts] is not among the
    sources; [InvitationType.invitation] is the string the spec names. *)
Definition InvitationType_invitation : string := "invitation".

(** Modelled from the spec: [Transaction.interface.ts] is not among the
    sources; [paymentStatusType.COMPLETED] is the status the spec calls
    completed. *)
Definition paymentStatusType_COMPLETED : string := "completed".

(** An invitation-history record, as the function hands it to
    [insertMany]: [isDonated] is the value of the expression the source
    puts there, before any casting by the schema of the collection, which
    is not among the sources. *)
Record InvitationHistory : Type := {
  invitation_type : string;
  invitation_campaignId : string;
  invitationFromUser : string;
  invitationFromPhone : string;
  invitation_forPhone : string;
  invitation_forName : string;
  isDonated : JsValue
}.

(** A donation record. *)
Record Transaction : Type := {
  donorId : string;
  donorPhone : string;
  transaction_paymentMethod : option string;
  transactionId : string;
  amountPaid : Z;
  transaction_campaignId : string;
  paymentStatus : string
}.

(** The collections. *)
Record Db : Type := {
  campaigns : gmap string CampaignDoc;
  users : gmap string User;
  invitations : list InvitationHistory;
  transactions : list Transaction
}.

(** The database with the session of the request, and the text messages
    delivered. While a transaction is open, [session] holds the working
    copy that writes made with [{ session }] go to; committing installs
    it as the database, aborting discards it. *)
Record World : Type := {
  db : Db;
  session : option Db;
  sms : list (string * string)
}.

(** The calls made inside the transaction. *)
Inductive TxStep : Type :=
| InsertInvitations
| CreateDonation
| IncrementRaised
| IncrementDonatedInvited
| CommitTransaction.

(** The environment of one request: which text messages the gateway
    rejects ([shared/sendSMS.ts] is not among the sources: its promise
    resolves, or rejects with an error), which calls of the transaction
    the database rejects, and the transaction id generated from the clock
    and the random source. Opening, aborting and ending the session are
    taken to resolve. *)
Record Env : Type := {
  smsFault : string -> string -> option exn;
  txFault : TxStep -> option exn;
  generatedTransactionId : string
}.

(** [await sendSMS(phone, text)] *)
Definition sendSMS (env : Env) (phone text : string) : M World unit :=
  match smsFault env phone text with
  | Some e => throw e
  | None =>
      modify (fun w =>
        {| db := db w; session := session w; sms := sms w ++ [(phone, text)] |})
  end.

(** [Campaign.findById(campaignId)], [User.findById(id)] *)
Definition Campaign_findById (i : string) : M World (option CampaignDoc) :=
  fun w => (Normal (campaigns (db w) !! i), w).

Definition User_findById (i : string) : M World (option User) :=
  fun w => (Normal (users (db w) !! i), w).

(** [mongoose.startSession()] and [session.startTransaction()] *)
Definition startTransaction : M World unit :=
  modify (fun w => {| db := db w; session := Some (db w); sms := sms w |}).

(** A write made with [{ session }]: rejected by the database, or applied
    to the working copy of the transaction. *)
Definition inSession (env : Env) (step : TxStep) (write : Db -> Db)
  : M World unit :=
  match txFault env step with
  | Some e => throw e
  | None =>
      modify (fun w =>
        {| db := db w; session := write <$> session w; sms := sms w |})
  end.

(** [session.commitTransaction(); session.endSession()] *)
Definition commitTransaction (env : Env) : M World unit :=
  match txFault env CommitTransaction with
  | Some e => throw e
  | None =>
      modify (fun w =>
        {| db := default (db w) (session w); session := None; sms := sms w |})
  end.

(** [session.abortTransaction(); session.endSession()] *)
Definition abortTransaction : M World unit :=
  modify (fun w => {| db := db w; session := None; sms := sms w |}).

(** [InvitationHistory.insertMany(batch, { session })] *)
Definition InvitationHistory_insertMany (env : Env)
    (batch : list InvitationHistory) : M World unit :=
  inSession env InsertInvitations (fun d =>
    {| campaigns := campaigns d; users := users d;
       invitations := invitations d ++ batch;
       transactions := transactions d |}).

(** [Transaction.create([donationDto], { session })]. It returns the array
    of the documents created, which is truthy: the test of
    [createdDonation] that follows it in the source never throws. *)
Definition Transaction_create (env : Env) (dto : Transaction) : M World unit :=
  inSession env CreateDonation (fun d =>
    {| campaigns := campaigns d; users := users d;
       invitations := invitations d;
       transactions := transactions d ++ [dto] |}).

(** [User.updateOne({ _id }, { $inc: ... }, { session })] *)
Definition User_updateOne (env : Env) (step : TxStep) (i : string)
    (inc : User -> User) : M World unit :=
  inSession env step (fun d =>
    {| campaigns := campaigns d; users := alter inc i (users d);
       invitations := invitations d;
       transactions := transactions d |}).

Definition incTotalRaised (amount : Z) (u : User) : User :=
  {| contact := contact u; totalRaised := totalRaised u + amount;
     totalDonated := totalDonated u; totalInvited := totalInvited u |}.

Definition incTotalDonatedInvited (amount invited : Z) (u : User) : User :=
  {| contact := contact u; totalRaised := totalRaised u;
     totalDonated := totalDonated u + amount;
     totalInvited := totalInvited u + invited |}.

(** [payload.donationAmount && payload.donationAmount > 0] *)
Definition donates (payload : InvitePayload) : bool :=
  match donationAmount payload with
  | Some a => (0 <? a)%Z
  | None => false
  end.

(** The text of the invitation message. *)
Definition invitationText (c : CampaignDoc) : string :=
  "You've been invited to join campaign " +:+ dquote +:+ campaign_title c
    +:+ dquote +:+ ". Join now!".

(** The record pushed on [batchInvitationDto] for one invitee. *)
Definition invitationDto (payload : InvitePayload) (campaignId userId : string)
    (isExitUser : User) (invitee : Invitee) : InvitationHistory :=
  {| invitation_type := InvitationType_invitation;
     invitation_campaignId := campaignId;
     invitationFromUser := userId;
     invitationFromPhone := default "" (contact isExitUser);
     invitation_forPhone := invitationForPhone invitee;
     invitation_forName :=
       match invitationForName invitee with
       | Some n => n
       | None => ""
       end;
     isDonated := andPositive (donationAmount payload) |}.

(** The loop over [payload.myInvitees]: each pass pushes a record and,
    for an invitee with a phone number, awaits [sendSMS]. *)
Fixpoint inviteLoop (env : Env) (payload : InvitePayload)
    (campaignId userId : string) (campaign : CampaignDoc) (isExitUser : User)
    (invitees : list Invitee) (batch : list InvitationHistory)
  : M World (list InvitationHistory) :=
  match invitees with
  | [] => ret batch
  | invitee :: rest =>
      let batch' :=
        (batch ++ [invitationDto payload campaignId userId isExitUser invitee])%list in
      (if truthy (invitationForPhone invitee)
       then sendSMS env (invitationForPhone invitee) (invitationText campaign)
       else ret tt);;
      inviteLoop env payload campaignId userId campaign isExitUser rest batch'
  end.

(** What the function returns. *)
Record InviteResult : Type := {
  result_message : string;
  result_donationAmount : option Z
}.

(** [const invitePeopleToCampaign = async (payload, user, campaignId)] *)
Definition invitePeopleToCampaign (env : Env) (payload : InvitePayload)
    (userId : string) (campaignId : string) : M World InviteResult :=
  if String.eqb (invitationIrecievedFrom payload) userId then
    throw (AppError BAD_REQUEST "You can not invite yourself.")
  else
    campaign ← Campaign_findById campaignId;
    match campaign with
    | None => throw (AppError NOT_FOUND "Campaign not found.")
    | Some campaign =>
    isExitUser ← User_findById userId;
    match isExitUser with
    | None => throw (AppError NOT_FOUND "User not found.")
    | Some isExitUser =>
    if negb (truthyOpt (contact isExitUser)) then
      throw (AppError NOT_FOUND "User not found.")
    else
    isInvitationUser ← User_findById (invitationIrecievedFrom payload);
    match isInvitationUser with
    | None => throw (AppError NOT_FOUND "Invitation User not found.")
    | Some _ =>
    batchInvitationDto ←
      inviteLoop env payload campaignId userId campaign isExitUser
        (myInvitees payload) [];
    startTransaction;;
    tryCatch
      (InvitationHistory_insertMany env batchInvitationDto;;
       (if donates payload then
          let amount := default 0 (donationAmount payload) in
          Transaction_create env
            {| donorId := userId;
               donorPhone := default "" (contact isExitUser);
               transaction_paymentMethod := paymentMethod payload;
               transactionId := generatedTransactionId env;
               amountPaid := amount;
               transaction_campaignId := campaignId;
               paymentStatus := paymentStatusType_COMPLETED |};;
          User_updateOne env IncrementRaised (invitationIrecievedFrom payload)
            (incTotalRaised amount);;
          User_updateOne env IncrementDonatedInvited userId
            (incTotalDonatedInvited amount
               (Z.of_nat (length (myInvitees payload))))
        else ret tt);;
       commitTransaction env;;
       ret {| result_message := "People invited successfully";
              result_donationAmount :=
                if donates payload then donationAmount payload else None |})
      (fun _ =>
         abortTransaction;;
         throw (AppError INTERNAL_SERVER_ERROR
                  "Failed to process invitation and donation"))
    end end end.

End CampaignService.


(** ** The specification's vocabulary *)

Module Spec.
Import ScheduleQueue ContentService.

#[global] Instance progressAlertDayEnum_eq_dec : EqDecision progressAlertDayEnum.
Proof. solve_decision. Defined.

(** The week in the order of the canonical numbering, sunday first. *)
Definition week : list progressAlertDayEnum :=
  [sunday; monday; tuesday; wednesday; thursday; friday; saturday].

(** The canonical number of a weekday: its place in [week], sunday = 0
    through saturday = 6. *)
Definition canonicalWeekday (d : progressAlertDayEnum) : option Z :=
  (fun r => Z.of_nat (fst r)) <$> list_find (fun x => x = d) week.

(** A string without a colon. *)
Definition colonFree (s : string) : Prop := includes ":" s = false.

(** The recurring registrations under an identity. *)
Definition registrations (i : string) (q : Queue) : nat :=
  length (List.filter (fun j => String.eqb (id j) i) (repeatable q)).

(** The recurring jobs a strategy asks for, one per enabled toggle, each
    under its fixed identity. *)
Definition jobsFor (ns : NotificationStrategy) : list RepeatableJob :=
  (if progressAlert ns
   then [{| name := "sendProgressAlert";
            data := ProgressAlertData (progressAlertMessage ns)
                      (frequency (progressAlertSchedule ns)) (campingId ns)
                      (organizationId ns);
            id := "progress-alert-job";
            pattern := cronExpression (progressAlertSchedule ns) |}]
   else [])
  ++ (if lowProgressWarning ns
      then [{| name := "checkLowProgress"; data := NoData;
               id := "low-progress-warning-job"; pattern := "0 10 * * *" |}]
      else [])
  ++ (if campaignExpiredAlert ns
      then [{| name := "checkExpiredCampaigns"; data := NoData;
               id := "campaign-expired-alert-job"; pattern := "0 8 * * *" |}]
      else []).

(** The first rejection among the registrations a strategy asks for, in
    the order [setupNotificationJobs] makes them. *)
Definition firstRejection (f : Faults) (ns : NotificationStrategy) : option exn :=
  match (if progressAlert ns then f (OpAdd "sendProgressAlert") else None) with
  | Some e => Some e
  | None =>
      match (if lowProgressWarning ns then f (OpAdd "checkLowProgress") else None) with
      | Some e => Some e
      | None =>
          if campaignExpiredAlert ns then f (OpAdd "checkExpiredCampaigns")
          else None
      end
  end.

(** What the loop of [removeExistingNotificationJobs] leaves of [rs] after
    walking the listing [l]. *)
Definition sweep (l rs : list RepeatableJob) : list RepeatableJob :=
  fold_left
    (fun acc j => if shouldRemove j then unregister (key j) acc else acc) l rs.

(** A number below zero. *)
Definition negative (x : spec_float) : bool :=
  match x with
  | S754_infinity s => s
  | S754_finite s _ _ => s
  | _ => false
  end.

(** A zero of either sign. *)
Definition isZero (x : spec_float) : bool :=
  match x with
  | S754_zero _ => true
  | _ => false
  end.

(** An amount [x] that is neither zero nor NaN and whose sign is not the
    sign of the zero [z]: the amounts whose quotient by [z] is
    -Infinity. *)
Definition opposed (x z : spec_float) : bool :=
  match x, z with
  | S754_infinity sx, S754_zero sz => xorb sx sz
  | S754_finite sx _ _, S754_zero sz => xorb sx sz
  | _, _ => false
  end.

(** No campaign of the world has the identifier of the payload. *)
Definition unknownCampaign (i : option string) (w : NotificationWorker.World)
  : Prop :=
  forall c, In c (NotificationWorker.campaigns w) ->
            Some (NotificationWorker._id c) <> i.

End Spec.

(** The vocabulary of the invitation flow. *)
Module InviteSpec.
Import CampaignService.

(** A request that passes the checks made before the loop: the inviter
    is not the referrer, the campaign exists, the inviter exists and has
    a contact phone, and the referrer exists. *)
Definition validRequest (payload : InvitePayload) (userId campaignId : string)
    (w : World) (campaign : CampaignDoc) (inviter referrer : User) : Prop :=
  invitationIrecievedFrom payload <> userId
  /\ campaigns (db w) !! campaignId = Some campaign
  /\ users (db w) !! userId = Some inviter
  /\ truthyOpt (contact inviter) = true
  /\ users (db w) !! invitationIrecievedFrom payload = Some referrer.

(** The text messages delivered while the invitees are walked, and the
    rejection that stops the walk, if there is one. *)
Fixpoint smsOutcome (env : Env) (campaign : CampaignDoc)
    (invitees : list Invitee) : list (string * string) * option exn :=
  match invitees with
  | [] => ([], None)
  | invitee :: rest =>
      if truthy (invitationForPhone invitee) then
        match smsFault env (invitationForPhone invitee)
                (invitationText campaign) with
        | Some e => ([], Some e)
        | None =>
            let '(delivered, stop) := smsOutcome env campaign rest in
            ((invitationForPhone invitee, invitationText campaign) :: delivered,
             stop)
        end
      else smsOutcome env campaign rest
  end.

(** One message per invitee with a phone number. *)
Definition smsForAll (campaign : CampaignDoc) (invitees : list Invitee)
  : list (string * string) :=
  map (fun i => (invitationForPhone i, invitationText campaign))
    (List.filter (fun i => truthy (invitationForPhone i)) invitees).

(** The calls of the transaction that a request reaches: the insertion
    and the commit always, the donation record and the two counter
    updates when a positive amount comes with the batch. *)
Definition reached (payload : InvitePayload) (step : TxStep) : bool :=
  match step with
  | InsertInvitations | CommitTransaction => true
  | CreateDonation | IncrementRaised | IncrementDonatedInvited =>
      donates payload
  end.

(** The donation record of a request. *)
Definition donationOf (env : Env) (payload : InvitePayload)
    (userId campaignId : string) (inviter : User) : Transaction :=
  {| donorId := userId;
     donorPhone := default "" (contact inviter);
     transaction_paymentMethod := paymentMethod payload;
     transactionId := generatedTransactionId env;
     amountPaid := default 0 (donationAmount payload);
     transaction_campaignId := campaignId;
     paymentStatus := paymentStatusType_COMPLETED |}.

(** The database a committed request leaves. *)
Definition committed (env : Env) (payload : InvitePayload)
    (userId campaignId : string) (inviter : User) (d : Db) : Db :=
  let batch :=
    map (invitationDto payload campaignId userId inviter) (myInvitees payload) in
  if donates payload then
    {| campaigns := campaigns d;
       users :=
         alter (incTotalDonatedInvited (default 0 (donationAmount payload))
                  (Z.of_nat (length (myInvitees payload)))) userId
           (alter (incTotalRaised (default 0 (donationAmount payload)))
              (invitationIrecievedFrom payload) (users d));
       invitations := invitations d ++ batch;
       transactions :=
         transactions d ++ [donationOf env payload userId campaignId inviter] |}
  else
    {| campaigns := campaigns d;
       users := users d;
       invitations := invitations d ++ batch;
       transactions := transactions d |}.

(** The database rejects a call of the transaction. *)
Definition rejects (env : Env) (step : TxStep) : bool :=
  match txFault env step with
  | Some _ => true
  | None => false
  end.

(** No call of the transaction that the request reaches is rejected. *)
Definition transactionGoesThrough (env : Env) (payload : InvitePayload) : bool :=
  forallb (fun step => negb (reached payload step && rejects env step))
    [InsertInvitations; CreateDonation; IncrementRaised;
     IncrementDonatedInvited; CommitTransaction].

(** What a request that goes through returns. *)
Definition invited (payload : InvitePayload) : InviteResult :=
  {| result_message := "People invited successfully";
     result_donationAmount :=
       if donates payload then donationAmount payload else None |}.

Definition genericFailure : exn :=
  AppError INTERNAL_SERVER_ERROR "Failed to process invitation and donation".

End InviteSpec.


(** ** Sample data *)

Module Sample.
Import ScheduleQueue ContentService.

(** The notification strategy of [seed/seedSettings.ts]. *)
Definition seedStrategy : NotificationStrategy :=
  {| campaignExpiredAlert := true;
     lowProgressWarning := true;
     mileStoneAlert := true;
     mileStoneAlertMessage := Some "Campaign Milestone Alert";
     progressAlert := true;
     progressAlertMessage := "Campaign Progress Alert";
     progressAlertSchedule :=
       {| frequency := progressAlertFrequeincyEnum_weekly;
          day := Some monday;
          time := Some "10:00" |};
     campingId := None;
     organizationId := None |}.

(** The seed strategy with another schedule. *)
Definition withSchedule (s : ProgressAlertSchedule) : NotificationStrategy :=
  {| campaignExpiredAlert := campaignExpiredAlert seedStrategy;
     lowProgressWarning := lowProgressWarning seedStrategy;
     mileStoneAlert := mileStoneAlert seedStrategy;
     mileStoneAlertMessage := mileStoneAlertMessage seedStrategy;
     progressAlert := progressAlert seedStrategy;
     progressAlertMessage := progressAlertMessage seedStrategy;
     progressAlertSchedule := s;
     campingId := campingId seedStrategy;
     organizationId := organizationId seedStrategy |}.

Definition biweeklyHalfPastNine : ProgressAlertSchedule :=
  {| frequency := progressAlertFrequeincyEnum_biweekly;
     day := None;
     time := Some "09:30" |}.

Definition monthlyHalfPastNine : ProgressAlertSchedule :=
  {| frequency := "monthly"; day := None; time := Some "09:30" |}.

Definition weeklyMondayNoColon : ProgressAlertSchedule :=
  {| frequency := progressAlertFrequeincyEnum_weekly;
     day := Some monday;
     time := Some "1000" |}.

Definition emptyQueue : Queue := {| repeatable := []; waiting := [] |}.

(** A store left by an earlier configuration: the three jobs of the seed
    strategy, and a recurring job of another kind. *)
Definition staleQueue : Queue :=
  {| repeatable :=
       [{| name := "sendProgressAlert";
           data := ProgressAlertData "Campaign Progress Alert" "weekly" None None;
           id := "progress-alert-job"; pattern := "00 10 * * 1" |};
        {| name := "nightlyReport"; data := NoData;
           id := "nightly-report"; pattern := "0 0 * * *" |};
        {| name := "checkLowProgress"; data := NoData;
           id := "low-progress-warning-job"; pattern := "0 10 * * *" |};
        {| name := "checkExpiredCampaigns"; data := NoData;
           id := "campaign-expired-alert-job"; pattern := "0 8 * * *" |}];
     waiting := [] |}.

Definition staleStore : Store :=
  {| content := Some {| notificationStrategy := Some seedStrategy |};
     queue := staleQueue |}.

(** The seed strategy rescheduled to the 1st and 15th, with the
    expired-campaign alert switched off. *)
Definition rescheduled : NotificationStrategy :=
  {| campaignExpiredAlert := false;
     lowProgressWarning := true;
     mileStoneAlert := true;
     mileStoneAlertMessage := Some "Campaign Milestone Alert";
     progressAlert := true;
     progressAlertMessage := "Campaign Progress Alert";
     progressAlertSchedule := biweeklyHalfPastNine;
     campingId := None;
     organizationId := None |}.

(** A backend that rejects the listing of the recurring jobs and the
    registration of the low-progress check. *)
Definition flakyBackend : Faults :=
  fun op =>
    match op with
    | OpGetRepeatableJobs => Some (Rejected "redis: listing")
    | OpAdd n =>
        if String.eqb n "checkLowProgress"
        then Some (Rejected "redis: add") else None
    | OpRemoveRepeatableByKey _ => None
    end.

(** A world with one active campaign that has raised 250 towards a goal
    of zero, and the Content document of the seed. *)
Definition zeroGoalCampaign : NotificationWorker.Campaign :=
  {| NotificationWorker._id := "c1";
     NotificationWorker.title := "Shelter";
     NotificationWorker.status := "active";
     NotificationWorker.endDate := 2000;
     NotificationWorker.currentAmount := Number.ofZ 250;
     NotificationWorker.goalAmount := Number.ofZ 0;
     NotificationWorker.createdBy := "u1" |}.

Definition zeroGoalWorld : NotificationWorker.World :=
  {| NotificationWorker.campaigns := [zeroGoalCampaign];
     NotificationWorker.users := {["u1"]};
     NotificationWorker.content :=
       Some {| notificationStrategy := Some seedStrategy |};
     NotificationWorker.sent := [] |}.

Definition atThousand : NotificationWorker.Clock :=
  {| NotificationWorker.now := 1000;
     NotificationWorker.oneWeekFromNow := 1000 + 604800000 |}.

(** The same campaign with a goal of -0, alone in its world. *)
Definition minusZeroGoalCampaign : NotificationWorker.Campaign :=
  {| NotificationWorker._id := "c1";
     NotificationWorker.title := "Shelter";
     NotificationWorker.status := "active";
     NotificationWorker.endDate := 2000;
     NotificationWorker.currentAmount := Number.ofZ 250;
     NotificationWorker.goalAmount := S754_zero true;
     NotificationWorker.createdBy := "u1" |}.

Definition minusZeroGoalWorld : NotificationWorker.World :=
  {| NotificationWorker.campaigns := [minusZeroGoalCampaign];
     NotificationWorker.users := {["u1"]};
     NotificationWorker.content :=
       Some {| notificationStrategy := Some seedStrategy |};
     NotificationWorker.sent := [] |}.

(** The same world with a Content document that has a notification
    strategy without a milestone template. *)
Definition strategyWithoutTemplate : NotificationStrategy :=
  {| campaignExpiredAlert := true;
     lowProgressWarning := true;
     mileStoneAlert := true;
     mileStoneAlertMessage := None;
     progressAlert := true;
     progressAlertMessage := "Campaign Progress Alert";
     progressAlertSchedule := progressAlertSchedule seedStrategy;
     campingId := None;
     organizationId := None |}.

Definition worldWithoutTemplate : NotificationWorker.World :=
  {| NotificationWorker.campaigns := [zeroGoalCampaign];
     NotificationWorker.users := {["u1"]};
     NotificationWorker.content :=
       Some {| notificationStrategy := Some strategyWithoutTemplate |};
     NotificationWorker.sent := [] |}.

End Sample.

(** Sample data of the invitation flow. *)
Module InviteSample.
Import CampaignService.

Definition ann : User :=
  {| contact := Some "+15550001"; totalRaised := 10; totalDonated := 20;
     totalInvited := 1 |}.

Definition bob : User :=
  {| contact := None; totalRaised := 100; totalDonated := 0;
     totalInvited := 0 |}.

Definition world : World :=
  {| db :=
       {| campaigns := {[ "c1" := {| campaign_title := "Shelter" |} ]};
          users := {[ "ann" := ann; "bob" := bob ]};
          invitations := [];
          transactions := [] |};
     session := None;
     sms := [] |}.

(** Ann, referred by Bob, invites three people and gives 50. *)
Definition threeInvitees : InvitePayload :=
  {| myInvitees :=
       [{| invitationForPhone := "+15550101"; invitationForName := Some "Cy" |};
        {| invitationForPhone := "+15550102"; invitationForName := None |};
        {| invitationForPhone := ""; invitationForName := Some "Di" |}];
     donationAmount := Some 50;
     paymentMethod := Some "card";
     invitationIrecievedFrom := "bob" |}.

(** Ann names herself as the referrer. *)
Definition selfInvitation : InvitePayload :=
  {| myInvitees := myInvitees threeInvitees;
     donationAmount := Some 50;
     paymentMethod := Some "card";
     invitationIrecievedFrom := "ann" |}.

Definition calm : Env :=
  {| smsFault := fun _ _ => None;
     txFault := fun _ => None;
     generatedTransactionId := "INV-1700000000000-k3x9q2m1z" |}.

(** The gateway rejects the message to the second invitee. *)
Definition gatewayDown : Env :=
  {| smsFault := fun phone _ =>
       if String.eqb phone "+15550102" then Some (Rejected "sms gateway")
       else None;
     txFault := fun _ => None;
     generatedTransactionId := "INV-1700000000000-k3x9q2m1z" |}.

(** The database rejects the first counter update. *)
Definition updateRejected : Env :=
  {| smsFault := fun _ _ => None;
     txFault := fun step =>
       match step with
       | IncrementRaised => Some (Rejected "mongodb: write conflict")
       | _ => None
       end;
     generatedTransactionId := "INV-1700000000000-k3x9q2m1z" |}.

End InviteSample.


(** ** The loops of the worker, step by step *)

Module WorkerSteps.
Import ScheduleQueue ContentService NotificationWorker.

(** The notification [handleProgressAlert] sends about a campaign. *)
Definition progressAlertFor (m : string) (c : Campaign) : Notification :=
  {| userId := createdBy c;
     type := "PROGRESS_ALERT";
     notification_title := "Campaign Progress Update";
     message := replace "{progress}" (Number.toFixed1 (progressOf c)) m;
     notification_data := ForCampaign (_id c) |}.

(** The body of the loop of [handleProgressAlert]. *)
Definition progressAlertStep (d : JobData) (campaign : Campaign) : M World unit :=
  let progress := progressOf campaign in
  owner ← ownerId campaign;
  match data_message d with
  | None =>
      throw (TypeError "Cannot read properties of undefined (reading 'replace')")
  | Some m =>
      sendNotifications
        {| userId := owner;
           type := "PROGRESS_ALERT";
           notification_title := "Campaign Progress Update";
           message := replace "{progress}" (Number.toFixed1 progress) m;
           notification_data := ForCampaign (_id campaign) |}
  end.

(** The warning [handleLowProgressWarning] sends about a campaign. *)
Definition lowProgressWarningFor (c : Campaign) : Notification :=
  {| userId := createdBy c;
     type := "LOW_PROGRESS_WARNING";
     notification_title := "⚠️ Low Campaign Progress";
     message := dquote +:+ title c +:+ dquote
                  +:+ " is below 25% with 1 week left";
     notification_data := ForProgress (_id c) (progressOf c) |}.

(** The notice [handleExpiredCampaigns] sends about a campaign. *)
Definition expiredNoticeFor (c : Campaign) : Notification :=
  {| userId := createdBy c;
     type := "CAMPAIGN_EXPIRED";
     notification_title := "⏰ Campaign Expired";
     message := dquote +:+ title c +:+ dquote +:+ " has ended";
     notification_data := ForCampaign (_id c) |}.

(** The body of the loop of [handleExpiredCampaigns]. *)
Definition expireStep (campaign : Campaign) : M World unit :=
  Campaign_setStatus (_id campaign) "expired";;
  owner ← ownerId campaign;
  sendNotifications
    {| userId := owner;
       type := "CAMPAIGN_EXPIRED";
       notification_title := "⏰ Campaign Expired";
       message := dquote +:+ title campaign +:+ dquote +:+ " has ended";
       notification_data := ForCampaign (_id campaign) |}.

(** A campaign with its status set. *)
Definition withStatus (st : string) (c : Campaign) : Campaign :=
  {| _id := _id c; title := title c; status := st; endDate := endDate c;
     currentAmount := currentAmount c; goalAmount := goalAmount c;
     createdBy := createdBy c |}.

(** The campaigns after the documents with one of the identifiers [ids]
    have been set to expired. *)
Definition markExpired (ids : list string) (cs : list Campaign) : list Campaign :=
  map (fun c => if existsb (String.eqb (_id c)) ids
                then withStatus "expired" c else c) cs.


(** A later world of the same worker: the users and the Content document
    are the same, the campaigns are the same documents by identifier, and
    the notifications sent before are still the first ones sent. *)
Definition laterWorld (w w' : World) : Prop :=
  users w' = users w
  /\ content w' = content w
  /\ map _id (campaigns w') = map _id (campaigns w)
  /\ exists news, sent w' = (sent w ++ news)%list.

(** A later world in which no campaign has changed either. *)
Definition sameCampaigns (w w' : World) : Prop :=
  campaigns w' = campaigns w /\ laterWorld w w'.

End WorkerSteps.


(** ** content.service.ts and seedSettings.ts: the other functions *)

Module ContentMore.
Import ScheduleQueue ContentService.

(** [const getContent = async () => ...] *)
Definition getContent : M Store Content :=
  result ← ContentService.Content_findOne;
  match result with
  | None => throw (AppError NOT_FOUND "Content not found")
  | Some doc => ret doc
  end.

(** [export const seedContentSettings = async () => ...]: an existing
    document is returned as it is; otherwise the default document is
    saved. No job is set up. *)
Definition seedContentSettings : M Store Content :=
  tryCatch
    (existingContent ← ContentService.Content_findOne;
     match existingContent with
     | Some existing => ret existing
     | None =>
         Content_create
           {| payload_notificationStrategy := Some Sample.seedStrategy |}
     end)
    (fun error => throw error).

(** A row of the aggregation of [getDonationGrowthData]: a month, the
    amount given in it (a JavaScript number) and the number of
    donations. *)
Record MonthRow : Type := {
  month : string;
  totalAmount : spec_float;
  transactionCount : Z
}.

(** A row of the growth data. *)
Record GrowthRow : Type := {
  growth_month : string;
  monthlyAmount : spec_float;
  growth_totalAmount : spec_float;
  growth_transactionCount : Z
}.

(** [donationData.map((item) => { runningTotal += item.totalAmount; ... })]
    from a running total of [runningTotal]. *)
Fixpoint growthFrom (runningTotal : spec_float) (donationData : list MonthRow)
  : list GrowthRow :=
  match donationData with
  | [] => []
  | item :: rest =>
      let runningTotal' := Number.add runningTotal (totalAmount item) in
      {| growth_month := month item;
         monthlyAmount := totalAmount item;
         growth_totalAmount := runningTotal';
         growth_transactionCount := transactionCount item |}
        :: growthFrom runningTotal' rest
  end.

(** The [growthData] of [getDonationGrowthData], from the rows of the
    aggregation: [let runningTotal = 0]. *)
Definition growthData (donationData : list MonthRow) : list GrowthRow :=
  growthFrom (Number.ofZ 0) donationData.

(** What the removal step may do to the store: it adds nothing, it leaves
    the one-shot jobs and every registration whose key contains none of
    the three identities. *)
Definition cleanedFrom (q q' : Queue) : Prop :=
  waiting q' = waiting q
  /\ (forall j, In j (repeatable q') -> In j (repeatable q))
  /\ (forall j, In j (repeatable q) -> shouldRemove j = false ->
                In j (repeatable q')).

(** The amounts of some rows, added up from 0 in their order, each
    addition rounded as JavaScript rounds it. *)
Definition amountOver (rows : list MonthRow) : spec_float :=
  fold_left (fun acc r => Number.add acc (totalAmount r)) rows (Number.ofZ 0).

(** A registration that the store holds, and holds only as it is: every
    entry under its identity is that registration. *)
Definition settled (x : RepeatableJob) (rs : list RepeatableJob) : Prop :=
  registered (id x) rs = true /\ forall r, In r rs -> id r = id x -> r = x.

End ContentMore.


(** ** campaign.service.ts: reading and deleting a campaign *)

Module CampaignCrud.

(** A campaign document, the fields these functions read and write. *)
Record Doc : Type := {
  cause_image : option string;
  isDeleted : bool;
  deletedAt : option Z
}.

(** The campaigns by identifier, and the files that [unlinkFile] has been
    called on ([shared/unlinkFile.ts] is not among the sources; the call
    is recorded). Database calls are taken to resolve. *)
Record Store : Type := {
  docs : gmap string Doc;
  unlinked : list string
}.

(** [unlinkFile(path)] *)
Definition unlinkFile (path : string) : M Store unit :=
  modify (fun s => {| docs := docs s; unlinked := unlinked s ++ [path] |}).

(** [const getCampaignById = async (id) => ...] *)
Definition getCampaignById (i : string) : M Store (option Doc) :=
  fun s => (Normal (docs s !! i), s).

(** [Campaign.findByIdAndDelete(id)] *)
Definition Campaign_findByIdAndDelete (i : string) : M Store (option Doc) :=
  fun s => (Normal (docs s !! i),
            {| docs := delete i (docs s); unlinked := unlinked s |}).

(** [const hardDeleteCampaign = async (id) => ...] *)
Definition hardDeleteCampaign (i : string) : M Store Doc :=
  result ← Campaign_findByIdAndDelete i;
  match result with
  | None => throw (AppError NOT_FOUND "Campaign not found.")
  | Some doc =>
      (if truthyOpt (cause_image doc)
       then unlinkFile (default "" (cause_image doc)) else ret tt);;
      ret doc
  end.

(** [const deleteCampaign = async (id) => ...]: the document is marked,
    with the date of the call, and saved. *)
Definition deleteCampaign (now : Z) (i : string) : M Store Doc :=
  result ← getCampaignById i;
  match result with
  | None => throw (AppError NOT_FOUND "Campaign not found.")
  | Some doc =>
      let marked :=
        {| cause_image := cause_image doc; isDeleted := true;
           deletedAt := Some now |} in
      modify (fun s =>
        {| docs := <[i := marked]> (docs s); unlinked := unlinked s |});;
      ret marked
  end.

End CampaignCrud.


(** ** More sample data *)

Module MoreSample.
Import ScheduleQueue ContentService NotificationWorker.

Definition day : Z := 86400000.

(** An active campaign of owner [u1]; amounts and end date vary. *)
Definition campaign (i : string) (raised goal : Z) (ends : Z) : Campaign :=
  {| _id := i; title := "Shelter " +:+ i; status := "active";
     endDate := ends;
     currentAmount := Number.ofZ raised; goalAmount := Number.ofZ goal;
     createdBy := "u1" |}.

(** Now is day 10. Campaign [a] is at 10 percent and [b] at 40 percent,
    both ending in five days; [c] ended two days ago; [d] ends in a
    month. *)
Definition clock : Clock :=
  {| now := 10 * day; oneWeekFromNow := 17 * day |}.

Definition world : World :=
  {| campaigns :=
       [campaign "a" 100 1000 (15 * day); campaign "b" 400 1000 (15 * day);
        campaign "c" 900 1000 (8 * day); campaign "d" 0 1000 (40 * day)];
     users := {["u1"]};
     content := Some {| notificationStrategy := Some Sample.seedStrategy |};
     sent := [] |}.

(** The same campaigns when the owner's account is gone. *)
Definition ownerlessWorld : World :=
  {| campaigns := campaigns world; users := ∅; content := content world;
     sent := [] |}.

(** A backend that rejects the listing of the recurring jobs only. *)
Definition listingDown : Faults :=
  fun op =>
    match op with
    | OpGetRepeatableJobs => Some (Rejected "redis: listing")
    | _ => None
    end.

Definition progressData : JobData :=
  ProgressAlertData "At {progress}%" "weekly" None None.

(** The expiry check as [Sample.staleQueue] holds it. *)
Definition staleExpiryJob : RepeatableJob :=
  {| name := "checkExpiredCampaigns"; data := NoData;
     id := "campaign-expired-alert-job"; pattern := "0 8 * * *" |}.

End MoreSample.


(** More sample data of the invitation flow. *)
Module MoreInviteSample.
Import CampaignService.

(** Ann, referred by Bob, invites the same three people and gives
    nothing. *)
Definition withoutDonation : InvitePayload :=
  {| myInvitees := myInvitees InviteSample.threeInvitees;
     donationAmount := None;
     paymentMethod := None;
     invitationIrecievedFrom := "bob" |}.

(** Bob, who has no contact phone, referred by Ann. *)
Definition fromBob : InvitePayload :=
  {| myInvitees := myInvitees InviteSample.threeInvitees;
     donationAmount := Some 50;
     paymentMethod := Some "card";
     invitationIrecievedFrom := "ann" |}.

End MoreInviteSample.


(** * Properties *)

(** ** Strings *)

Section StringFacts.

Lemma startsWith_append (p s : string) : startsWith p (p +:+ s) = true.
Proof.
  induction p as [|a p IH]; simpl.
  - reflexivity.
  - rewrite Ascii.eqb_refl, IH. reflexivity.
Qed.

Lemma includes_here (p s : string) : includes p (p +:+ s) = true.
Proof.
  destruct (p +:+ s) eqn:E; simpl.
  - rewrite <- E, startsWith_append. reflexivity.
  - rewrite <- E, startsWith_append. reflexivity.
Qed.

Lemma includes_later (p a s : string) :
  includes p s = true -> includes p (a +:+ s) = true.
Proof.
  intros H. induction a as [|c a IH]; simpl.
  - exact H.
  - rewrite IH. apply orb_true_r.
Qed.

(** A string without the separator is the only piece of its split. *)
Lemma split_without_sep (c : ascii) (s : string) :
  includes (String c EmptyString) s = false -> split c s = [s].
Proof.
  induction s as [|a s IH]; simpl.
  - reflexivity.
  - intros H. apply orb_false_elim in H as [H1 H2].
    rewrite andb_true_r in H1. rewrite Ascii.eqb_sym in H1. rewrite H1.
    rewrite (IH H2). reflexivity.
Qed.

(** The split of [h:rest] when [h] has no separator. *)
Lemma split_at_first_sep (c : ascii) (h rest : string) :
  includes (String c EmptyString) h = false ->
  split c (h +:+ String c rest) = h :: split c rest.
Proof.
  induction h as [|a h IH]; simpl.
  - intros _. rewrite Ascii.eqb_refl. reflexivity.
  - intros H. apply orb_false_elim in H as [H1 H2].
    rewrite andb_true_r in H1. rewrite Ascii.eqb_sym in H1. rewrite H1.
    rewrite (IH H2). reflexivity.
Qed.

End StringFacts.


(** ** The cron expression of the progress alert *)

Section CronExpression.
Import ScheduleQueue ContentService Spec.

Lemma getDayNumber_canonical (d : progressAlertDayEnum) :
  getDayNumber (Some d) = canonicalWeekday d.
Proof. destruct d; reflexivity. Qed.

Lemma canonicalWeekday_range (d : progressAlertDayEnum) :
  exists n, canonicalWeekday d = Some n /\ 0 <= n <= 6.
Proof. destruct d; vm_compute; eexists; (split; [reflexivity | split; discriminate]). Qed.

Lemma truthy_timed (h m : string) : truthy (h +:+ ":" +:+ m) = true.
Proof. destruct h; reflexivity. Qed.

(** A time [h:m] is destructured into hour [h] and minute [m], as
    written. *)
Lemma hourMinute_timed (h m : string) :
  colonFree h -> colonFree m ->
  hourMinute (Some (h +:+ ":" +:+ m)) = (Some h, Some m).
Proof.
  intros Hh Hm. unfold hourMinute. rewrite truthy_timed.
  change (h +:+ ":" +:+ m) with (h +:+ String ":" m).
  rewrite (split_at_first_sep ":" h m Hh), (split_without_sep ":" m Hm).
  reflexivity.
Qed.

(** An absent or empty time stands for 09:00. *)
Lemma hourMinute_default (t : option string) :
  truthyOpt t = false -> hourMinute t = (Some "09", Some "00").
Proof.
  unfold hourMinute. destruct t as [s|]; simpl.
  - intros ->. reflexivity.
  - reflexivity.
Qed.

(** A time without a colon is not replaced by the default: the minute is
    [undefined]. *)
Lemma hourMinute_no_colon (t : string) :
  truthy t = true -> colonFree t -> hourMinute (Some t) = (Some t, None).
Proof.
  intros Ht Hc. unfold hourMinute. rewrite Ht.
  rewrite (split_without_sep ":" t Hc). reflexivity.
Qed.

Lemma register_In (j : RepeatableJob) (rs : list RepeatableJob) :
  In j (register j rs).
Proof.
  unfold register. destruct (registered (id j) rs) eqn:E.
  - apply existsb_exists in E as (r & Hr & Hk).
    apply in_map_iff. exists r. rewrite Hk. split; [reflexivity | exact Hr].
  - apply in_or_app. right. left. reflexivity.
Qed.

(** C3 (as amended). For every weekly schedule with a day, the weekday
    field of the cron expression is the canonical number of the day
    (sunday = 0 through saturday = 6); for a time written [h:m] the output
    is [m h * * weekday] with the two texts as written (they are not read
    as numbers, so a leading zero stays), and an absent or empty time gives
    [00 09 * * weekday]. *)
Theorem weekly_cron_expression (s : ProgressAlertSchedule)
    (d : progressAlertDayEnum) :
  frequency s = progressAlertFrequeincyEnum_weekly ->
  day s = Some d ->
  exists n : Z,
    canonicalWeekday d = Some n /\ 0 <= n <= 6 /\
    (forall h m : string,
        time s = Some (h +:+ ":" +:+ m) -> colonFree h -> colonFree m ->
        cronExpression s = m +:+ " " +:+ h +:+ " * * " +:+ toString n) /\
    (truthyOpt (time s) = false ->
     cronExpression s = "00 09 * * " +:+ toString n).
Proof.
  intros Hf Hd.
  destruct (canonicalWeekday_range d) as (n & Hn & Hr).
  exists n. split; [exact Hn|]. split; [exact Hr|].
  unfold cronExpression. rewrite Hf, String.eqb_refl, Hd.
  rewrite getDayNumber_canonical, Hn. split.
  - intros h m Ht Hh Hm. rewrite Ht, (hourMinute_timed h m Hh Hm). reflexivity.
  - intros Ht. rewrite (hourMinute_default _ Ht). reflexivity.
Qed.

Lemma weekly_cron_expression_witness :
  frequency (progressAlertSchedule Sample.seedStrategy)
    = progressAlertFrequeincyEnum_weekly
  /\ day (progressAlertSchedule Sample.seedStrategy) = Some monday
  /\ exists n : Z,
       canonicalWeekday monday = Some n /\ 0 <= n <= 6 /\
       (forall h m : string,
           time (progressAlertSchedule Sample.seedStrategy)
             = Some (h +:+ ":" +:+ m) ->
           colonFree h -> colonFree m ->
           cronExpression (progressAlertSchedule Sample.seedStrategy)
             = m +:+ " " +:+ h +:+ " * * " +:+ toString n) /\
       (truthyOpt (time (progressAlertSchedule Sample.seedStrategy)) = false ->
        cronExpression (progressAlertSchedule Sample.seedStrategy)
          = "00 09 * * " +:+ toString n).
Proof.
  split; [reflexivity|]. split; [reflexivity|].
  apply (weekly_cron_expression
           (progressAlertSchedule Sample.seedStrategy) monday);
    reflexivity.
Defined.

(** C3 fails as stated: the schedule of the example, weekly on monday at
    10:00, gives [00 10 * * 1] and not [0 10 * * 1], and a time without a
    colon is not replaced by 09:00. *)
Lemma weekly_example_counterexample :
  cronExpression (progressAlertSchedule Sample.seedStrategy) = "00 10 * * 1"
  /\ cronExpression (progressAlertSchedule Sample.seedStrategy) <> "0 10 * * 1"
  /\ cronExpression Sample.weeklyMondayNoColon = "undefined 1000 * * 1"
  /\ cronExpression Sample.weeklyMondayNoColon <> "00 09 * * 1".
Proof. repeat split; try reflexivity; discriminate. Qed.

(** C2 (as amended). For every schedule whose frequency is not weekly,
    supported or not, the cron expression is [m h 1,15 * *] for a time
    written [h:m] (the two texts as written) and [00 09 1,15 * *] for an
    absent or empty time; building it never fails, and unless the store
    rejects the call the progress alert is registered with that pattern. *)
Theorem non_weekly_cron_expression (s : ProgressAlertSchedule) :
  frequency s <> progressAlertFrequeincyEnum_weekly ->
  (forall h m : string,
      time s = Some (h +:+ ":" +:+ m) -> colonFree h -> colonFree m ->
      cronExpression s = m +:+ " " +:+ h +:+ " 1,15 * *") /\
  (truthyOpt (time s) = false -> cronExpression s = "00 09 1,15 * *") /\
  (forall (f : Faults) (ns : NotificationStrategy) (q : Queue),
      progressAlertSchedule ns = s ->
      f (OpAdd "sendProgressAlert") = None ->
      exists q' : Queue,
        addProgressAlertJob f ns q = (Normal tt, q') /\
        exists j : RepeatableJob,
          In j (repeatable q') /\ id j = "progress-alert-job"
          /\ pattern j = cronExpression s).
Proof.
  intros Hf.
  assert (Hw : String.eqb (frequency s) progressAlertFrequeincyEnum_weekly = false)
    by (apply String.eqb_neq; exact Hf).
  split; [|split].
  - intros h m Ht Hh Hm. unfold cronExpression.
    rewrite Hw, Ht, (hourMinute_timed h m Hh Hm). reflexivity.
  - intros Ht. unfold cronExpression.
    rewrite Hw, (hourMinute_default _ Ht). reflexivity.
  - intros f ns q Hs Hadd. unfold addProgressAlertJob, add. rewrite Hadd.
    eexists. split; [reflexivity|]. simpl.
    eexists. split; [apply register_In|]. rewrite Hs. split; reflexivity.
Qed.

Lemma non_weekly_cron_expression_witness :
  frequency Sample.monthlyHalfPastNine <> progressAlertFrequeincyEnum_weekly
  /\ cronExpression Sample.monthlyHalfPastNine = "30 09 1,15 * *".
Proof.
  split; [discriminate|].
  apply (proj1 (non_weekly_cron_expression Sample.monthlyHalfPastNine
                  ltac:(discriminate)) "09" "30"); reflexivity.
Defined.

(** C2 fails as stated: the schedule of the example, biweekly at 09:30,
    gives [30 09 1,15 * *] and not [30 9 1,15 * *]; and a frequency that is
    neither weekly nor biweekly is not refused: the job is registered. *)
Lemma biweekly_example_counterexample :
  cronExpression Sample.biweeklyHalfPastNine = "30 09 1,15 * *"
  /\ cronExpression Sample.biweeklyHalfPastNine <> "30 9 1,15 * *"
  /\ frequency Sample.monthlyHalfPastNine <> progressAlertFrequeincyEnum_weekly
  /\ frequency Sample.monthlyHalfPastNine <> progressAlertFrequeincyEnum_biweekly
  /\ addProgressAlertJob noFaults
        (Sample.withSchedule Sample.monthlyHalfPastNine) Sample.emptyQueue
      = (Normal tt,
         {| repeatable :=
              [{| name := "sendProgressAlert";
                  data := ProgressAlertData "Campaign Progress Alert"
                            "monthly" None None;
                  id := "progress-alert-job";
                  pattern := "30 09 1,15 * *" |}];
            waiting := [] |}).
Proof. repeat split; try reflexivity; discriminate. Qed.

End CronExpression.

(** ** Schedule reconciliation *)

Section Reconciliation.
Import ScheduleQueue ContentService Spec.

Lemma filter_all {A} (l : list A) : List.filter (fun _ => true) l = l.
Proof. induction l as [|x l IH]; simpl; [reflexivity | rewrite IH; reflexivity]. Qed.

Lemma filter_twice {A} (p q : A -> bool) (l : list A) :
  List.filter p (List.filter q l) = List.filter (fun x => q x && p x) l.
Proof.
  induction l as [|x l IH]; simpl; [reflexivity|].
  destruct (q x); simpl; [destruct (p x)|]; rewrite IH; reflexivity.
Qed.

Lemma filter_none {A} (p : A -> bool) (l : list A) :
  (forall x, In x l -> p x = false) -> List.filter p l = [].
Proof.
  induction l as [|x l IH]; simpl; intros H; [reflexivity|].
  rewrite (H x (or_introl eq_refl)). apply IH. intros y Hy. apply H. right. exact Hy.
Qed.

Lemma filter_every {A} (p : A -> bool) (l : list A) :
  (forall x, In x l -> p x = true) -> List.filter p l = l.
Proof.
  induction l as [|x l IH]; simpl; intros H; [reflexivity|].
  rewrite (H x (or_introl eq_refl)). f_equal. apply IH. intros y Hy. apply H. right. exact Hy.
Qed.

(** The key of a registration contains its identity. *)
Lemma key_includes_id (j : RepeatableJob) : includes (id j) (key j) = true.
Proof.
  unfold key. apply includes_later.
  apply (includes_later (id j) ":"). apply includes_here.
Qed.

Lemma shouldRemove_key (j j' : RepeatableJob) :
  key j = key j' -> shouldRemove j = shouldRemove j'.
Proof. unfold shouldRemove. intros ->. reflexivity. Qed.

(** A registration under one of the three fixed identities is one that
    the removal step takes. *)
Lemma shouldRemove_of_id (j : RepeatableJob) :
  In (id j) jobIds -> shouldRemove j = true.
Proof.
  intros H. unfold shouldRemove. apply existsb_exists.
  exists (id j). split; [exact H | apply key_includes_id].
Qed.

Lemma sweep_cons (j : RepeatableJob) (l rs : list RepeatableJob) :
  sweep (j :: l) rs
  = sweep l (if shouldRemove j then unregister (key j) rs else rs).
Proof. reflexivity. Qed.

Lemma remove_loop (f : Faults) (l : list RepeatableJob) (q : Queue) :
  (forall k, f (OpRemoveRepeatableByKey k) = None) ->
  forOf l (fun job =>
             if shouldRemove job then removeRepeatableByKey f (key job)
             else ret tt) q
  = (Normal tt, {| repeatable := sweep l (repeatable q); waiting := waiting q |}).
Proof.
  intros Hf. revert q. induction l as [|j l IH]; intros q.
  - destruct q. reflexivity.
  - rewrite sweep_cons. cbn [forOf]. unfold bind at 1.
    destruct (shouldRemove j) eqn:E.
    + unfold removeRepeatableByKey. rewrite Hf. unfold modify at 1.
      rewrite IH. reflexivity.
    + unfold ret at 1. rewrite IH. reflexivity.
Qed.

Lemma sweep_filter (l rs : list RepeatableJob) :
  sweep l rs
  = List.filter
      (fun r => negb (existsb
                        (fun j => shouldRemove j && String.eqb (key r) (key j)) l))
      rs.
Proof.
  revert rs. induction l as [|j l IH]; intros rs.
  - simpl. symmetry. apply filter_all.
  - rewrite sweep_cons. destruct (shouldRemove j) eqn:E.
    + rewrite IH. unfold unregister. rewrite filter_twice.
      apply filter_ext. intros r. simpl. rewrite negb_orb, E. reflexivity.
    + rewrite IH. apply filter_ext. intros r. simpl. rewrite E. reflexivity.
Qed.

Lemma sweep_self (rs : list RepeatableJob) :
  sweep rs rs = List.filter (fun r => negb (shouldRemove r)) rs.
Proof.
  rewrite sweep_filter. apply filter_ext_in. intros r Hr. f_equal.
  destruct (shouldRemove r) eqn:E.
  - apply existsb_exists. exists r. rewrite E, String.eqb_refl.
    split; [exact Hr | reflexivity].
  - apply not_true_is_false. intros H.
    apply existsb_exists in H as (j & _ & Hj).
    apply andb_prop in Hj as [Hs Hk]. apply String.eqb_eq in Hk.
    rewrite (shouldRemove_key r j Hk) in E. congruence.
Qed.

(** When the store rejects nothing, the removal step leaves exactly the
    registrations whose key contains none of the three identities. *)
Lemma removal_without_faults (f : Faults) (q : Queue) :
  f OpGetRepeatableJobs = None ->
  (forall k, f (OpRemoveRepeatableByKey k) = None) ->
  removeExistingNotificationJobs f q
  = (Normal tt,
     {| repeatable := List.filter (fun r => negb (shouldRemove r)) (repeatable q);
        waiting := waiting q |}).
Proof.
  intros Hg Hr. unfold removeExistingNotificationJobs, tryCatch.
  unfold mbind, M_bind, bind, getRepeatableJobs. rewrite Hg.
  rewrite (remove_loop f _ q Hr), sweep_self. reflexivity.
Qed.

(** Whatever the store rejects, the removal step returns normally. *)
Lemma removal_never_throws (f : Faults) (q : Queue) :
  fst (removeExistingNotificationJobs f q) = Normal tt.
Proof.
  unfold removeExistingNotificationJobs, tryCatch.
  match goal with |- context [match ?c with _ => _ end] => destruct c as [[[]|e] q'] end;
    reflexivity.
Qed.

(** [setupNotificationJobs] throws exactly the first rejection among the
    registrations the strategy asks for. *)
Lemma setup_completion (f : Faults) (ns : NotificationStrategy) (q : Queue) :
  fst (setupNotificationJobs f ns q)
  = match firstRejection f ns with
    | Some e => Throw e
    | None => Normal tt
    end.
Proof.
  unfold setupNotificationJobs, firstRejection, tryCatch, mbind, M_bind, bind.
  unfold addProgressAlertJob, addLowProgressWarningJob,
    addCampaignExpiredAlertJob, add.
  destruct (progressAlert ns), (lowProgressWarning ns), (campaignExpiredAlert ns);
    destruct (f (OpAdd "sendProgressAlert"));
    destruct (f (OpAdd "checkLowProgress"));
    destruct (f (OpAdd "checkExpiredCampaigns")); reflexivity.
Qed.

(** When no registration is rejected, the jobs of the strategy are
    registered one after the other. *)
Lemma setup_without_faults (f : Faults) (ns : NotificationStrategy) (q : Queue) :
  (forall n, f (OpAdd n) = None) ->
  setupNotificationJobs f ns q
  = (Normal tt,
     {| repeatable :=
          fold_left (fun rs j => register j rs) (jobsFor ns) (repeatable q);
        waiting := waiting q |}).
Proof.
  intros Hf.
  unfold setupNotificationJobs, tryCatch, mbind, M_bind, bind.
  unfold addProgressAlertJob, addLowProgressWarningJob,
    addCampaignExpiredAlertJob, add, jobsFor.
  rewrite !Hf. destruct q as [rs ws].
  destruct (progressAlert ns), (lowProgressWarning ns), (campaignExpiredAlert ns);
    reflexivity.
Qed.

Lemma register_fresh (j : RepeatableJob) (rs : list RepeatableJob) :
  registered (id j) rs = false -> register j rs = (rs ++ [j])%list.
Proof. intros H. unfold register. rewrite H. reflexivity. Qed.

Lemma registered_app (i : string) (l1 l2 : list RepeatableJob) :
  registered i (l1 ++ l2)%list = registered i l1 || registered i l2.
Proof. apply existsb_app. Qed.

(** None of the three identities has a registration among those that the
    removal step leaves. *)
Lemma not_registered_among_kept (i : string) (rs : list RepeatableJob) :
  In i jobIds ->
  (forall r, In r rs -> shouldRemove r = false) ->
  registered i rs = false.
Proof.
  intros Hi Hrs. apply not_true_is_false. intros H.
  apply existsb_exists in H as (r & Hr & Hk). apply String.eqb_eq in Hk.
  specialize (Hrs r Hr). subst i.
  rewrite (shouldRemove_of_id r Hi) in Hrs. congruence.
Qed.

Lemma jobsFor_ids (ns : NotificationStrategy) (j : RepeatableJob) :
  In j (jobsFor ns) -> In (id j) jobIds.
Proof.
  unfold jobsFor, jobIds.
  destruct (progressAlert ns), (lowProgressWarning ns), (campaignExpiredAlert ns);
    simpl; intros H; repeat (destruct H as [<-|H]); simpl; tauto.
Qed.

(** On a store that the removal step has cleaned, the jobs of the strategy
    are appended: none of them replaces another. *)
Lemma register_after_removal (ns : NotificationStrategy)
    (rs : list RepeatableJob) :
  (forall r, In r rs -> shouldRemove r = false) ->
  fold_left (fun acc j => register j acc) (jobsFor ns) rs
  = (rs ++ jobsFor ns)%list.
Proof.
  intros Hrs.
  assert (fresh : forall i, In i jobIds -> registered i rs = false).
  { intros i Hi. apply not_registered_among_kept; assumption. }
  unfold jobsFor.
  destruct (progressAlert ns), (lowProgressWarning ns), (campaignExpiredAlert ns);
    cbn [fold_left app];
    repeat match goal with
      | |- context [register ?j ?l] =>
          lazymatch l with
          | context [register] => fail
          | _ =>
              rewrite (register_fresh j l)
                by (rewrite ?registered_app, fresh
                      by (unfold jobIds; simpl; tauto);
                    reflexivity)
          end
      end;
    rewrite <- ?app_assoc; try reflexivity; symmetry; apply app_nil_r.
Qed.

Lemma registrations_kept (i : string) (rs : list RepeatableJob) :
  In i jobIds ->
  List.filter (fun j => String.eqb (id j) i)
    (List.filter (fun r => negb (shouldRemove r)) rs) = [].
Proof.
  intros Hi. apply filter_none. intros j Hj.
  apply filter_In in Hj as [_ Hj]. apply not_true_is_false. intros H.
  apply String.eqb_eq in H. subst i.
  rewrite (shouldRemove_of_id j Hi) in Hj. discriminate.
Qed.

(** The update path of [upsertContent]: the removal step, then the
    registration step on what it left; the caller gets the completion of
    the registration step. *)
Lemma upsert_update (f : Faults) (ns : NotificationStrategy) (c : Content)
    (s : Store) :
  content s = Some c ->
  upsertContent f {| payload_notificationStrategy := Some ns |} s
  = (match fst (setupNotificationJobs f ns
                  (snd (removeExistingNotificationJobs f (queue s)))) with
     | Normal _ => Normal (Some {| notificationStrategy := Some ns |}, false)
     | Throw e => Throw e
     end,
     {| content := Some {| notificationStrategy := Some ns |};
        queue := snd (setupNotificationJobs f ns
                        (snd (removeExistingNotificationJobs f (queue s)))) |}).
Proof.
  intros Hc.
  unfold upsertContent, tryCatch, mbind, M_bind, bind, Content_findOne,
    Content_findByIdAndUpdate, onQueue.
  rewrite Hc.
  cbn -[removeExistingNotificationJobs setupNotificationJobs].
  rewrite Hc.
  cbn -[removeExistingNotificationJobs setupNotificationJobs].
  pose proof (removal_never_throws f (queue s)) as Hr.
  destruct (removeExistingNotificationJobs f (queue s)) as [r1 q1].
  simpl in Hr. subst r1.
  cbn -[setupNotificationJobs].
  destruct (setupNotificationJobs f ns q1) as [[[]|e] q2]; reflexivity.
Qed.

(** One reconciliation on a backend that rejects nothing. *)
Lemma reconcile_once (f : Faults) (ns : NotificationStrategy) (c : Content)
    (s : Store) :
  content s = Some c ->
  (forall op, f op = None) ->
  upsertContent f {| payload_notificationStrategy := Some ns |} s
  = (Normal (Some {| notificationStrategy := Some ns |}, false),
     {| content := Some {| notificationStrategy := Some ns |};
        queue :=
          {| repeatable :=
               (List.filter (fun r => negb (shouldRemove r))
                  (repeatable (queue s)) ++ jobsFor ns)%list;
             waiting := waiting (queue s) |} |}).
Proof.
  intros Hc Hf. rewrite (upsert_update f ns c s Hc).
  rewrite (removal_without_faults f (queue s) (Hf _) (fun k => Hf _)).
  cbn [snd]. rewrite (setup_without_faults f ns _ (fun n => Hf _)).
  cbn [fst snd repeatable waiting].
  rewrite register_after_removal; [reflexivity|].
  intros r Hr. apply filter_In in Hr as [_ Hr].
  apply negb_true_iff. exact Hr.
Qed.

(** The removal step takes every job a strategy asks for and nothing of
    what an earlier removal left. *)
Lemma removal_after_reconcile (ns : NotificationStrategy)
    (rs : list RepeatableJob) :
  List.filter (fun r => negb (shouldRemove r))
    (List.filter (fun r => negb (shouldRemove r)) rs ++ jobsFor ns)%list
  = List.filter (fun r => negb (shouldRemove r)) rs.
Proof.
  rewrite List.filter_app.
  rewrite (filter_none _ (jobsFor ns)).
  - rewrite app_nil_r. apply filter_every.
    intros r Hr. apply filter_In in Hr as [_ Hr]. exact Hr.
  - intros j Hj. rewrite (shouldRemove_of_id j (jobsFor_ids ns j Hj)).
    reflexivity.
Qed.

Lemma registrations_after_reconcile (i : string) (ns : NotificationStrategy)
    (rs ws : list RepeatableJob) (w : list Job) :
  In i jobIds ->
  registrations i
    {| repeatable :=
         (List.filter (fun r => negb (shouldRemove r)) rs ++ jobsFor ns)%list;
       waiting := w |}
  = length (List.filter (fun j => String.eqb (id j) i) (jobsFor ns)).
Proof.
  intros Hi. unfold registrations. cbn [repeatable].
  rewrite List.filter_app, (registrations_kept i rs Hi). reflexivity.
Qed.

(** C5. Reconciling the same notification strategy twice in a row, on a
    backend that rejects nothing: each run leaves the registrations whose
    key contains none of the three fixed identities and, after them, one
    registration per enabled toggle under its fixed identity; the second
    run leaves the store as the first did, with exactly one registration
    per enabled feature and none per disabled one. *)
Theorem reconciling_twice (f1 f2 : Faults) (ns : NotificationStrategy)
    (c : Content) (s0 : Store) :
  content s0 = Some c ->
  (forall op, f1 op = None) ->
  (forall op, f2 op = None) ->
  let payload := {| payload_notificationStrategy := Some ns |} in
  let s1 := snd (upsertContent f1 payload s0) in
  let s2 := snd (upsertContent f2 payload s1) in
  fst (upsertContent f2 payload s1)
    = Normal (Some {| notificationStrategy := Some ns |}, false)
  /\ repeatable (queue s1)
      = (List.filter (fun r => negb (shouldRemove r)) (repeatable (queue s0))
           ++ jobsFor ns)%list
  /\ repeatable (queue s2)
      = (List.filter (fun r => negb (shouldRemove r)) (repeatable (queue s1))
           ++ jobsFor ns)%list
  /\ queue s2 = queue s1
  /\ registrations "progress-alert-job" (queue s2)
      = (if progressAlert ns then 1 else 0)%nat
  /\ registrations "low-progress-warning-job" (queue s2)
      = (if lowProgressWarning ns then 1 else 0)%nat
  /\ registrations "campaign-expired-alert-job" (queue s2)
      = (if campaignExpiredAlert ns then 1 else 0)%nat.
Proof.
  intros Hc H1 H2 payload s1 s2. subst payload s1 s2.
  rewrite (reconcile_once f1 ns c s0 Hc H1). cbn [snd].
  rewrite (reconcile_once f2 ns {| notificationStrategy := Some ns |});
    [ | reflexivity | exact H2 ].
  cbn [fst snd queue repeatable waiting].
  split; [reflexivity|]. split; [reflexivity|]. split; [reflexivity|].
  rewrite removal_after_reconcile. split; [reflexivity|].
  rewrite !registrations_after_reconcile
    by (try exact []; unfold jobIds; simpl; tauto).
  unfold jobsFor.
  destruct (progressAlert ns), (lowProgressWarning ns), (campaignExpiredAlert ns);
    repeat split; reflexivity.
Qed.

Lemma reconciling_twice_witness :
  content Sample.staleStore
    = Some {| notificationStrategy := Some Sample.seedStrategy |}
  /\ (forall op, noFaults op = None)
  /\ let payload :=
        {| payload_notificationStrategy := Some Sample.rescheduled |} in
      let s2 :=
        snd (upsertContent noFaults payload
               (snd (upsertContent noFaults payload Sample.staleStore))) in
      registrations "progress-alert-job" (queue s2) = 1%nat
      /\ registrations "low-progress-warning-job" (queue s2) = 1%nat
      /\ registrations "campaign-expired-alert-job" (queue s2) = 0%nat.
Proof.
  split; [reflexivity|]. split; [intros op; reflexivity|].
  pose proof (reconciling_twice noFaults noFaults Sample.rescheduled
                {| notificationStrategy := Some Sample.seedStrategy |}
                Sample.staleStore eq_refl (fun _ => eq_refl) (fun _ => eq_refl))
    as (_ & _ & _ & _ & Hp & Hl & He).
  exact (conj Hp (conj Hl He)).
Defined.

(** C7. Whatever the backend rejects while the old recurring jobs are
    removed, the removal step returns normally and the registration step
    runs on the store it left; the caller of the update gets the first
    rejection of a registration, if there is one, and the updated document
    otherwise. *)
Theorem reconciliation_failure_policy (f : Faults) (ns : NotificationStrategy)
    (c : Content) (s : Store) :
  content s = Some c ->
  let payload := {| payload_notificationStrategy := Some ns |} in
  fst (removeExistingNotificationJobs f (queue s)) = Normal tt
  /\ queue (snd (upsertContent f payload s))
      = snd (setupNotificationJobs f ns
               (snd (removeExistingNotificationJobs f (queue s))))
  /\ fst (upsertContent f payload s)
      = match firstRejection f ns with
        | Some e => Throw e
        | None => Normal (Some {| notificationStrategy := Some ns |}, false)
        end.
Proof.
  intros Hc payload. subst payload.
  split; [apply removal_never_throws|].
  rewrite (upsert_update f ns c s Hc). cbn [fst snd queue].
  split; [reflexivity|].
  rewrite setup_completion. destruct (firstRejection f ns); reflexivity.
Qed.

Lemma reconciliation_failure_policy_witness :
  content Sample.staleStore
    = Some {| notificationStrategy := Some Sample.seedStrategy |}
  /\ Sample.flakyBackend OpGetRepeatableJobs = Some (Rejected "redis: listing")
  /\ fst (removeExistingNotificationJobs Sample.flakyBackend
            (queue Sample.staleStore)) = Normal tt
  /\ fst (upsertContent Sample.flakyBackend
            {| payload_notificationStrategy := Some Sample.rescheduled |}
            Sample.staleStore)
      = Throw (Rejected "redis: add").
Proof.
  split; [reflexivity|]. split; [reflexivity|].
  pose proof (reconciliation_failure_policy Sample.flakyBackend
                Sample.rescheduled
                {| notificationStrategy := Some Sample.seedStrategy |}
                Sample.staleStore eq_refl) as (Hr & _ & Hu).
  exact (conj Hr Hu).
Defined.

End Reconciliation.

(** ** The notification handlers *)

Section Handlers.
Import ScheduleQueue ContentService NotificationWorker Spec.

(** With a goal of zero the progress is not a finite number. *)
Lemma zero_goal_not_finite (c : Campaign) :
  isZero (goalAmount c) = true ->
  Number.isNaN (progressOf c) || Number.isInfinite (progressOf c) = true.
Proof.
  unfold progressOf.
  destruct (goalAmount c) as [sz|sz| |sz mz ez]; try discriminate. intros _.
  destruct (currentAmount c) as [s|s| |s m e]; reflexivity.
Qed.

(** With a goal of zero the progress compares below 25 exactly when it is
    -Infinity: when the amount is neither zero nor NaN and has the other
    sign. *)
Lemma zero_goal_below (c : Campaign) :
  isZero (goalAmount c) = true ->
  Number.ltb (progressOf c) (Number.ofZ 25)
  = opposed (currentAmount c) (goalAmount c).
Proof.
  unfold progressOf.
  destruct (goalAmount c) as [sz|sz| |sz mz ez]; try discriminate. intros _.
  destruct (currentAmount c) as [s|s| |s m e]; try reflexivity;
    destruct s, sz; reflexivity.
Qed.

(** Against a goal of +0 the amounts of the other sign are the negative
    ones. *)
Lemma opposed_plus_zero (x : spec_float) :
  opposed x (Number.ofZ 0) = negative x.
Proof. destruct x as [s|s| |s m e]; try reflexivity; destruct s; reflexivity. Qed.

(** Every warning the loop of [handleLowProgressWarning] sends is about a
    campaign it walked whose progress is below 25. *)
Lemma low_progress_loop (l : list Campaign) (w : World) :
  exists news : list Notification,
    sent (snd (forOf l warnIfLow w)) = (sent w ++ news)%list
    /\ forall n, In n news ->
         exists c, In c l
           /\ notification_data n = ForProgress (_id c) (progressOf c)
           /\ Number.ltb (progressOf c) (Number.ofZ 25) = true.
Proof.
  revert w. induction l as [|c l IH]; intros w.
  - exists []. split; [symmetry; apply app_nil_r | intros n []].
  - cbn [forOf]. unfold bind at 1. unfold warnIfLow at 1. cbv zeta.
    destruct (Number.ltb (progressOf c) (Number.ofZ 25)) eqn:E.
    + unfold mbind, M_bind, bind, ownerId.
      destruct (decide (createdBy c ∈ users w)) as [Hu|Hu].
      * unfold sendNotifications, modify.
        match goal with |- context [forOf l warnIfLow ?w1] =>
          destruct (IH w1) as (news & Hs & Hn) end.
        eexists (_ :: news). split.
        -- rewrite Hs. cbn [sent]. rewrite <- app_assoc. reflexivity.
        -- intros n [<-|Hin].
           ++ exists c. split; [left; reflexivity|]. split; [reflexivity|exact E].
           ++ destruct (Hn n Hin) as (c' & Hc' & Hd & Hl).
              exists c'. split; [right; exact Hc'|]. split; assumption.
      * exists []. split; [symmetry; apply app_nil_r | intros n []].
    + unfold ret at 1. destruct (IH w) as (news & Hs & Hn).
      exists news. split; [exact Hs|].
      intros n Hin. destruct (Hn n Hin) as (c' & Hc' & Hd & Hl).
      exists c'. split; [right; exact Hc'|]. split; assumption.
Qed.

(** C4 (as amended). Neither handler tests the goal. With a goal of
    zero, of either sign, the progress is NaN or an infinity, and it
    compares below 25 exactly when the amount is neither zero nor NaN and
    has the sign that the zero has not (the progress is then -Infinity);
    against a goal of +0 these are the negative amounts. The low-progress
    handler warns only about campaigns whose progress compares below 25,
    so a campaign with a goal of zero gets no low-progress warning unless
    its amount is of that kind. *)
Theorem zero_goal_campaigns :
  (forall c : Campaign,
      isZero (goalAmount c) = true ->
      Number.isNaN (progressOf c) || Number.isInfinite (progressOf c) = true
      /\ Number.ltb (progressOf c) (Number.ofZ 25)
         = opposed (currentAmount c) (goalAmount c))
  /\ (forall c : Campaign,
        goalAmount c = Number.ofZ 0 ->
        opposed (currentAmount c) (goalAmount c) = negative (currentAmount c))
  /\ (forall (clk : Clock) (w : World),
        exists news : list Notification,
          sent (snd (handleLowProgressWarning clk w)) = (sent w ++ news)%list
          /\ forall n, In n news ->
               exists c, In c (campaigns w)
                 /\ notification_data n = ForProgress (_id c) (progressOf c)
                 /\ Number.ltb (progressOf c) (Number.ofZ 25) = true
                 /\ ~ (isZero (goalAmount c) = true
                       /\ opposed (currentAmount c) (goalAmount c) = false)).
Proof.
  split; [|split].
  - intros c Hz. split; [apply zero_goal_not_finite | apply zero_goal_below];
      exact Hz.
  - intros c ->. apply opposed_plus_zero.
  - intros clk w.
    unfold handleLowProgressWarning, mbind, M_bind, bind, Campaign_find.
    destruct (low_progress_loop
                (List.filter (lowProgressQuery clk) (campaigns w)) w)
      as (news & Hs & Hn).
    exists news. split; [exact Hs|].
    intros n Hin. destruct (Hn n Hin) as (c & Hc & Hd & Hl).
    exists c. apply filter_In in Hc as [Hc _].
    split; [exact Hc|]. split; [exact Hd|]. split; [exact Hl|].
    intros [Hg Hopp]. rewrite (zero_goal_below c Hg), Hopp in Hl. discriminate.
Qed.

(** With a goal of -0 and 250 raised the progress is -Infinity, which
    compares below 25: the low-progress handler warns the owner. *)
Lemma minus_zero_goal_warned :
  isZero (goalAmount Sample.minusZeroGoalCampaign) = true
  /\ progressOf Sample.minusZeroGoalCampaign = S754_infinity true
  /\ map notification_data
       (sent (snd (handleLowProgressWarning Sample.atThousand
                     Sample.minusZeroGoalWorld)))
     = [ForProgress "c1" (S754_infinity true)].
Proof. repeat split; vm_compute; reflexivity. Qed.

(** C4 fails as stated: the progress-alert handler does not skip a
    campaign with a goal of zero: with 250 raised the progress is
    +Infinity, and the owner is sent the message with [Infinity] in the
    place of the percentage. *)
Lemma zero_goal_counterexample :
  goalAmount Sample.zeroGoalCampaign = Number.ofZ 0
  /\ progressOf Sample.zeroGoalCampaign = S754_infinity false
  /\ handleProgressAlert Sample.atThousand
        (ProgressAlertData "Raised {progress}% so far" "weekly" None None)
        Sample.zeroGoalWorld
      = (Normal tt,
         {| campaigns := campaigns Sample.zeroGoalWorld;
            users := users Sample.zeroGoalWorld;
            content := content Sample.zeroGoalWorld;
            sent :=
              [{| userId := "u1";
                  type := "PROGRESS_ALERT";
                  notification_title := "Campaign Progress Update";
                  message := "Raised Infinity% so far";
                  notification_data := ForCampaign "c1" |}] |}).
Proof. repeat split; vm_compute; reflexivity. Qed.

Lemma find_nothing {A} (p : A -> bool) (l : list A) :
  (forall x, In x l -> p x = false) -> List.find p l = None.
Proof.
  induction l as [|x l IH]; intros H; [reflexivity|].
  cbn [List.find]. rewrite (H x (or_introl eq_refl)).
  apply IH. intros y Hy. apply H. right. exact Hy.
Qed.

Lemma find_unknown (i : option string) (w : World) :
  unknownCampaign i w -> Campaign_findById i w = (Normal None, w).
Proof.
  unfold unknownCampaign, Campaign_findById. intros H.
  destruct i as [i|]; [|reflexivity].
  rewrite find_nothing; [reflexivity|].
  intros c Hc. apply String.eqb_neq. intros E. apply (H c Hc).
  rewrite E. reflexivity.
Qed.

(** C10. A milestone job whose campaign identifier matches no campaign:
    the handler returns normally and leaves the world as it was (nothing
    is sent), and so does the processor of the worker, so the job
    completes. *)
Theorem milestone_unknown_campaign (clk : Clock) (d : JobData) (w : World) :
  unknownCampaign (data_campaignId d) w ->
  handleMilestoneAlert d w = (Normal tt, w)
  /\ processJob clk {| job_name := "sendMilestoneAlert"; job_data := d |} w
      = (Normal tt, w).
Proof.
  intros H.
  assert (Hh : handleMilestoneAlert d w = (Normal tt, w)).
  { unfold handleMilestoneAlert, mbind, M_bind, bind, Content_findOne.
    rewrite (find_unknown _ w H). reflexivity. }
  split; [exact Hh|].
  unfold processJob, tryCatch. cbn [job_name job_data].
  change (String.eqb "sendMilestoneAlert" "sendProgressAlert") with false.
  change (String.eqb "sendMilestoneAlert" "checkLowProgress") with false.
  change (String.eqb "sendMilestoneAlert" "checkExpiredCampaigns") with false.
  change (String.eqb "sendMilestoneAlert" "sendMilestoneAlert") with true.
  cbv iota. rewrite Hh. reflexivity.
Qed.

Lemma milestone_unknown_campaign_witness :
  unknownCampaign (data_campaignId (MilestoneData "c9" 50)) Sample.zeroGoalWorld
  /\ processJob Sample.atThousand
        {| job_name := "sendMilestoneAlert";
           job_data := MilestoneData "c9" 50 |} Sample.zeroGoalWorld
      = (Normal tt, Sample.zeroGoalWorld).
Proof.
  assert (H : unknownCampaign (data_campaignId (MilestoneData "c9" 50))
                Sample.zeroGoalWorld).
  { intros c [<-|[]]. discriminate. }
  split; [exact H|].
  exact (proj2 (milestone_unknown_campaign Sample.atThousand
                  (MilestoneData "c9" 50) Sample.zeroGoalWorld H)).
Defined.


(** The generic message when there is no Content document, or when the
    template is the empty string. *)
Lemma milestone_message_generic (m : Z) :
  milestoneMessage None (Some m)
  = Normal ("Congratulations! " +:+ toString m +:+ "% achieved!")
  /\ forall ns, mileStoneAlertMessage ns = Some EmptyString ->
       milestoneMessage (Some {| notificationStrategy := Some ns |}) (Some m)
       = Normal ("Congratulations! " +:+ toString m +:+ "% achieved!").
Proof.
  split; [reflexivity|]. intros ns Ht. unfold milestoneMessage.
  cbn [notificationStrategy]. rewrite Ht. reflexivity.
Qed.

(** A Content document without a milestone template: the message is not
    the generic one, reading it throws. *)
Lemma milestone_message_absent (doc : Content) (m : option Z) :
  (notificationStrategy doc = None
   \/ exists ns, notificationStrategy doc = Some ns
                 /\ mileStoneAlertMessage ns = None) ->
  exists text, milestoneMessage (Some doc) m = Throw (TypeError text).
Proof.
  intros [H|(ns & H & Ht)]; unfold milestoneMessage; rewrite H.
  - eexists. reflexivity.
  - rewrite Ht. eexists. reflexivity.
Qed.

(** C9, at the failing input: the Content document has a notification
    strategy without a milestone template, the campaign exists and so does
    its owner. The handler throws and nothing is sent. *)
Theorem milestone_without_template :
  handleMilestoneAlert (MilestoneData "c1" 50) Sample.worldWithoutTemplate
  = (Throw (TypeError "Cannot read properties of undefined (reading 'replace')"),
     Sample.worldWithoutTemplate)
  /\ processJob Sample.atThousand
        {| job_name := "sendMilestoneAlert";
           job_data := MilestoneData "c1" 50 |} Sample.worldWithoutTemplate
      = (Throw (TypeError "Cannot read properties of undefined (reading 'replace')"),
         Sample.worldWithoutTemplate).
Proof. split; vm_compute; reflexivity. Qed.

(** A campaign at 250 of 1000 is at 25 percent, printed [25.0]. *)
Lemma progress_quarter (c : Campaign) :
  currentAmount c = Number.ofZ 250 -> goalAmount c = Number.ofZ 1000 ->
  Number.toFixed1 (progressOf c) = "25.0".
Proof. intros Hc Hg. unfold progressOf. rewrite Hc, Hg. reflexivity. Qed.

(** With the seed's template the same job notifies the owner. *)
Lemma milestone_with_template :
  handleMilestoneAlert (MilestoneData "c1" 50) Sample.zeroGoalWorld
  = (Normal tt,
     {| campaigns := campaigns Sample.zeroGoalWorld;
        users := users Sample.zeroGoalWorld;
        content := content Sample.zeroGoalWorld;
        sent :=
          [{| userId := "u1";
              type := "MILESTONE_ALERT";
              notification_title := "🎉 Milestone Reached!";
              message := "Campaign Milestone Alert";
              notification_data := ForMilestone (Some "c1") (Some 50) |}] |}).
Proof. vm_compute. reflexivity. Qed.

End Handlers.

(** ** The invitation and donation flow *)

Section Invitation.
Import CampaignService InviteSpec.

(** The loop over the invitees: the batch grows by one record per
    invitee; the messages of [smsOutcome] are delivered and its rejection,
    if there is one, is thrown. *)
Lemma inviteLoop_outcome (env : Env) (payload : InvitePayload)
    (campaignId userId : string) (campaign : CampaignDoc) (inviter : User)
    (invitees : list Invitee) (batch : list InvitationHistory) (w : World) :
  inviteLoop env payload campaignId userId campaign inviter invitees batch w
  = (match snd (smsOutcome env campaign invitees) with
     | Some e => Throw e
     | None =>
         Normal (batch ++ map (invitationDto payload campaignId userId inviter)
                            invitees)%list
     end,
     {| db := db w; session := session w;
        sms := (sms w ++ fst (smsOutcome env campaign invitees))%list |}).
Proof.
  revert batch w. induction invitees as [|i rest IH]; intros batch w.
  - cbn. rewrite !app_nil_r. destruct w. reflexivity.
  - cbn [inviteLoop smsOutcome]. unfold mbind, M_bind, bind.
    destruct (truthy (invitationForPhone i)).
    + unfold sendSMS.
      destruct (smsFault env (invitationForPhone i) (invitationText campaign)).
      * cbn. rewrite app_nil_r. destruct w. reflexivity.
      * unfold modify. rewrite IH. cbn [db session sms].
        destruct (smsOutcome env campaign rest) as [delivered stop].
        cbn [fst snd map]. rewrite <- !app_assoc. reflexivity.
    + unfold ret at 1. rewrite IH. cbn [map]. rewrite <- !app_assoc.
      reflexivity.
Qed.

(** When the gateway rejects nothing, every invitee with a phone number
    gets the message. *)
Lemma smsOutcome_calm (env : Env) (campaign : CampaignDoc)
    (invitees : list Invitee) :
  (forall phone text, smsFault env phone text = None) ->
  smsOutcome env campaign invitees = (smsForAll campaign invitees, None).
Proof.
  intros H. unfold smsForAll. induction invitees as [|i rest IH]; [reflexivity|].
  cbn [smsOutcome List.filter]. destruct (truthy (invitationForPhone i)).
  - rewrite H, IH. reflexivity.
  - exact IH.
Qed.

(** The whole function on a request that passes the checks: a rejected
    text message is thrown as it is, before the transaction is opened; a
    rejected call of the transaction aborts it and the generic failure is
    thrown; otherwise the transaction is committed. *)
Lemma invite_outcome (env : Env) (payload : InvitePayload)
    (userId campaignId : string) (w : World) (campaign : CampaignDoc)
    (inviter referrer : User) :
  validRequest payload userId campaignId w campaign inviter referrer ->
  invitePeopleToCampaign env payload userId campaignId w
  = let delivered := fst (smsOutcome env campaign (myInvitees payload)) in
    match snd (smsOutcome env campaign (myInvitees payload)) with
    | Some e =>
        (Throw e,
         {| db := db w; session := session w;
            sms := (sms w ++ delivered)%list |})
    | None =>
        if transactionGoesThrough env payload then
          (Normal (invited payload),
           {| db := committed env payload userId campaignId inviter (db w);
              session := None;
              sms := (sms w ++ delivered)%list |})
        else
          (Throw genericFailure,
           {| db := db w; session := None;
              sms := (sms w ++ delivered)%list |})
    end.
Proof.
  intros (Hne & Hc & Hu & Hp & Hr).
  unfold invitePeopleToCampaign.
  apply String.eqb_neq in Hne. rewrite Hne.
  unfold mbind, M_bind, bind, Campaign_findById, User_findById.
  rewrite Hc, Hu, Hp. cbn [negb]. rewrite Hr.
  rewrite inviteLoop_outcome. cbn [app]. cbv zeta.
  destruct (smsOutcome env campaign (myInvitees payload)) as [delivered [e|]];
    cbn [fst snd]; [reflexivity|].
  unfold startTransaction, modify, tryCatch, InvitationHistory_insertMany,
    Transaction_create, User_updateOne, commitTransaction, abortTransaction,
    inSession, modify, throw, ret, bind.
  unfold transactionGoesThrough, rejects, reached, committed, invited,
    donationOf, genericFailure.
  cbn [forallb db session sms].
  destruct (donates payload);
    destruct (txFault env InsertInvitations);
    destruct (txFault env CreateDonation);
    destruct (txFault env IncrementRaised);
    destruct (txFault env IncrementDonatedInvited);
    destruct (txFault env CommitTransaction); reflexivity.
Qed.

Lemma goes_through_calm (env : Env) (payload : InvitePayload) :
  (forall step, txFault env step = None) ->
  transactionGoesThrough env payload = true.
Proof.
  intros H. unfold transactionGoesThrough. apply forallb_forall.
  intros step _. unfold rejects. rewrite H. rewrite andb_false_r. reflexivity.
Qed.

Lemma stops_at_rejection (env : Env) (payload : InvitePayload) (step : TxStep)
    (e : exn) :
  reached payload step = true -> txFault env step = Some e ->
  transactionGoesThrough env payload = false.
Proof.
  intros Hr He. apply not_true_is_false. intros H.
  unfold transactionGoesThrough in H.
  rewrite forallb_forall in H. specialize (H step).
  unfold rejects in H. rewrite Hr, He in H.
  assert (In step [InsertInvitations; CreateDonation; IncrementRaised;
                   IncrementDonatedInvited; CommitTransaction])
    by (destruct step; simpl; tauto).
  specialize (H H0). discriminate.
Qed.

(** C1. The invitation and donation flow on a request that passes the
    checks, with every text message delivered. With a donation of 50 and
    3 invitees and no call of the transaction rejected, the request
    returns normally, the referring user's totalRaised has grown by 50,
    the inviter's totalDonated by 50 and totalInvited by 3, no other user
    has changed, exactly 3 invitation records and 1 donation record of
    50 with status completed have been added. When a call of the
    transaction is rejected, whichever it is, the caller gets the one
    generic internal error and the database is as it was before the
    request. *)
Theorem invitation_donation_transaction (env : Env) (payload : InvitePayload)
    (userId campaignId : string) (w : World) (campaign : CampaignDoc)
    (inviter referrer : User) :
  validRequest payload userId campaignId w campaign inviter referrer ->
  (forall phone text, smsFault env phone text = None) ->
  let run := invitePeopleToCampaign env payload userId campaignId w in
  (donationAmount payload = Some 50 ->
   length (myInvitees payload) = 3%nat ->
   (forall step, txFault env step = None) ->
   fst run = Normal {| result_message := "People invited successfully";
                       result_donationAmount := Some 50 |}
   /\ users (db (snd run)) !! invitationIrecievedFrom payload
       = Some {| contact := contact referrer;
                 totalRaised := totalRaised referrer + 50;
                 totalDonated := totalDonated referrer;
                 totalInvited := totalInvited referrer |}
   /\ users (db (snd run)) !! userId
       = Some {| contact := contact inviter;
                 totalRaised := totalRaised inviter;
                 totalDonated := totalDonated inviter + 50;
                 totalInvited := totalInvited inviter + 3 |}
   /\ (forall other : string,
          other <> userId -> other <> invitationIrecievedFrom payload ->
          users (db (snd run)) !! other = users (db w) !! other)
   /\ (exists batch : list InvitationHistory,
          length batch = 3%nat
          /\ invitations (db (snd run)) = (invitations (db w) ++ batch)%list)
   /\ (exists donation : Transaction,
          amountPaid donation = 50
          /\ paymentStatus donation = paymentStatusType_COMPLETED
          /\ donorId donation = userId
          /\ transactions (db (snd run))
              = (transactions (db w) ++ [donation])%list)
   /\ session (snd run) = None)
  /\ (forall (step : TxStep) (e : exn),
        reached payload step = true -> txFault env step = Some e ->
        fst run = Throw genericFailure
        /\ db (snd run) = db w
        /\ session (snd run) = None).
Proof.
  intros Hv Hsms run. subst run.
  pose proof Hv as (Hne & Hc & Hu & Hp & Hr).
  rewrite (invite_outcome env payload userId campaignId w campaign inviter
             referrer Hv).
  rewrite (smsOutcome_calm env campaign _ Hsms). cbn [fst snd]. cbv zeta.
  split.
  - intros Ha Hl Htx. rewrite (goes_through_calm env payload Htx).
    cbn [fst snd db session].
    assert (Hd : donates payload = true) by (unfold donates; rewrite Ha; reflexivity).
    unfold invited, committed, donationOf. rewrite Hd, Ha, Hl. cbn [users invitations transactions default].
    split; [reflexivity|]. split.
    { rewrite lookup_alter_ne by (intros E; apply Hne; symmetry; exact E).
      rewrite lookup_alter_eq, Hr. reflexivity. }
    split.
    { rewrite lookup_alter_eq.
      rewrite lookup_alter_ne by exact Hne. rewrite Hu. reflexivity. }
    split.
    { intros other Ho1 Ho2.
      rewrite lookup_alter_ne by (intros E; apply Ho1; symmetry; exact E).
      rewrite lookup_alter_ne by (intros E; apply Ho2; symmetry; exact E).
      reflexivity. }
    split.
    { eexists. split; [|reflexivity]. rewrite length_map. exact Hl. }
    split; [|reflexivity].
    eexists. split; [|split; [|split; [|reflexivity]]]; reflexivity.
  - intros step e Hreach He.
    rewrite (stops_at_rejection env payload step e Hreach He).
    repeat split.
Qed.

Lemma invitation_donation_transaction_witness :
  validRequest InviteSample.threeInvitees "ann" "c1" InviteSample.world
    {| campaign_title := "Shelter" |} InviteSample.ann InviteSample.bob
  /\ (let run := invitePeopleToCampaign InviteSample.calm
                   InviteSample.threeInvitees "ann" "c1" InviteSample.world in
      users (db (snd run)) !! "bob"
        = Some {| contact := None; totalRaised := 150; totalDonated := 0;
                  totalInvited := 0 |}
      /\ users (db (snd run)) !! "ann"
          = Some {| contact := Some "+15550001"; totalRaised := 10;
                    totalDonated := 70; totalInvited := 4 |})
  /\ (let run := invitePeopleToCampaign InviteSample.updateRejected
                   InviteSample.threeInvitees "ann" "c1" InviteSample.world in
      fst run = Throw genericFailure /\ db (snd run) = db InviteSample.world).
Proof.
  assert (Hv : validRequest InviteSample.threeInvitees "ann" "c1"
                 InviteSample.world {| campaign_title := "Shelter" |}
                 InviteSample.ann InviteSample.bob).
  { repeat split; try reflexivity. discriminate. }
  split; [exact Hv|]. split.
  - destruct (proj1 (invitation_donation_transaction InviteSample.calm
                       InviteSample.threeInvitees "ann" "c1" InviteSample.world
                       _ _ _ Hv (fun _ _ => eq_refl))
                eq_refl eq_refl (fun _ => eq_refl))
      as (_ & Hb & Ha & _).
    exact (conj Hb Ha).
  - destruct (proj2 (invitation_donation_transaction InviteSample.updateRejected
                       InviteSample.threeInvitees "ann" "c1" InviteSample.world
                       _ _ _ Hv (fun _ _ => eq_refl))
                IncrementRaised (Rejected "mongodb: write conflict")
                eq_refl eq_refl)
      as (Hf & Hd & _).
    exact (conj Hf Hd).
Defined.

(** C8. A request in which the inviter is the referring user is refused
    with the bad-request error, and the world is as it was: no record is
    written, no counter changed, no text message sent. *)
Theorem self_invitation_rejected (env : Env) (payload : InvitePayload)
    (userId campaignId : string) (w : World) :
  invitationIrecievedFrom payload = userId ->
  invitePeopleToCampaign env payload userId campaignId w
  = (Throw (AppError BAD_REQUEST "You can not invite yourself."), w).
Proof.
  intros H. unfold invitePeopleToCampaign.
  apply String.eqb_eq in H. rewrite H. reflexivity.
Qed.

Lemma self_invitation_rejected_witness :
  invitationIrecievedFrom InviteSample.selfInvitation = "ann"
  /\ invitePeopleToCampaign InviteSample.calm InviteSample.selfInvitation
        "ann" "c1" InviteSample.world
      = (Throw (AppError 400 "You can not invite yourself."),
         InviteSample.world).
Proof.
  split; [reflexivity|].
  exact (self_invitation_rejected InviteSample.calm
           InviteSample.selfInvitation "ann" "c1" InviteSample.world eq_refl).
Defined.

(** The walk stops at the first invitee with a phone number whose message
    the gateway rejects; the invitees before it have got theirs. *)
Lemma smsOutcome_first_rejection (env : Env) (campaign : CampaignDoc)
    (pre post : list Invitee) (x : Invitee) (e : exn) :
  (forall i, In i pre -> truthy (invitationForPhone i) = true ->
             smsFault env (invitationForPhone i) (invitationText campaign) = None) ->
  truthy (invitationForPhone x) = true ->
  smsFault env (invitationForPhone x) (invitationText campaign) = Some e ->
  smsOutcome env campaign (pre ++ x :: post) = (smsForAll campaign pre, Some e).
Proof.
  intros Hpre Hx He. unfold smsForAll.
  induction pre as [|i pre IH]; cbn [app smsOutcome List.filter map].
  - rewrite Hx, He. reflexivity.
  - destruct (truthy (invitationForPhone i)) eqn:Ei.
    + rewrite (Hpre i (or_introl eq_refl) Ei).
      rewrite IH by (intros j Hj; apply Hpre; right; exact Hj). reflexivity.
    + apply IH. intros j Hj. apply Hpre. right. exact Hj.
Qed.

(** C6 (as amended). The text messages are sent before the transaction
    is opened, one awaited call after the other. A message that the
    gateway rejects ends the request: the rejection is thrown to the caller
    as it is, the transaction is not opened and the database is as it was;
    the messages delivered before it stay delivered. When no message is
    rejected, every invitee with a phone number has got one, whether the
    transaction then commits or aborts. *)
Theorem sms_before_transaction (env : Env) (payload : InvitePayload)
    (userId campaignId : string) (w : World) (campaign : CampaignDoc)
    (inviter referrer : User) :
  validRequest payload userId campaignId w campaign inviter referrer ->
  let run := invitePeopleToCampaign env payload userId campaignId w in
  (forall (pre post : list Invitee) (x : Invitee) (e : exn),
      myInvitees payload = (pre ++ x :: post)%list ->
      (forall i, In i pre -> truthy (invitationForPhone i) = true ->
                 smsFault env (invitationForPhone i) (invitationText campaign)
                 = None) ->
      truthy (invitationForPhone x) = true ->
      smsFault env (invitationForPhone x) (invitationText campaign) = Some e ->
      run = (Throw e,
             {| db := db w; session := session w;
                sms := (sms w ++ smsForAll campaign pre)%list |}))
  /\ ((forall phone text, smsFault env phone text = None) ->
      sms (snd run) = (sms w ++ smsForAll campaign (myInvitees payload))%list).
Proof.
  intros Hv run. subst run.
  rewrite (invite_outcome env payload userId campaignId w campaign inviter
             referrer Hv).
  cbv zeta. split.
  - intros pre post x e Hi Hpre Hx He.
    rewrite Hi, (smsOutcome_first_rejection env campaign pre post x e Hpre Hx He).
    reflexivity.
  - intros Hsms. rewrite (smsOutcome_calm env campaign _ Hsms). cbn [fst snd].
    destruct (transactionGoesThrough env payload); reflexivity.
Qed.

Lemma sms_before_transaction_witness :
  validRequest InviteSample.threeInvitees "ann" "c1" InviteSample.world
    {| campaign_title := "Shelter" |} InviteSample.ann InviteSample.bob
  /\ invitePeopleToCampaign InviteSample.gatewayDown
        InviteSample.threeInvitees "ann" "c1" InviteSample.world
      = (Throw (Rejected "sms gateway"),
         {| db := db InviteSample.world;
            session := session InviteSample.world;
            sms := [("+15550101",
                     invitationText {| campaign_title := "Shelter" |})] |}).
Proof.
  assert (Hv : validRequest InviteSample.threeInvitees "ann" "c1"
                 InviteSample.world {| campaign_title := "Shelter" |}
                 InviteSample.ann InviteSample.bob).
  { repeat split; try reflexivity. discriminate. }
  split; [exact Hv|].
  refine (proj1 (sms_before_transaction InviteSample.gatewayDown
                   InviteSample.threeInvitees "ann" "c1" InviteSample.world
                   _ _ _ Hv)
            [{| invitationForPhone := "+15550101";
                invitationForName := Some "Cy" |}]
            [{| invitationForPhone := ""; invitationForName := Some "Di" |}]
            {| invitationForPhone := "+15550102"; invitationForName := None |}
            (Rejected "sms gateway") eq_refl _ eq_refl eq_refl).
  intros i [<-|[]] _. reflexivity.
Defined.

(** C6 fails as stated: with the same database and the same calls of the
    transaction accepted, the rejection of one text message is what the
    caller gets, and the three invitation records and the donation that
    the request writes otherwise are not written. *)
Lemma sms_failure_counterexample :
  txFault InviteSample.gatewayDown = txFault InviteSample.calm
  /\ fst (invitePeopleToCampaign InviteSample.gatewayDown
            InviteSample.threeInvitees "ann" "c1" InviteSample.world)
      = Throw (Rejected "sms gateway")
  /\ db (snd (invitePeopleToCampaign InviteSample.gatewayDown
                InviteSample.threeInvitees "ann" "c1" InviteSample.world))
      = db InviteSample.world
  /\ length (invitations (db (snd (invitePeopleToCampaign InviteSample.calm
                InviteSample.threeInvitees "ann" "c1" InviteSample.world))))
      = 3%nat
  /\ length (transactions (db (snd (invitePeopleToCampaign InviteSample.calm
                InviteSample.threeInvitees "ann" "c1" InviteSample.world))))
      = 1%nat
  /\ invitations (db InviteSample.world) = []
  /\ transactions (db InviteSample.world) = [].
Proof. repeat split; vm_compute; reflexivity. Qed.

End Invitation.

(** ** More on the worker *)

Section Loops.
Context {S A : Type}.

(** A loop over two lists in a row is the two loops in a row. *)
Lemma forOf_app (l1 l2 : list A) (body : A -> M S unit) (s : S) :
  forOf (l1 ++ l2)%list body s
  = bind (forOf l1 body) (fun _ => forOf l2 body) s.
Proof.
  revert s. induction l1 as [|x l1 IH]; intros s; [reflexivity|].
  cbn [app forOf]. unfold bind.
  destruct (body x s) as [[[]|e] s1]; [|reflexivity].
  rewrite IH. reflexivity.
Qed.

(** What every pass keeps, the loop keeps. *)
Lemma forOf_preserves (R : S -> S -> Prop) (l : list A)
    (body : A -> M S unit) :
  (forall s, R s s) ->
  (forall s1 s2 s3, R s1 s2 -> R s2 s3 -> R s1 s3) ->
  (forall x s, In x l -> R s (snd (body x s))) ->
  forall s, R s (snd (forOf l body s)).
Proof.
  intros Hrefl Htrans. induction l as [|x l IH]; intros Hbody s.
  - apply Hrefl.
  - cbn [forOf]. unfold bind.
    pose proof (Hbody x s (or_introl eq_refl)) as Hx.
    destruct (body x s) as [[[]|e] s1]; cbn [snd] in *; [|exact Hx].
    apply (Htrans _ s1); [exact Hx|].
    apply IH. intros y s' Hy. apply Hbody. right. exact Hy.
Qed.

End Loops.

Section Worker.
Import ScheduleQueue ContentService NotificationWorker Spec WorkerSteps.

Lemma handleProgressAlert_loop (clk : Clock) (d : JobData) :
  handleProgressAlert clk d
  = (found ← Campaign_find (progressAlertQuery clk d);
     forOf found (progressAlertStep d)).
Proof. reflexivity. Qed.

Lemma handleExpiredCampaigns_loop (clk : Clock) :
  handleExpiredCampaigns clk
  = (found ← Campaign_find (expiredQuery clk); forOf found expireStep).
Proof. reflexivity. Qed.

Lemma ownerId_found (c : Campaign) (w : World) :
  createdBy c ∈ users w -> ownerId c w = (Normal (createdBy c), w).
Proof.
  intros H. unfold ownerId. destruct (decide (createdBy c ∈ users w)); [reflexivity|].
  contradiction.
Qed.

Lemma ownerId_missing (c : Campaign) (w : World) :
  createdBy c ∉ users w ->
  ownerId c w
  = (Throw (TypeError "Cannot read properties of null (reading '_id')"), w).
Proof.
  intros H. unfold ownerId. destruct (decide (createdBy c ∈ users w)); [|reflexivity].
  contradiction.
Qed.

(** The loop of the progress alert over campaigns whose owners exist. *)
Lemma progress_alert_loop (d : JobData) (m : string) (l : list Campaign)
    (w : World) :
  data_message d = Some m ->
  (forall c, In c l -> createdBy c ∈ users w) ->
  forOf l (progressAlertStep d) w
  = (Normal tt,
     {| campaigns := campaigns w; users := users w; content := content w;
        sent := (sent w ++ map (progressAlertFor m) l)%list |}).
Proof.
  intros Hm. revert w. induction l as [|c l IH]; intros w Ho.
  - cbn. rewrite app_nil_r. destruct w. reflexivity.
  - cbn [forOf]. unfold bind at 1. unfold progressAlertStep at 1.
    unfold mbind, M_bind, bind.
    rewrite (ownerId_found c w (Ho c (or_introl eq_refl))), Hm.
    unfold sendNotifications, modify. rewrite IH.
    + cbn [campaigns users content sent map]. rewrite <- app_assoc. reflexivity.
    + intros c' Hc'. cbn [users]. apply Ho. right. exact Hc'.
Qed.

(** The progress alert notifies the owner of every selected campaign,
    once each and in the order of the collection, and changes nothing
    else; the template's first [{progress}] carries what
    [progress.toFixed(1)] prints: the percentage with one decimal, or, for
    a percentage from 1e21 on, its shortest decimal in exponent
    notation. *)
Theorem progress_alert_notifies_each_owner (clk : Clock) (d : JobData)
    (m : string) (w : World) :
  data_message d = Some m ->
  (forall c, In c (campaigns w) -> progressAlertQuery clk d c = true ->
             createdBy c ∈ users w) ->
  handleProgressAlert clk d w
  = (Normal tt,
     {| campaigns := campaigns w; users := users w; content := content w;
        sent := (sent w
                 ++ map (progressAlertFor m)
                      (List.filter (progressAlertQuery clk d) (campaigns w)))%list |}).
Proof.
  intros Hm Ho. rewrite handleProgressAlert_loop.
  unfold mbind, M_bind, bind, Campaign_find.
  apply (progress_alert_loop d m _ w Hm).
  intros c Hc. apply filter_In in Hc as [Hc Hq]. exact (Ho c Hc Hq).
Qed.

Lemma progress_alert_notifies_each_owner_witness :
  data_message MoreSample.progressData = Some "At {progress}%"
  /\ map message
        (sent (snd (handleProgressAlert MoreSample.clock MoreSample.progressData
                      MoreSample.world)))
      = ["At 10.0%"; "At 40.0%"; "At 0.0%"].
Proof.
  split; [reflexivity|].
  rewrite (progress_alert_notifies_each_owner MoreSample.clock
             MoreSample.progressData "At {progress}%" MoreSample.world eq_refl).
  - reflexivity.
  - intros c Hc _.
    repeat (destruct Hc as [<-|Hc]; [vm_compute; reflexivity|]).
    destruct Hc.
Defined.

(** From 1e21 on the percentage is printed in exponent notation: with
    1e22 raised towards a goal of 1 the message reads [1e+24]. *)
Lemma progress_alert_exponent_notation :
  map message
    (sent (snd (handleProgressAlert MoreSample.clock MoreSample.progressData
                  {| campaigns :=
                       [MoreSample.campaign "e" (10 ^ 22) 1 (15 * MoreSample.day)];
                     users := {["u1"]};
                     content := None;
                     sent := [] |})))
  = ["At 1e+24%"].
Proof. vm_compute. reflexivity. Qed.

(** A selected campaign whose owner no longer exists stops the progress
    alert: the handler throws, the worker rethrows, the owners of the
    campaigns before it have been notified and those after it have not. *)
Theorem progress_alert_stops_at_missing_owner (clk : Clock) (d : JobData)
    (m : string) (w : World) (pre post : list Campaign) (c : Campaign) :
  data_message d = Some m ->
  List.filter (progressAlertQuery clk d) (campaigns w) = (pre ++ c :: post)%list ->
  (forall x, In x pre -> createdBy x ∈ users w) ->
  createdBy c ∉ users w ->
  processJob clk {| job_name := "sendProgressAlert"; job_data := d |} w
  = (Throw (TypeError "Cannot read properties of null (reading '_id')"),
     {| campaigns := campaigns w; users := users w; content := content w;
        sent := (sent w ++ map (progressAlertFor m) pre)%list |}).
Proof.
  intros Hm Hf Hpre Hc. unfold processJob, tryCatch. cbn [job_name job_data].
  change (String.eqb "sendProgressAlert" "sendProgressAlert") with true.
  cbv iota. rewrite handleProgressAlert_loop.
  unfold mbind, M_bind, bind at 1. unfold Campaign_find.
  rewrite Hf, forOf_app. unfold bind at 1.
  rewrite (progress_alert_loop d m pre w Hm Hpre).
  cbn [forOf]. unfold bind at 1. unfold progressAlertStep at 1.
  unfold mbind, M_bind, bind.
  rewrite ownerId_missing by exact Hc. reflexivity.
Qed.

Lemma progress_alert_stops_at_missing_owner_witness :
  (createdBy (MoreSample.campaign "a" 100 1000 (15 * MoreSample.day))
     ∉ users MoreSample.ownerlessWorld)
  /\ processJob MoreSample.clock
        {| job_name := "sendProgressAlert";
           job_data := MoreSample.progressData |} MoreSample.ownerlessWorld
      = (Throw (TypeError "Cannot read properties of null (reading '_id')"),
         MoreSample.ownerlessWorld).
Proof.
  assert (H : createdBy (MoreSample.campaign "a" 100 1000 (15 * MoreSample.day))
                ∉ users MoreSample.ownerlessWorld)
    by (cbn [users MoreSample.ownerlessWorld]; apply not_elem_of_empty).
  split; [exact H|].
  exact (progress_alert_stops_at_missing_owner MoreSample.clock
           MoreSample.progressData "At {progress}%" MoreSample.ownerlessWorld
           []
           [MoreSample.campaign "b" 400 1000 (15 * MoreSample.day);
            MoreSample.campaign "d" 0 1000 (40 * MoreSample.day)]
           (MoreSample.campaign "a" 100 1000 (15 * MoreSample.day))
           eq_refl eq_refl
           (fun x (Hx : In x []) => match Hx with end) H).
Defined.

(** The loop of the low-progress check over campaigns whose owners
    exist. *)
Lemma low_progress_loop_exact (l : list Campaign) (w : World) :
  (forall c, In c l -> Number.ltb (progressOf c) (Number.ofZ 25) = true ->
             createdBy c ∈ users w) ->
  forOf l warnIfLow w
  = (Normal tt,
     {| campaigns := campaigns w; users := users w; content := content w;
        sent := (sent w
                 ++ map lowProgressWarningFor
                      (List.filter
                         (fun c => Number.ltb (progressOf c) (Number.ofZ 25)) l))%list |}).
Proof.
  revert w. induction l as [|c l IH]; intros w Ho.
  - cbn. rewrite app_nil_r. destruct w. reflexivity.
  - cbn [forOf List.filter]. unfold bind at 1. unfold warnIfLow at 1. cbv zeta.
    destruct (Number.ltb (progressOf c) (Number.ofZ 25)) eqn:E.
    + unfold mbind, M_bind, bind.
      rewrite (ownerId_found c w (Ho c (or_introl eq_refl) E)).
      unfold sendNotifications, modify. rewrite IH.
      * cbn [campaigns users content sent map]. rewrite <- app_assoc. reflexivity.
      * intros c' Hc'. cbn [users]. apply Ho. right. exact Hc'.
    + unfold ret at 1. apply IH. intros c' Hc'. apply Ho. right. exact Hc'.
Qed.

(** The low-progress check warns the owner of exactly the active
    campaigns that end within the week and whose progress is below 25,
    once each, and changes nothing else. *)
Theorem low_progress_warns_exactly (clk : Clock) (w : World) :
  (forall c, In c (campaigns w) -> lowProgressQuery clk c = true ->
             Number.ltb (progressOf c) (Number.ofZ 25) = true ->
             createdBy c ∈ users w) ->
  handleLowProgressWarning clk w
  = (Normal tt,
     {| campaigns := campaigns w; users := users w; content := content w;
        sent := (sent w
                 ++ map lowProgressWarningFor
                      (List.filter
                         (fun c => lowProgressQuery clk c
                                   && Number.ltb (progressOf c) (Number.ofZ 25))
                         (campaigns w)))%list |}).
Proof.
  intros Ho. unfold handleLowProgressWarning, mbind, M_bind, bind, Campaign_find.
  rewrite low_progress_loop_exact.
  - rewrite filter_twice. reflexivity.
  - intros c Hc Hl. apply filter_In in Hc as [Hc Hq]. exact (Ho c Hc Hq Hl).
Qed.

Lemma low_progress_warns_exactly_witness :
  map notification_data
    (sent (snd (handleLowProgressWarning MoreSample.clock MoreSample.world)))
  = [ForProgress "a"
       (progressOf (MoreSample.campaign "a" 100 1000 (15 * MoreSample.day)))].
Proof.
  rewrite (low_progress_warns_exactly MoreSample.clock MoreSample.world).
  - reflexivity.
  - intros c Hc _ _.
    repeat (destruct Hc as [<-|Hc]; [vm_compute; reflexivity|]).
    destruct Hc.
Defined.

Lemma setStatus_markExpired (i : string) (ids : list string)
    (cs : list Campaign) :
  markExpired ids
    (map (fun c => if String.eqb (_id c) i then withStatus "expired" c else c) cs)
  = markExpired (i :: ids) cs.
Proof.
  unfold markExpired. rewrite map_map. apply map_ext. intros c.
  cbn [existsb]. destruct (String.eqb (_id c) i); cbn [orb withStatus _id].
  - destruct (existsb (String.eqb (_id c)) ids); reflexivity.
  - reflexivity.
Qed.

(** The loop of the expiry check over campaigns whose owners exist. *)
Lemma expire_loop (l : list Campaign) (w : World) :
  (forall c, In c l -> createdBy c ∈ users w) ->
  forOf l expireStep w
  = (Normal tt,
     {| campaigns := markExpired (map _id l) (campaigns w);
        users := users w; content := content w;
        sent := (sent w ++ map expiredNoticeFor l)%list |}).
Proof.
  revert w. induction l as [|c l IH]; intros w Ho.
  - cbn [forOf map]. unfold markExpired. cbn [existsb].
    rewrite map_id, app_nil_r. destruct w. reflexivity.
  - cbn [forOf]. unfold bind at 1. unfold expireStep at 1.
    unfold mbind, M_bind, bind, Campaign_setStatus, modify.
    rewrite ownerId_found by (cbn [users]; apply Ho; left; reflexivity).
    unfold sendNotifications, modify. rewrite IH.
    + cbn [campaigns users content sent map].
      change (fun c0 : Campaign =>
                if String.eqb (_id c0) (_id c)
                then {| _id := _id c0; title := title c0; status := "expired";
                        endDate := endDate c0;
                        currentAmount := currentAmount c0;
                        goalAmount := goalAmount c0;
                        createdBy := createdBy c0 |}
                else c0)
        with (fun c0 : Campaign =>
                if String.eqb (_id c0) (_id c) then withStatus "expired" c0 else c0).
      rewrite setStatus_markExpired, <- app_assoc. reflexivity.
    + intros c' Hc'. cbn [users]. apply Ho. right. exact Hc'.
Qed.

(** After the selected campaigns have been marked, the query of the
    expiry check selects nothing. *)
Lemma nothing_left_to_expire (clk : Clock) (cs : list Campaign) :
  List.filter (expiredQuery clk)
    (markExpired (map _id (List.filter (expiredQuery clk) cs)) cs) = [].
Proof.
  apply filter_none. intros c' Hc'. unfold markExpired in Hc'.
  apply in_map_iff in Hc' as (c & <- & Hc).
  destruct (existsb (String.eqb (_id c))
              (map _id (List.filter (expiredQuery clk) cs))) eqn:E.
  - reflexivity.
  - destruct (expiredQuery clk c) eqn:Q; [|reflexivity].
    exfalso. apply not_true_iff_false in E. apply E.
    apply existsb_exists. exists (_id c). split; [|apply String.eqb_refl].
    apply in_map. apply filter_In. split; assumption.
Qed.

(** The expiry check marks every active campaign whose end date has
    passed as expired and notifies its owner once; after it no campaign
    is both active and past its end date, and running the check again at
    the same time changes nothing and notifies nobody. *)
Theorem expiry_check_runs_once (clk : Clock) (w : World) :
  (forall c, In c (campaigns w) -> expiredQuery clk c = true ->
             createdBy c ∈ users w) ->
  let w' := snd (handleExpiredCampaigns clk w) in
  fst (handleExpiredCampaigns clk w) = Normal tt
  /\ sent w'
      = (sent w ++ map expiredNoticeFor
                     (List.filter (expiredQuery clk) (campaigns w)))%list
  /\ (forall c, In c (campaigns w') -> expiredQuery clk c = false)
  /\ (forall c, In c (campaigns w) -> expiredQuery clk c = true ->
                In (withStatus "expired" c) (campaigns w'))
  /\ handleExpiredCampaigns clk w' = (Normal tt, w').
Proof.
  intros Ho w'. subst w'.
  assert (H : handleExpiredCampaigns clk w
              = (Normal tt,
                 {| campaigns :=
                      markExpired
                        (map _id (List.filter (expiredQuery clk) (campaigns w)))
                        (campaigns w);
                    users := users w; content := content w;
                    sent := (sent w
                             ++ map expiredNoticeFor
                                  (List.filter (expiredQuery clk) (campaigns w)))%list |})).
  { rewrite handleExpiredCampaigns_loop.
    unfold mbind, M_bind, bind, Campaign_find.
    apply expire_loop.
    intros c Hc. apply filter_In in Hc as [Hc Hq]. exact (Ho c Hc Hq). }
  rewrite H. cbn [fst snd campaigns sent].
  split; [reflexivity|]. split; [reflexivity|]. split.
  { intros c Hc. pose proof (nothing_left_to_expire clk (campaigns w)) as Hn.
    destruct (expiredQuery clk c) eqn:Q; [|reflexivity].
    assert (In c []) as []. rewrite <- Hn. apply filter_In. split; assumption. }
  split.
  { intros c Hc Hq. unfold markExpired. apply in_map_iff. exists c.
    split; [|exact Hc].
    assert (E : existsb (String.eqb (_id c))
                  (map _id (List.filter (expiredQuery clk) (campaigns w))) = true).
    { apply existsb_exists. exists (_id c). split; [|apply String.eqb_refl].
      apply in_map. apply filter_In. split; assumption. }
    rewrite E. reflexivity. }
  rewrite handleExpiredCampaigns_loop.
  unfold mbind, M_bind, bind, Campaign_find. cbn [campaigns].
  rewrite nothing_left_to_expire. reflexivity.
Qed.

Lemma expiry_check_runs_once_witness :
  let w' := snd (handleExpiredCampaigns MoreSample.clock MoreSample.world) in
  map notification_data (sent w') = [ForCampaign "c"]
  /\ map status (campaigns w') = ["active"; "active"; "expired"; "active"]
  /\ handleExpiredCampaigns MoreSample.clock w' = (Normal tt, w').
Proof.
  destruct (expiry_check_runs_once MoreSample.clock MoreSample.world)
    as (_ & Hs & _ & _ & Hi).
  - intros c Hc _.
    repeat (destruct Hc as [<-|Hc]; [vm_compute; reflexivity|]).
    destruct Hc.
  - cbv zeta. split; [rewrite Hs; reflexivity|]. split; [|exact Hi].
    vm_compute. reflexivity.
Defined.

Lemma tryCatch_rethrow {St A} (c : M St A) (s : St) :
  tryCatch c (fun error => throw error) s = c s.
Proof. unfold tryCatch, throw. destruct (c s) as [[a|e] s']; reflexivity. Qed.

Lemma laterWorld_refl (w : World) : laterWorld w w.
Proof.
  repeat split. exists []. symmetry. apply app_nil_r.
Qed.

Lemma laterWorld_trans (w1 w2 w3 : World) :
  laterWorld w1 w2 -> laterWorld w2 w3 -> laterWorld w1 w3.
Proof.
  intros (Hu & Hc & Hi & n1 & Hs) (Hu' & Hc' & Hi' & n2 & Hs').
  split; [congruence|]. split; [congruence|]. split; [congruence|].
  exists (n1 ++ n2)%list. rewrite Hs', Hs, app_assoc. reflexivity.
Qed.

Lemma sameCampaigns_refl (w : World) : sameCampaigns w w.
Proof. split; [reflexivity | apply laterWorld_refl]. Qed.

Lemma sameCampaigns_trans (w1 w2 w3 : World) :
  sameCampaigns w1 w2 -> sameCampaigns w2 w3 -> sameCampaigns w1 w3.
Proof.
  intros [Hc H] [Hc' H']. split; [congruence|].
  exact (laterWorld_trans _ _ _ H H').
Qed.

Lemma sendNotifications_same (n : Notification) (w : World) :
  sameCampaigns w (snd (sendNotifications n w)).
Proof.
  unfold sendNotifications, modify. cbn [snd].
  repeat split. exists [n]. reflexivity.
Qed.

Lemma progressAlertStep_same (d : JobData) (c : Campaign) (w : World) :
  sameCampaigns w (snd (progressAlertStep d c w)).
Proof.
  unfold progressAlertStep, mbind, M_bind, bind, ownerId.
  destruct (decide (createdBy c ∈ users w)); [|apply sameCampaigns_refl].
  destruct (data_message d); [apply sendNotifications_same|].
  apply sameCampaigns_refl.
Qed.

Lemma warnIfLow_same (c : Campaign) (w : World) :
  sameCampaigns w (snd (warnIfLow c w)).
Proof.
  unfold warnIfLow. cbv zeta.
  destruct (Number.ltb (progressOf c) (Number.ofZ 25));
    [|apply sameCampaigns_refl].
  unfold mbind, M_bind, bind, ownerId.
  destruct (decide (createdBy c ∈ users w)); [|apply sameCampaigns_refl].
  apply sendNotifications_same.
Qed.

Lemma expireStep_later (c : Campaign) (w : World) :
  laterWorld w (snd (expireStep c w)).
Proof.
  unfold expireStep, mbind, M_bind, bind, Campaign_setStatus, modify, ownerId.
  cbn [users].
  assert (Hids : forall cs : list Campaign,
             map _id (map (fun c0 : Campaign =>
                             if String.eqb (_id c0) (_id c)
                             then {| _id := _id c0; title := title c0;
                                     status := "expired"; endDate := endDate c0;
                                     currentAmount := currentAmount c0;
                                     goalAmount := goalAmount c0;
                                     createdBy := createdBy c0 |}
                             else c0) cs) = map _id cs).
  { intros cs. rewrite map_map. apply map_ext. intros c0.
    destruct (String.eqb (_id c0) (_id c)); reflexivity. }
  destruct (decide (createdBy c ∈ users w)); cbn [snd].
  - unfold sendNotifications, modify. cbn [snd].
    split; [reflexivity|]. split; [reflexivity|]. split; [apply Hids|].
    eexists. reflexivity.
  - split; [reflexivity|]. split; [reflexivity|]. split; [apply Hids|].
    exists []. symmetry. apply app_nil_r.
Qed.

Lemma handleMilestoneAlert_same (d : JobData) (w : World) :
  sameCampaigns w (snd (handleMilestoneAlert d w)).
Proof.
  unfold handleMilestoneAlert, mbind, M_bind, bind, Content_findOne,
    Campaign_findById, ownerId. cbv zeta.
  destruct (match data_campaignId d with
            | Some i' => List.find (fun c => String.eqb (_id c) i') (campaigns w)
            | None => None
            end) as [c|]; [|apply sameCampaigns_refl].
  destruct (decide (createdBy c ∈ users w)); [|apply sameCampaigns_refl].
  destruct (milestoneMessage (content w) (data_milestone d));
    [apply sendNotifications_same | apply sameCampaigns_refl].
Qed.

(** Whatever the job and however it ends, the worker leaves the users
    and the Content document as they were, adds and deletes no campaign,
    and keeps the notifications already sent; only the expiry check
    changes a campaign. *)
Theorem worker_frame (clk : Clock) (job : Job) (w : World) :
  laterWorld w (snd (processJob clk job w))
  /\ (job_name job <> "checkExpiredCampaigns" ->
      campaigns (snd (processJob clk job w)) = campaigns w).
Proof.
  unfold processJob. rewrite tryCatch_rethrow.
  destruct (String.eqb (job_name job) "sendProgressAlert").
  { assert (H : sameCampaigns w
                  (snd (handleProgressAlert clk (job_data job) w))).
    { rewrite handleProgressAlert_loop. unfold mbind, M_bind, bind, Campaign_find.
      apply (forOf_preserves sameCampaigns);
        [exact sameCampaigns_refl | exact sameCampaigns_trans|].
      intros c s _. apply progressAlertStep_same. }
    destruct H as [Hc Hl]. split; [exact Hl | intros _; exact Hc]. }
  destruct (String.eqb (job_name job) "checkLowProgress").
  { assert (H : sameCampaigns w (snd (handleLowProgressWarning clk w))).
    { unfold handleLowProgressWarning, mbind, M_bind, bind, Campaign_find.
      apply (forOf_preserves sameCampaigns);
        [exact sameCampaigns_refl | exact sameCampaigns_trans|].
      intros c s _. apply warnIfLow_same. }
    destruct H as [Hc Hl]. split; [exact Hl | intros _; exact Hc]. }
  destruct (String.eqb (job_name job) "checkExpiredCampaigns") eqn:E.
  { split.
    - rewrite handleExpiredCampaigns_loop.
      unfold mbind, M_bind, bind, Campaign_find.
      apply (forOf_preserves laterWorld);
        [exact laterWorld_refl | exact laterWorld_trans|].
      intros c s _. apply expireStep_later.
    - intros Hn. apply String.eqb_eq in E. contradiction. }
  destruct (String.eqb (job_name job) "sendMilestoneAlert").
  { destruct (handleMilestoneAlert_same (job_data job) w) as [Hc Hl].
    split; [exact Hl | intros _; exact Hc]. }
  split; [apply laterWorld_refl | reflexivity].
Qed.

(** A job with a name the worker does not know is dropped: the processor
    returns normally and the world is as it was. *)
Theorem unknown_job_dropped (clk : Clock) (job : Job) (w : World) :
  ~ In (job_name job)
      ["sendProgressAlert"; "checkLowProgress"; "checkExpiredCampaigns";
       "sendMilestoneAlert"] ->
  processJob clk job w = (Normal tt, w).
Proof.
  intros H. unfold processJob. rewrite tryCatch_rethrow.
  assert (Hn : forall n,
             In n ["sendProgressAlert"; "checkLowProgress";
                   "checkExpiredCampaigns"; "sendMilestoneAlert"] ->
             String.eqb (job_name job) n = false).
  { intros n Hin. apply String.eqb_neq. intros E. apply H. rewrite E. exact Hin. }
  rewrite !Hn by (simpl; tauto). reflexivity.
Qed.

Lemma unknown_job_dropped_witness :
  processJob MoreSample.clock
    {| job_name := "sendWeeklyDigest"; job_data := NoData |} MoreSample.world
  = (Normal tt, MoreSample.world).
Proof.
  apply (unknown_job_dropped MoreSample.clock
           {| job_name := "sendWeeklyDigest"; job_data := NoData |}
           MoreSample.world).
  cbn [job_name In].
  intros [H|[H|[H|[H|[]]]]]; discriminate H.
Defined.




End Worker.

(** ** More on the content service *)

Section ContentProperties.
Import ScheduleQueue ContentService Spec ContentMore.

Lemma cleanedFrom_refl (q : Queue) : cleanedFrom q q.
Proof. repeat split; auto. Qed.

Lemma cleanedFrom_trans (q1 q2 q3 : Queue) :
  cleanedFrom q1 q2 -> cleanedFrom q2 q3 -> cleanedFrom q1 q3.
Proof.
  intros (Hw & Hs & Hk) (Hw' & Hs' & Hk').
  split; [congruence|]. split.
  - intros j Hj. apply Hs, Hs', Hj.
  - intros j Hj Hr. apply Hk'; [apply Hk; assumption | exact Hr].
Qed.

Lemma remove_step_cleans (f : Faults) (job : RepeatableJob) (q : Queue) :
  cleanedFrom q
    (snd ((if shouldRemove job then removeRepeatableByKey f (key job)
           else ret tt) q)).
Proof.
  destruct (shouldRemove job) eqn:E; [|apply cleanedFrom_refl].
  unfold removeRepeatableByKey.
  destruct (f (OpRemoveRepeatableByKey (key job))); [apply cleanedFrom_refl|].
  unfold modify, unregister. cbn [snd repeatable waiting].
  split; [reflexivity|]. split.
  - intros j Hj. apply filter_In in Hj as [Hj _]. exact Hj.
  - intros j Hj Hr. apply filter_In. split; [exact Hj|].
    apply negb_true_iff, String.eqb_neq. intros Hk.
    rewrite (shouldRemove_key j job Hk) in Hr. congruence.
Qed.

(** Whatever the backend rejects, removing the old recurring jobs adds
    no registration, leaves the one-shot jobs alone, and never removes a
    registration whose key contains none of the three fixed identities. *)
Theorem removal_touches_only_its_own (f : Faults) (q : Queue) :
  let q' := snd (removeExistingNotificationJobs f q) in
  waiting q' = waiting q
  /\ (forall j, In j (repeatable q') -> In j (repeatable q))
  /\ (forall j, In j (repeatable q) ->
                (forall i, In i jobIds -> includes i (key j) = false) ->
                In j (repeatable q')).
Proof.
  cbv zeta.
  assert (H : cleanedFrom q (snd (removeExistingNotificationJobs f q))).
  { unfold removeExistingNotificationJobs, tryCatch, mbind, M_bind, bind,
      getRepeatableJobs.
    destruct (f OpGetRepeatableJobs); [apply cleanedFrom_refl|].
    pose proof (forOf_preserves cleanedFrom (repeatable q)
                  (fun job => if shouldRemove job
                              then removeRepeatableByKey f (key job)
                              else ret tt)
                  cleanedFrom_refl cleanedFrom_trans
                  (fun x s _ => remove_step_cleans f x s) q) as Hl.
    destruct (forOf (repeatable q) _ q) as [[[]|e] q1]; exact Hl. }
  destruct H as (Hw & Hs & Hk). split; [exact Hw|]. split; [exact Hs|].
  intros j Hj Hi. apply Hk; [exact Hj|].
  unfold shouldRemove. apply not_true_is_false. intros E.
  apply existsb_exists in E as (i & Hin & Hinc).
  rewrite (Hi i Hin) in Hinc. discriminate.
Qed.

(** The create path of [upsertContent]: the document is created, then
    the jobs of its strategy are set up; nothing is removed. *)
Lemma upsert_create (f : Faults) (ns : NotificationStrategy) (s : Store) :
  content s = None ->
  upsertContent f {| payload_notificationStrategy := Some ns |} s
  = (match fst (setupNotificationJobs f ns (queue s)) with
     | Normal _ => Normal (Some {| notificationStrategy := Some ns |}, true)
     | Throw e => Throw e
     end,
     {| content := Some {| notificationStrategy := Some ns |};
        queue := snd (setupNotificationJobs f ns (queue s)) |}).
Proof.
  intros Hc. unfold upsertContent. rewrite tryCatch_rethrow.
  unfold mbind, M_bind, bind, Content_findOne, Content_create, onQueue.
  rewrite Hc. cbn -[setupNotificationJobs].
  destruct (setupNotificationJobs f ns (queue s)) as [[[]|e] q2]; reflexivity.
Qed.

(** Both paths for a payload without a notification strategy. *)
Lemma upsert_plain (f : Faults) (s : Store) :
  upsertContent f {| payload_notificationStrategy := None |} s
  = (Normal (Some {| notificationStrategy := content s ≫= notificationStrategy |},
             bool_decide (content s = None)),
     {| content :=
          Some {| notificationStrategy := content s ≫= notificationStrategy |};
        queue := queue s |}).
Proof.
  unfold upsertContent. rewrite tryCatch_rethrow.
  unfold mbind at 1 2 3, M_bind, bind, Content_findOne, Content_findByIdAndUpdate,
    Content_create, ret.
  destruct (content s) as [old|] eqn:Hc; cbn; rewrite ?Hc; reflexivity.
Qed.

(** After any call of [upsertContent], however it ends, the Content
    document exists and [getContent] returns it: with the payload's
    notification strategy if it has one, and otherwise with the strategy
    the document had. A call that returns normally returns that document,
    and says it is new exactly when there was none before. *)
Theorem upsert_then_get (f : Faults) (payload : ContentPayload) (s : Store) :
  let r := upsertContent f payload s in
  exists doc : Content,
    getContent (snd r) = (Normal doc, snd r)
    /\ notificationStrategy doc
        = match payload_notificationStrategy payload with
          | Some ns => Some ns
          | None => content s ≫= notificationStrategy
          end
    /\ (forall d isNew, fst r = Normal (d, isNew) ->
          d = Some doc /\ (isNew = true <-> content s = None)).
Proof.
  cbv zeta. destruct payload as [[ns|]].
  - exists {| notificationStrategy := Some ns |}.
    destruct (content s) as [old|] eqn:Hc.
    + rewrite (upsert_update f ns old s Hc). cbn [fst snd].
      split; [reflexivity|]. split; [reflexivity|].
      intros d isNew H.
      destruct (fst (setupNotificationJobs f ns _)); inversion H; subst.
      split; [reflexivity|]. split; discriminate.
    + rewrite (upsert_create f ns s Hc). cbn [fst snd].
      split; [reflexivity|]. split; [reflexivity|].
      intros d isNew H.
      destruct (fst (setupNotificationJobs f ns _)); inversion H; subst.
      split; [reflexivity|]. split; reflexivity.
  - rewrite upsert_plain. cbn [fst snd payload_notificationStrategy].
    eexists. split; [reflexivity|]. split; [reflexivity|].
    intros d isNew H. inversion H; subst. split; [reflexivity|].
    destruct (content s); split; intros E; try reflexivity; discriminate E.
Qed.

(** An upsert whose payload carries no notification strategy does not
    touch the schedule store, on either path, and cannot fail on it. *)
Theorem upsert_without_strategy (f : Faults) (payload : ContentPayload)
    (s : Store) :
  payload_notificationStrategy payload = None ->
  queue (snd (upsertContent f payload s)) = queue s
  /\ exists d isNew, fst (upsertContent f payload s) = Normal (d, isNew).
Proof.
  intros Hp. destruct payload as [p]. cbn in Hp. subst p.
  rewrite upsert_plain. cbn [fst snd queue]. split; eauto.
Qed.

Lemma upsert_without_strategy_witness :
  queue (snd (upsertContent Sample.flakyBackend
                {| payload_notificationStrategy := None |} Sample.staleStore))
  = Sample.staleQueue.
Proof.
  exact (proj1 (upsert_without_strategy Sample.flakyBackend
                  {| payload_notificationStrategy := None |}
                  Sample.staleStore eq_refl)).
Defined.

Lemma append_cancel (a x y : string) : a +:+ x = a +:+ y -> x = y.
Proof.
  induction a as [|c a IH]; cbn; intros H; [exact H|].
  injection H as H. exact (IH H).
Qed.

Lemma register_keeps (j x : RepeatableJob) (rs : list RepeatableJob) :
  In j rs -> id j <> id x -> In j (register x rs).
Proof.
  intros Hj Hk. unfold register. destruct (registered (id x) rs).
  - apply in_map_iff. exists j. split; [|exact Hj].
    apply String.eqb_neq in Hk. rewrite Hk. reflexivity.
  - apply in_or_app. left. exact Hj.
Qed.

(** Whatever the backend rejects, the registration step leaves a
    registration whose identity is none of those it registers under. *)
Lemma setup_keeps (f : Faults) (ns : NotificationStrategy) (q : Queue)
    (j : RepeatableJob) :
  In j (repeatable q) ->
  (forall x, In x (jobsFor ns) -> id x <> id j) ->
  In j (repeatable (snd (setupNotificationJobs f ns q))).
Proof.
  intros Hj Hk. unfold jobsFor in Hk.
  unfold setupNotificationJobs. rewrite tryCatch_rethrow.
  unfold mbind, M_bind, bind, addProgressAlertJob, addLowProgressWarningJob,
    addCampaignExpiredAlertJob, add, modify, throw, ret.
  destruct (progressAlert ns), (lowProgressWarning ns),
    (campaignExpiredAlert ns);
    destruct (f (OpAdd "sendProgressAlert")), (f (OpAdd "checkLowProgress")),
      (f (OpAdd "checkExpiredCampaigns"));
    cbn [fst snd repeatable];
    repeat (apply register_keeps;
            [|intros E; refine (Hk _ _ (eq_sym E)); cbn; tauto]);
    exact Hj.
Qed.

(** When the listing of the recurring jobs is rejected, the removal step
    removes nothing. *)
Lemma removal_listing_rejected (f : Faults) (q : Queue) (e : exn) :
  f OpGetRepeatableJobs = Some e ->
  removeExistingNotificationJobs f q = (Normal tt, q).
Proof.
  intros H. unfold removeExistingNotificationJobs, tryCatch, mbind, M_bind,
    bind, getRepeatableJobs. rewrite H. reflexivity.
Qed.

(** The first upsert (there is no Content document yet) removes nothing,
    and neither does an update during which the backend rejects the
    listing of the recurring jobs: whatever else is rejected, a
    registration that the store holds under an identity that the new
    strategy does not register under, such as the job of a feature that
    is now switched off, is still there afterwards. An update on which
    nothing is rejected does remove it when its identity is one of the
    three. *)
Theorem switched_off_job_stays (f : Faults) (ns : NotificationStrategy)
    (s : Store) (j : RepeatableJob) :
  In j (repeatable (queue s)) ->
  (forall x, In x (jobsFor ns) -> id x <> id j) ->
  let q' :=
    queue (snd (upsertContent f {| payload_notificationStrategy := Some ns |} s)) in
  (content s = None \/ (exists e, f OpGetRepeatableJobs = Some e) ->
   In j (repeatable q'))
  /\ (is_Some (content s) -> (forall op, f op = None) -> In (id j) jobIds ->
      ~ In j (repeatable q')).
Proof.
  intros Hj Hk q'. subst q'. split.
  - intros Hpath. destruct (content s) as [old|] eqn:Hc.
    + destruct Hpath as [Hn|[e He]]; [discriminate Hn|].
      rewrite (upsert_update f ns old s Hc).
      rewrite (removal_listing_rejected f (queue s) e He). cbn [fst snd queue].
      apply setup_keeps; assumption.
    + rewrite (upsert_create f ns s Hc). cbn [fst snd queue].
      apply setup_keeps; assumption.
  - intros [old Hc] Hf Hid Hin.
    rewrite (reconcile_once f ns old s Hc Hf) in Hin.
    cbn [snd queue repeatable] in Hin.
    apply in_app_or in Hin as [Hin|Hin].
    + apply filter_In in Hin as [_ Hin].
      rewrite (shouldRemove_of_id j Hid) in Hin. discriminate Hin.
    + apply (Hk j Hin). reflexivity.
Qed.

Lemma switched_off_job_stays_witness :
  In MoreSample.staleExpiryJob (repeatable (queue Sample.staleStore))
  /\ (forall x, In x (jobsFor Sample.rescheduled) ->
                id x <> id MoreSample.staleExpiryJob)
  /\ In MoreSample.staleExpiryJob
       (repeatable
          (queue (snd (upsertContent MoreSample.listingDown
                         {| payload_notificationStrategy :=
                              Some Sample.rescheduled |}
                         Sample.staleStore)))).
Proof.
  assert (Hj : In MoreSample.staleExpiryJob
                 (repeatable (queue Sample.staleStore)))
    by (cbn; tauto).
  assert (Hk : forall x, In x (jobsFor Sample.rescheduled) ->
                         id x <> id MoreSample.staleExpiryJob).
  { intros x Hx. cbn in Hx.
    repeat (destruct Hx as [<-|Hx]; [discriminate|]). destruct Hx. }
  split; [exact Hj|]. split; [exact Hk|].
  refine (proj1 (switched_off_job_stays MoreSample.listingDown
                   Sample.rescheduled Sample.staleStore
                   MoreSample.staleExpiryJob Hj Hk) _).
  right. eexists. reflexivity.
Defined.

(** Seeding is done once: an existing Content document is returned as it
    is and nothing is written; without one the default document is saved
    and returned, and seeding again returns it unchanged. Seeding sets up
    no job, and after it [getContent] finds the document. *)
Theorem seeding_is_done_once (s : Store) :
  let r := seedContentSettings s in
  (forall old, content s = Some old -> r = (Normal old, s))
  /\ (content s = None ->
      r = (Normal {| notificationStrategy := Some Sample.seedStrategy |},
           {| content := Some {| notificationStrategy := Some Sample.seedStrategy |};
              queue := queue s |}))
  /\ queue (snd r) = queue s
  /\ seedContentSettings (snd r) = r
  /\ (exists doc, fst r = Normal doc /\ getContent (snd r) = (Normal doc, snd r)).
Proof.
  cbv zeta. unfold seedContentSettings. rewrite !tryCatch_rethrow.
  unfold getContent, mbind, M_bind, bind, Content_findOne, Content_create, ret.
  destruct (content s) as [old|] eqn:Hc; cbn [fst snd content queue].
  - rewrite Hc. split; [intros ? [= <-]; reflexivity|].
    split; [discriminate|]. split; [reflexivity|]. split; [reflexivity|].
    eexists. split; reflexivity.
  - split; [discriminate|]. split; [reflexivity|]. split; [reflexivity|].
    split; [reflexivity|]. eexists. split; reflexivity.
Qed.

(** [getContent] fails with not-found exactly when no Content document
    has been stored, and then changes nothing. *)
Theorem get_content_not_found (s : Store) :
  (content s = None <->
   getContent s = (Throw (AppError NOT_FOUND "Content not found"), s))
  /\ (forall doc, content s = Some doc -> getContent s = (Normal doc, s)).
Proof.
  unfold getContent, mbind, M_bind, bind, Content_findOne.
  destruct (content s) as [doc|]; split.
  - split; discriminate.
  - intros ? [= <-]. reflexivity.
  - split; reflexivity.
  - discriminate.
Qed.

Lemma growthFrom_row (a : spec_float) (rows : list MonthRow) (k : nat)
    (row : GrowthRow) :
  growthFrom a rows !! k = Some row ->
  exists item : MonthRow,
    rows !! k = Some item
    /\ growth_month row = month item
    /\ monthlyAmount row = totalAmount item
    /\ growth_transactionCount row = transactionCount item
    /\ growth_totalAmount row
       = fold_left (fun acc r => Number.add acc (totalAmount r))
           (take (S k) rows) a.
Proof.
  revert a k row. induction rows as [|item rows IH]; intros a k row H.
  - destruct k; discriminate H.
  - destruct k as [|k]; cbn in H.
    + injection H as <-. exists item. cbn. rewrite ?take_0. repeat split.
    + destruct (IH _ _ _ H) as (item' & Hi & Hm & Ha & Hc & Ht).
      exists item'. split; [exact Hi|]. split; [exact Hm|]. split; [exact Ha|].
      split; [exact Hc|]. rewrite Ht. reflexivity.
Qed.

Lemma growthFrom_length (a : spec_float) (rows : list MonthRow) :
  length (growthFrom a rows) = length rows.
Proof.
  revert a. induction rows as [|item rows IH]; intros a; [reflexivity|].
  cbn. rewrite IH. reflexivity.
Qed.

Lemma amountOver_snoc (rows : list MonthRow) (item : MonthRow) :
  amountOver (rows ++ [item])
  = Number.add (amountOver rows) (totalAmount item).
Proof. unfold amountOver. rewrite fold_left_app. reflexivity. Qed.

(** The growth data has one row per month of the aggregation, in the
    same order, with the month, its amount and its count carried over.
    The totals are JavaScript numbers: the total of a row is what adding
    the amounts from the first month up to and including that one gives,
    from 0, in that order and with the rounding of each addition; so the
    total of the first row is 0 plus its amount, the total of every later
    row is the total of the row before plus its amount, and the total of
    the last row is the amounts of all the months added up in that
    way. *)
Theorem growth_totals_accumulate (rows : list MonthRow) :
  length (growthData rows) = length rows
  /\ (forall (k : nat) (row : GrowthRow),
        growthData rows !! k = Some row ->
        exists item : MonthRow,
          rows !! k = Some item
          /\ growth_month row = month item
          /\ monthlyAmount row = totalAmount item
          /\ growth_transactionCount row = transactionCount item
          /\ growth_totalAmount row = amountOver (take (S k) rows)
          /\ growth_totalAmount row
             = Number.add (amountOver (take k rows)) (totalAmount item))
  /\ (forall row : GrowthRow,
        last (growthData rows) = Some row ->
        growth_totalAmount row = amountOver rows).
Proof.
  unfold growthData. split; [apply growthFrom_length|].
  assert (H : forall (k : nat) (row : GrowthRow),
             growthFrom (Number.ofZ 0) rows !! k = Some row ->
             exists item : MonthRow,
               rows !! k = Some item
               /\ growth_month row = month item
               /\ monthlyAmount row = totalAmount item
               /\ growth_transactionCount row = transactionCount item
               /\ growth_totalAmount row = amountOver (take (S k) rows)
               /\ growth_totalAmount row
                  = Number.add (amountOver (take k rows)) (totalAmount item)).
  { intros k row Hk.
    destruct (growthFrom_row _ rows k row Hk) as (item & Hi & Hm & Ha & Hc & Ht).
    exists item. split; [exact Hi|]. split; [exact Hm|]. split; [exact Ha|].
    split; [exact Hc|]. split; [exact Ht|]. rewrite Ht.
    fold (amountOver (take (S k) rows)).
    rewrite (take_S_r rows k item Hi). apply amountOver_snoc. }
  split; [exact H|].
  intros row Hl. rewrite last_lookup in Hl.
  destruct (H _ _ Hl) as (_ & _ & _ & _ & _ & Ht & _).
  rewrite Ht, growthFrom_length. f_equal.
  apply take_ge. lia.
Qed.

(** The totals are not exact sums: from 2^53 on, adding 1 changes
    nothing, so two months of 1 after a month of 2^53 leave the total at
    2^53. *)
Lemma growth_total_rounds :
  map growth_totalAmount
    (growthData
       [{| month := "2024-01"; totalAmount := Number.ofZ (2 ^ 53);
           transactionCount := 1 |};
        {| month := "2024-02"; totalAmount := Number.ofZ 1;
           transactionCount := 1 |};
        {| month := "2024-03"; totalAmount := Number.ofZ 1;
           transactionCount := 1 |}])
  = [Number.ofZ (2 ^ 53); Number.ofZ (2 ^ 53); Number.ofZ (2 ^ 53)].
Proof. vm_compute. reflexivity. Qed.

(** Distinct weekdays have distinct numbers. *)
Lemma getDayNumber_injective (d1 d2 : progressAlertDayEnum) :
  getDayNumber (Some d1) = getDayNumber (Some d2) -> d1 = d2.
Proof. destruct d1, d2; intros H; try reflexivity; discriminate H. Qed.

(** The day of a schedule decides the cron expression of a weekly
    schedule and plays no part in any other: two weekly schedules at the
    same time on different days have different expressions, and two
    schedules of another frequency that differ in the day only have the
    same one. *)
Theorem day_matters_only_weekly (fr : string) (t : option string)
    (d1 d2 : option progressAlertDayEnum) :
  (fr = progressAlertFrequeincyEnum_weekly ->
   forall a b, d1 = Some a -> d2 = Some b -> a <> b ->
   cronExpression {| frequency := fr; day := d1; time := t |}
   <> cronExpression {| frequency := fr; day := d2; time := t |})
  /\ (fr <> progressAlertFrequeincyEnum_weekly ->
      cronExpression {| frequency := fr; day := d1; time := t |}
      = cronExpression {| frequency := fr; day := d2; time := t |}).
Proof.
  split.
  - intros -> a b -> -> Hab E. apply Hab.
    unfold cronExpression in E. cbn [frequency day time] in E.
    destruct (hourMinute t) as [hour minute].
    rewrite String.eqb_refl in E.
    apply append_cancel, (append_cancel " "), append_cancel,
      (append_cancel " * * ") in E.
    destruct a, b; try reflexivity; discriminate E.
  - intros Hf. apply String.eqb_neq in Hf.
    unfold cronExpression. cbn [frequency day time]. rewrite Hf.
    reflexivity.
Qed.

Lemma settled_register (x : RepeatableJob) (rs : list RepeatableJob) :
  settled x (register x rs).
Proof.
  unfold settled, register, registered.
  destruct (existsb (fun r => String.eqb (id r) (id x)) rs) eqn:E.
  - split.
    + apply existsb_exists in E as (r & Hr & Hk).
      apply existsb_exists. exists x. split; [|apply String.eqb_refl].
      apply in_map_iff. exists r. rewrite Hk. split; [reflexivity|exact Hr].
    + intros r Hr Hk. apply in_map_iff in Hr as (r0 & <- & Hr0).
      destruct (String.eqb (id r0) (id x)) eqn:E0; [reflexivity|].
      apply String.eqb_neq in E0. contradiction.
  - split.
    + rewrite existsb_app. cbn. rewrite String.eqb_refl. apply orb_true_r.
    + intros r Hr Hk. apply in_app_or in Hr as [Hr|[<-|[]]]; [|reflexivity].
      exfalso. apply not_true_iff_false in E. apply E.
      apply existsb_exists. exists r. split; [exact Hr|].
      apply String.eqb_eq. exact Hk.
Qed.

Lemma settled_register_other (x y : RepeatableJob) (rs : list RepeatableJob) :
  settled x rs -> id y <> id x -> settled x (register y rs).
Proof.
  intros [Hl Hu] Hk. split.
  - apply existsb_exists in Hl as (r & Hr & Hkr). apply String.eqb_eq in Hkr.
    apply existsb_exists. exists r. split; [|apply String.eqb_eq; exact Hkr].
    apply register_keeps; [exact Hr|]. rewrite Hkr. congruence.
  - intros r Hr Hkr. unfold register in Hr. destruct (registered (id y) rs).
    + apply in_map_iff in Hr as (r0 & Hr0 & Hin).
      destruct (String.eqb (id r0) (id y)) eqn:E.
      * subst r. contradiction.
      * subst r0. apply Hu; assumption.
    + apply in_app_or in Hr as [Hr|[<-|[]]]; [apply Hu; assumption|].
      contradiction.
Qed.

Lemma register_settled (x : RepeatableJob) (rs : list RepeatableJob) :
  settled x rs -> register x rs = rs.
Proof.
  intros [Hl Hu]. unfold register. rewrite Hl.
  rewrite <- (map_id rs) at 2. apply map_ext_in. intros r Hr.
  destruct (String.eqb (id r) (id x)) eqn:E; [|reflexivity].
  symmetry. apply Hu; [exact Hr|]. apply String.eqb_eq. exact E.
Qed.

Lemma registering_settled (xs rs : list RepeatableJob) :
  (forall x, In x xs -> settled x rs) ->
  fold_left (fun acc x => register x acc) xs rs = rs.
Proof.
  induction xs as [|x xs IH]; intros H; [reflexivity|].
  cbn [fold_left]. rewrite (register_settled x rs) by (apply H; left; reflexivity).
  apply IH. intros y Hy. apply H. right. exact Hy.
Qed.

Lemma settled_registering (x : RepeatableJob) (ys rs : list RepeatableJob) :
  settled x rs -> (forall y, In y ys -> id y <> id x) ->
  settled x (fold_left (fun acc y => register y acc) ys rs).
Proof.
  revert rs. induction ys as [|y ys IH]; intros rs Hs Hk; [exact Hs|].
  cbn [fold_left]. apply IH.
  - apply settled_register_other; [exact Hs | apply Hk; left; reflexivity].
  - intros z Hz. apply Hk. right. exact Hz.
Qed.

Lemma all_settled (xs rs : list RepeatableJob) :
  List.NoDup (map id xs) ->
  forall x, In x xs ->
            settled x (fold_left (fun acc y => register y acc) xs rs).
Proof.
  revert rs. induction xs as [|y xs IH]; intros rs Hnd x Hx; [destruct Hx|].
  cbn [map] in Hnd. apply List.NoDup_cons_iff in Hnd as [Hy Hnd].
  cbn [fold_left]. destruct Hx as [<-|Hx].
  - apply settled_registering; [apply settled_register|].
    intros z Hz E. apply Hy. rewrite <- E. apply in_map. exact Hz.
  - apply IH; assumption.
Qed.

Lemma jobsFor_ids_distinct (ns : NotificationStrategy) :
  List.NoDup (map id (jobsFor ns)).
Proof.
  unfold jobsFor.
  destruct (progressAlert ns), (lowProgressWarning ns), (campaignExpiredAlert ns);
    cbn [app map];
    repeat (apply List.NoDup_cons;
            [cbn; intros H;
             repeat (destruct H as [H|H]; [discriminate H|]); destruct H|]);
    apply List.NoDup_nil.
Qed.

(** Setting up the jobs of a strategy a second time, with nothing removed
    in between, registers nothing again: the store is as the first setup
    left it. *)
Theorem setup_twice_registers_once (f : Faults) (ns : NotificationStrategy)
    (q : Queue) :
  (forall n, f (OpAdd n) = None) ->
  setupNotificationJobs f ns (snd (setupNotificationJobs f ns q))
  = setupNotificationJobs f ns q.
Proof.
  intros Hf. rewrite !(setup_without_faults f ns _ Hf). cbn [snd repeatable waiting].
  rewrite registering_settled; [reflexivity|].
  intros x Hx. apply all_settled; [apply jobsFor_ids_distinct | exact Hx].
Qed.

Lemma setup_twice_registers_once_witness :
  setupNotificationJobs noFaults Sample.rescheduled
    (snd (setupNotificationJobs noFaults Sample.rescheduled Sample.staleQueue))
  = setupNotificationJobs noFaults Sample.rescheduled Sample.staleQueue.
Proof.
  exact (setup_twice_registers_once noFaults Sample.rescheduled
           Sample.staleQueue (fun _ => eq_refl)).
Defined.

(** Registration is not undone: when the progress alert is registered and
    the registration of the low-progress check is then rejected, the
    rejection is thrown, the progress alert stays registered, and the
    expiry check is not attempted. *)
Theorem setup_stops_at_first_rejection (f : Faults) (ns : NotificationStrategy)
    (q : Queue) (e : exn) :
  progressAlert ns = true ->
  f (OpAdd "sendProgressAlert") = None ->
  lowProgressWarning ns = true ->
  f (OpAdd "checkLowProgress") = Some e ->
  setupNotificationJobs f ns q
  = (Throw e,
     {| repeatable :=
          register
            {| name := "sendProgressAlert";
               data := ProgressAlertData (progressAlertMessage ns)
                         (frequency (progressAlertSchedule ns)) (campingId ns)
                         (organizationId ns);
               id := "progress-alert-job";
               pattern := cronExpression (progressAlertSchedule ns) |}
            (repeatable q);
        waiting := waiting q |}).
Proof.
  intros Hp Hfp Hl Hfl.
  unfold setupNotificationJobs. rewrite tryCatch_rethrow.
  unfold mbind, M_bind, bind, addProgressAlertJob, addLowProgressWarningJob, add.
  rewrite Hp, Hfp, Hl, Hfl. reflexivity.
Qed.

Lemma setup_stops_at_first_rejection_witness :
  fst (setupNotificationJobs Sample.flakyBackend Sample.rescheduled
         Sample.emptyQueue)
    = Throw (Rejected "redis: add")
  /\ map id (repeatable (snd (setupNotificationJobs Sample.flakyBackend
                               Sample.rescheduled Sample.emptyQueue)))
      = ["progress-alert-job"].
Proof.
  rewrite (setup_stops_at_first_rejection Sample.flakyBackend
             Sample.rescheduled Sample.emptyQueue (Rejected "redis: add")
             eq_refl eq_refl eq_refl eq_refl).
  split; reflexivity.
Defined.

End ContentProperties.


(** ** Reading and deleting a campaign *)

Section Crud.
Import CampaignCrud.

(** A hard delete of a campaign that does not exist fails with not-found
    and changes nothing. One that exists is returned and removed, so that
    it is no longer found and a second hard delete fails; the other
    campaigns stay, and its image file is unlinked exactly when it has
    one. *)
Theorem hard_delete_removes (i : string) (s : Store) :
  (docs s !! i = None ->
   hardDeleteCampaign i s
   = (Throw (AppError NOT_FOUND "Campaign not found."), s))
  /\ (forall doc, docs s !! i = Some doc ->
        let s' := snd (hardDeleteCampaign i s) in
        fst (hardDeleteCampaign i s) = Normal doc
        /\ getCampaignById i s' = (Normal None, s')
        /\ (forall j, j <> i -> docs s' !! j = docs s !! j)
        /\ unlinked s'
            = (unlinked s
               ++ match cause_image doc with
                  | Some path => if truthy path then [path] else []
                  | None => []
                  end)%list
        /\ hardDeleteCampaign i s'
            = (Throw (AppError NOT_FOUND "Campaign not found."), s')).
Proof.
  unfold hardDeleteCampaign, getCampaignById, mbind, M_bind, bind,
    Campaign_findByIdAndDelete, unlinkFile, modify, ret.
  split.
  - intros H. rewrite H. rewrite delete_id by exact H.
    destruct s. reflexivity.
  - intros doc H. rewrite H. cbv zeta.
    assert (Hs : forall u,
               {| docs := delete i (delete i (docs s)); unlinked := u |}
               = {| docs := delete i (docs s); unlinked := u |}).
    { intros u. rewrite delete_delete_eq. reflexivity. }
    destruct (cause_image doc) as [path|]; cbn [truthyOpt default];
      [destruct (truthy path)|]; cbn [fst snd docs unlinked];
      rewrite ?lookup_delete_eq, ?app_nil_r, ?Hs;
      (split; [reflexivity|]); (split; [reflexivity|]);
      (split; [intros j Hj; apply lookup_delete_ne; congruence|]);
      split; reflexivity.
Qed.

(** A soft delete of a campaign that does not exist fails with not-found
    and changes nothing. One that exists stays in the collection, marked
    as deleted with the date of the call; its image file is not unlinked,
    and the other campaigns are as they were. *)
Theorem soft_delete_marks (now : Z) (i : string) (s : Store) :
  (docs s !! i = None ->
   deleteCampaign now i s
   = (Throw (AppError NOT_FOUND "Campaign not found."), s))
  /\ (forall doc, docs s !! i = Some doc ->
        let marked := {| cause_image := cause_image doc; isDeleted := true;
                         deletedAt := Some now |} in
        let s' := snd (deleteCampaign now i s) in
        fst (deleteCampaign now i s) = Normal marked
        /\ docs s' !! i = Some marked
        /\ (forall j, j <> i -> docs s' !! j = docs s !! j)
        /\ unlinked s' = unlinked s).
Proof.
  unfold deleteCampaign, getCampaignById, mbind, M_bind, bind, modify, ret.
  split.
  - intros H. rewrite H. reflexivity.
  - intros doc H. rewrite H. cbn [fst snd docs unlinked].
    split; [reflexivity|]. split; [apply lookup_insert_eq|].
    split; [|reflexivity].
    intros j Hj. apply lookup_insert_ne. congruence.
Qed.

End Crud.

(** ** More on the invitation flow *)

Section InvitationProperties.
Import CampaignService InviteSpec.

(** A request with a positive donation, of any amount and for any
    invitees, on which nothing is rejected: one invitation record per
    invitee is added, in the order of the invitees and flagged as
    donated, also for an invitee without a phone number; one completed
    donation record of that amount is added; the referring user's
    totalRaised grows by the amount, the inviter's totalDonated by the
    amount and totalInvited by the number of invitees; nobody else
    changes. *)
Theorem donation_of_any_amount (env : Env) (payload : InvitePayload)
    (userId campaignId : string) (w : World) (campaign : CampaignDoc)
    (inviter referrer : User) (amount : Z) :
  validRequest payload userId campaignId w campaign inviter referrer ->
  (forall phone text, smsFault env phone text = None) ->
  (forall step, txFault env step = None) ->
  donationAmount payload = Some amount ->
  0 < amount ->
  let run := invitePeopleToCampaign env payload userId campaignId w in
  fst run = Normal {| result_message := "People invited successfully";
                      result_donationAmount := Some amount |}
  /\ invitations (db (snd run))
     = (invitations (db w)
        ++ map (fun invitee =>
                  {| invitation_type := InvitationType_invitation;
                     invitation_campaignId := campaignId;
                     invitationFromUser := userId;
                     invitationFromPhone := default "" (contact inviter);
                     invitation_forPhone := invitationForPhone invitee;
                     invitation_forName := default "" (invitationForName invitee);
                     isDonated := true |})
             (myInvitees payload))%list
  /\ transactions (db (snd run))
     = (transactions (db w)
        ++ [{| donorId := userId;
               donorPhone := default "" (contact inviter);
               transaction_paymentMethod := paymentMethod payload;
               transactionId := generatedTransactionId env;
               amountPaid := amount;
               transaction_campaignId := campaignId;
               paymentStatus := paymentStatusType_COMPLETED |}])%list
  /\ users (db (snd run)) !! invitationIrecievedFrom payload
     = Some {| contact := contact referrer;
               totalRaised := totalRaised referrer + amount;
               totalDonated := totalDonated referrer;
               totalInvited := totalInvited referrer |}
  /\ users (db (snd run)) !! userId
     = Some {| contact := contact inviter;
               totalRaised := totalRaised inviter;
               totalDonated := totalDonated inviter + amount;
               totalInvited :=
                 totalInvited inviter + Z.of_nat (length (myInvitees payload)) |}
  /\ (forall other : string,
        other <> userId -> other <> invitationIrecievedFrom payload ->
        users (db (snd run)) !! other = users (db w) !! other)
  /\ campaigns (db (snd run)) = campaigns (db w).
Proof.
  intros Hv Hsms Htx Ha Hpos run. subst run.
  pose proof Hv as (Hne & Hc & Hu & Hp & Hr).
  rewrite (invite_outcome env payload userId campaignId w campaign inviter
             referrer Hv).
  rewrite (smsOutcome_calm env campaign _ Hsms). cbn [fst snd]. cbv zeta.
  rewrite (goes_through_calm env payload Htx). cbn [fst snd db].
  assert (Hd : donates payload = true).
  { unfold donates. rewrite Ha. apply Z.ltb_lt. exact Hpos. }
  assert (Hflag : andPositive (Some amount) = JsBoolean true).
  { unfold andPositive. destruct (Z.eqb_spec amount 0) as [E|_]; [lia|].
    f_equal. apply Z.ltb_lt. exact Hpos. }
  unfold invited, committed, donationOf, invitationDto. rewrite Hd, Ha, Hflag.
  cbn [users invitations transactions campaigns default].
  split; [reflexivity|]. split.
  { apply (f_equal (app (invitations (db w)))). apply map_ext.
    intros invitee. destruct (invitationForName invitee); reflexivity. }
  split; [reflexivity|]. split.
  { rewrite lookup_alter_ne by (intros E; apply Hne; symmetry; exact E).
    rewrite lookup_alter_eq, Hr. reflexivity. }
  split.
  { rewrite lookup_alter_eq.
    rewrite lookup_alter_ne by exact Hne. rewrite Hu. reflexivity. }
  split; [|reflexivity].
  intros other Ho1 Ho2.
  rewrite lookup_alter_ne by (intros E; apply Ho1; symmetry; exact E).
  rewrite lookup_alter_ne by (intros E; apply Ho2; symmetry; exact E).
  reflexivity.
Qed.

Lemma donation_of_any_amount_witness :
  validRequest InviteSample.threeInvitees "ann" "c1" InviteSample.world
    {| campaign_title := "Shelter" |} InviteSample.ann InviteSample.bob
  /\ map invitation_forPhone
        (invitations (db (snd (invitePeopleToCampaign InviteSample.calm
                                 InviteSample.threeInvitees "ann" "c1"
                                 InviteSample.world))))
      = ["+15550101"; "+15550102"; ""].
Proof.
  assert (Hv : validRequest InviteSample.threeInvitees "ann" "c1"
                 InviteSample.world {| campaign_title := "Shelter" |}
                 InviteSample.ann InviteSample.bob).
  { repeat split; try reflexivity. discriminate. }
  split; [exact Hv|].
  destruct (donation_of_any_amount InviteSample.calm InviteSample.threeInvitees
              "ann" "c1" InviteSample.world _ _ _ 50 Hv
              (fun _ _ => eq_refl) (fun _ => eq_refl) eq_refl eq_refl)
    as (_ & Hi & _).
  rewrite Hi. reflexivity.
Defined.

(** A request without a positive donation, on which nothing is rejected:
    one invitation record per invitee is added, no donation record is
    written and no user changes: the inviter's totalInvited does not
    grow. The [isDonated] of each record is the value of
    [payload.donationAmount && payload.donationAmount > 0], which is not
    always a boolean: [undefined] without an amount, the number 0 for an
    amount of 0, and [false] for a negative amount. *)
Theorem invitation_without_donation (env : Env) (payload : InvitePayload)
    (userId campaignId : string) (w : World) (campaign : CampaignDoc)
    (inviter referrer : User) :
  validRequest payload userId campaignId w campaign inviter referrer ->
  (forall phone text, smsFault env phone text = None) ->
  txFault env InsertInvitations = None ->
  txFault env CommitTransaction = None ->
  (donationAmount payload = None
   \/ exists amount, donationAmount payload = Some amount /\ amount <= 0) ->
  let run := invitePeopleToCampaign env payload userId campaignId w in
  fst run = Normal {| result_message := "People invited successfully";
                      result_donationAmount := None |}
  /\ invitations (db (snd run))
      = (invitations (db w)
         ++ map (fun invitee =>
                   {| invitation_type := InvitationType_invitation;
                      invitation_campaignId := campaignId;
                      invitationFromUser := userId;
                      invitationFromPhone := default "" (contact inviter);
                      invitation_forPhone := invitationForPhone invitee;
                      invitation_forName := default "" (invitationForName invitee);
                      isDonated :=
                        match donationAmount payload with
                        | None => JsUndefined
                        | Some amount =>
                            if (amount =? 0)%Z then JsNumber 0
                            else JsBoolean false
                        end |})
              (myInvitees payload))%list
  /\ transactions (db (snd run)) = transactions (db w)
  /\ users (db (snd run)) = users (db w)
  /\ campaigns (db (snd run)) = campaigns (db w).
Proof.
  intros Hv Hsms Hins Hcom Hnone run. subst run.
  rewrite (invite_outcome env payload userId campaignId w campaign inviter
             referrer Hv).
  rewrite (smsOutcome_calm env campaign _ Hsms). cbn [fst snd]. cbv zeta.
  assert (Hd : donates payload = false).
  { unfold donates. destruct Hnone as [->|(a & -> & Ha)]; [reflexivity|].
    apply Z.ltb_ge. exact Ha. }
  assert (Hg : transactionGoesThrough env payload = true).
  { unfold transactionGoesThrough. cbn [forallb]. unfold reached, rejects.
    rewrite Hd, Hins, Hcom. reflexivity. }
  rewrite Hg. cbn [fst snd db].
  assert (Hflag : andPositive (donationAmount payload)
                  = match donationAmount payload with
                    | None => JsUndefined
                    | Some amount =>
                        if (amount =? 0)%Z then JsNumber 0 else JsBoolean false
                    end).
  { unfold andPositive. destruct Hnone as [->|(a & -> & Ha)]; [reflexivity|].
    destruct (Z.eqb_spec a 0) as [->|_]; [reflexivity|].
    f_equal. apply Z.ltb_ge. exact Ha. }
  unfold invited, committed, invitationDto. rewrite Hd, Hflag.
  cbn [users invitations transactions campaigns].
  split; [reflexivity|]. split; [|repeat split].
  apply (f_equal (app (invitations (db w)))). apply map_ext.
  intros invitee. destruct (invitationForName invitee); reflexivity.
Qed.

Lemma invitation_without_donation_witness :
  validRequest MoreInviteSample.withoutDonation "ann" "c1" InviteSample.world
    {| campaign_title := "Shelter" |} InviteSample.ann InviteSample.bob
  /\ map isDonated
       (invitations (db (snd (invitePeopleToCampaign InviteSample.calm
                                MoreInviteSample.withoutDonation "ann" "c1"
                                InviteSample.world))))
     = (map isDonated (invitations (db InviteSample.world))
        ++ [JsUndefined; JsUndefined; JsUndefined])%list
  /\ users (db (snd (invitePeopleToCampaign InviteSample.calm
                       MoreInviteSample.withoutDonation "ann" "c1"
                       InviteSample.world)))
      = users (db InviteSample.world).
Proof.
  assert (Hv : validRequest MoreInviteSample.withoutDonation "ann" "c1"
                 InviteSample.world {| campaign_title := "Shelter" |}
                 InviteSample.ann InviteSample.bob).
  { repeat split; try reflexivity. discriminate. }
  split; [exact Hv|].
  destruct (invitation_without_donation InviteSample.calm
              MoreInviteSample.withoutDonation "ann" "c1" InviteSample.world
              _ _ _ Hv (fun _ _ => eq_refl) eq_refl eq_refl
              (or_introl eq_refl))
    as (_ & Hi & _ & Hu & _).
  split; [|exact Hu].
  rewrite Hi, map_app. reflexivity.
Defined.

(** The checks before the loop, in their order: an unknown campaign, then
    an inviter who does not exist or has no contact phone, then a
    referring user who does not exist, each end the request with its
    not-found error; the world is as it was and no text message has been
    sent. *)
Theorem invitation_not_found (env : Env) (payload : InvitePayload)
    (userId campaignId : string) (w : World) :
  invitationIrecievedFrom payload <> userId ->
  let run := invitePeopleToCampaign env payload userId campaignId w in
  (campaigns (db w) !! campaignId = None ->
   run = (Throw (AppError NOT_FOUND "Campaign not found."), w))
  /\ (is_Some (campaigns (db w) !! campaignId) ->
      (users (db w) !! userId = None
       \/ exists u, users (db w) !! userId = Some u
                    /\ truthyOpt (contact u) = false) ->
      run = (Throw (AppError NOT_FOUND "User not found."), w))
  /\ (is_Some (campaigns (db w) !! campaignId) ->
      (exists u, users (db w) !! userId = Some u
                 /\ truthyOpt (contact u) = true) ->
      users (db w) !! invitationIrecievedFrom payload = None ->
      run = (Throw (AppError NOT_FOUND "Invitation User not found."), w)).
Proof.
  intros Hne run. subst run. unfold invitePeopleToCampaign.
  apply String.eqb_neq in Hne. rewrite Hne.
  unfold mbind, M_bind, bind, Campaign_findById, User_findById, throw.
  split; [|split].
  - intros ->. reflexivity.
  - intros [c ->] [->|(u & -> & Hu)]; [reflexivity|]. rewrite Hu. reflexivity.
  - intros [c ->] (u & -> & Hu) Hr. rewrite Hu. cbn [negb]. rewrite Hr.
    reflexivity.
Qed.

Lemma invitation_not_found_witness :
  invitationIrecievedFrom MoreInviteSample.fromBob <> "bob"
  /\ invitePeopleToCampaign InviteSample.calm MoreInviteSample.fromBob
        "bob" "c1" InviteSample.world
      = (Throw (AppError NOT_FOUND "User not found."), InviteSample.world).
Proof.
  assert (H : invitationIrecievedFrom MoreInviteSample.fromBob <> "bob")
    by discriminate.
  split; [exact H|].
  refine (proj1 (proj2 (invitation_not_found InviteSample.calm
                          MoreInviteSample.fromBob "bob" "c1"
                          InviteSample.world H)) _ _).
  - eexists. reflexivity.
  - right. exists InviteSample.bob. split; reflexivity.
Defined.

End InvitationProperties.

(** ** The expiry check and a missing owner *)

Section ExpiryFailure.
Import ScheduleQueue ContentService NotificationWorker Spec WorkerSteps.

(** The expiry check marks a campaign before it notifies the owner. When
    the owner of a selected campaign no longer exists the job fails, but
    that campaign is already expired: no later run selects it, so nobody
    is notified of its end. The campaigns selected before it have been
    marked and their owners notified; those after it are untouched by
    this run. *)
Theorem expiry_marks_before_notifying (clk : Clock) (d : JobData) (w : World)
    (pre post : list Campaign) (c : Campaign) :
  List.filter (expiredQuery clk) (campaigns w) = (pre ++ c :: post)%list ->
  (forall x, In x pre -> createdBy x ∈ users w) ->
  createdBy c ∉ users w ->
  let r := processJob clk {| job_name := "checkExpiredCampaigns";
                             job_data := d |} w in
  fst r = Throw (TypeError "Cannot read properties of null (reading '_id')")
  /\ campaigns (snd r) = markExpired (map _id (pre ++ [c])%list) (campaigns w)
  /\ sent (snd r) = (sent w ++ map expiredNoticeFor pre)%list
  /\ In (withStatus "expired" c) (campaigns (snd r))
  /\ (forall clk', expiredQuery clk' (withStatus "expired" c) = false).
Proof.
  intros Hf Hpre Hc r. subst r.
  assert (H : processJob clk {| job_name := "checkExpiredCampaigns";
                                job_data := d |} w
              = (Throw (TypeError "Cannot read properties of null (reading '_id')"),
                 {| campaigns := markExpired (map _id (pre ++ [c])%list) (campaigns w);
                    users := users w; content := content w;
                    sent := (sent w ++ map expiredNoticeFor pre)%list |})).
  { unfold processJob. rewrite tryCatch_rethrow. cbn [job_name job_data].
    change (String.eqb "checkExpiredCampaigns" "sendProgressAlert") with false.
    change (String.eqb "checkExpiredCampaigns" "checkLowProgress") with false.
    change (String.eqb "checkExpiredCampaigns" "checkExpiredCampaigns") with true.
    cbv iota. rewrite handleExpiredCampaigns_loop.
    unfold mbind, M_bind, bind at 1. unfold Campaign_find.
    rewrite Hf, forOf_app. unfold bind at 1.
    rewrite (expire_loop pre w Hpre).
    cbn [forOf]. unfold bind at 1. unfold expireStep at 1.
    unfold mbind, M_bind, bind, Campaign_setStatus, modify.
    rewrite ownerId_missing by exact Hc.
    cbn [campaigns users content sent].
    change (fun c0 : Campaign =>
              if String.eqb (_id c0) (_id c)
              then {| _id := _id c0; title := title c0; status := "expired";
                      endDate := endDate c0;
                      currentAmount := currentAmount c0;
                      goalAmount := goalAmount c0;
                      createdBy := createdBy c0 |}
              else c0)
      with (fun c0 : Campaign =>
              if String.eqb (_id c0) (_id c) then withStatus "expired" c0 else c0).
    f_equal. f_equal. unfold markExpired. rewrite map_map. apply map_ext.
    intros x. rewrite map_app, existsb_app. cbn [map existsb].
    rewrite orb_false_r.
    destruct (existsb (String.eqb (_id x)) (map _id pre));
      cbn [_id withStatus orb];
      destruct (String.eqb (_id x) (_id c)); reflexivity. }
  rewrite H. cbn [fst snd campaigns sent].
  split; [reflexivity|]. split; [reflexivity|]. split; [reflexivity|].
  split; [|reflexivity].
  unfold markExpired. apply in_map_iff. exists c. split.
  - rewrite map_app, existsb_app. cbn [map existsb].
    rewrite String.eqb_refl, orb_true_r. reflexivity.
  - assert (Hin : In c (List.filter (expiredQuery clk) (campaigns w))).
    { rewrite Hf. apply in_or_app. right. left. reflexivity. }
    apply filter_In in Hin as [Hin _]. exact Hin.
Qed.

Lemma expiry_marks_before_notifying_witness :
  (createdBy (MoreSample.campaign "c" 900 1000 (8 * MoreSample.day))
     ∉ users MoreSample.ownerlessWorld)
  /\ (let r := processJob MoreSample.clock
                {| job_name := "checkExpiredCampaigns"; job_data := NoData |}
                MoreSample.ownerlessWorld in
     sent (snd r) = []
     /\ handleExpiredCampaigns MoreSample.clock (snd r) = (Normal tt, snd r)).
Proof.
  assert (H : createdBy (MoreSample.campaign "c" 900 1000 (8 * MoreSample.day))
                ∉ users MoreSample.ownerlessWorld)
    by (cbn [users MoreSample.ownerlessWorld]; apply not_elem_of_empty).
  split; [exact H|].
  destruct (expiry_marks_before_notifying MoreSample.clock NoData
              MoreSample.ownerlessWorld [] []
              (MoreSample.campaign "c" 900 1000 (8 * MoreSample.day))
              eq_refl (fun x (Hx : In x []) => match Hx with end) H)
    as (_ & _ & Hs & _ & _).
  cbv zeta. split; [exact Hs|]. vm_compute. reflexivity.
Defined.

End ExpiryFailure.
